(** * YouTube video manager: a shallow embedding of the pipeline and its helpers

    The development follows the two implementations that live side by side in
    the repository:

    - the [app] package ([app/utils/helpers.py], [app/utils/validators.py],
      [app/core/downloader.py], [app/services/google_sheets.py],
      [app/services/google_drive.py], [app/core/processor.py],
      [app/config/settings.py]), which is the one [main.py] runs, with the
      input loop of [main.py] itself;
    - the older single-file manager ([src/youtube_manager.py] with
      [utils/validators.py]), kept under [Module Legacy].

    Python strings are sequences of Unicode code points, so a string is a
    [list N]; exceptions are a class tag with a message; the three external
    services are an explicit world (sheet rows, file system, call trace) plus
    an oracle record that fixes what each collaborator answers. *)

From Stdlib Require Import NArith ZArith List String Ascii Bool Lia.
From Stdlib Require Import Decimal DecimalN.
From stdpp Require Import base option list gmap.

Local Open Scope N_scope.
Local Open Scope list_scope.

(** ** Python strings *)

Definition pystr := list N.

(** [py "text"] is the Python literal ['text'] (ASCII literals only). *)
Definition py (s : string) : pystr :=
  List.map N_of_ascii (list_ascii_of_string s).

Definition pystr_eqb (a b : pystr) : bool := bool_decide (a = b).

(** [s.lstrip(chars)], [s.rstrip(chars)], [s.strip(chars)] for a character
    class given as a predicate. *)
Fixpoint lstrip (p : N -> bool) (s : pystr) : pystr :=
  match s with
  | [] => []
  | c :: t => if p c then lstrip p t else s
  end.

Definition rstrip (p : N -> bool) (s : pystr) : pystr :=
  rev (lstrip p (rev s)).

Definition strip (p : N -> bool) (s : pystr) : pystr :=
  rstrip p (lstrip p s).

(** [c in chars] *)
Definition in_chars (chars : pystr) (c : N) : bool :=
  existsb (N.eqb c) chars.

(** The characters [str.isspace] accepts, which is what [s.strip()] removes. *)
Definition isspace (c : N) : bool :=
  ((9 <=? c) && (c <=? 13)) || ((28 <=? c) && (c <=? 32))
  || (c =? 133) || (c =? 160) || (c =? 5760)
  || ((8192 <=? c) && (c <=? 8202))
  || (c =? 8232) || (c =? 8233) || (c =? 8239) || (c =? 8287) || (c =? 12288).

(** [s.rfind(c)]: the last index of [c], or -1. *)
Fixpoint rfind_aux (c : N) (s : pystr) (i : Z) (acc : Z) : Z :=
  match s with
  | [] => acc
  | d :: t => rfind_aux c t (i + 1)%Z (if d =? c then i else acc)
  end.

Definition rfind (c : N) (s : pystr) : Z := rfind_aux c s 0%Z (-1)%Z.

(** [s[i:j]] for non-negative [i], [j]. *)
Definition slice (s : pystr) (i j : nat) : pystr :=
  firstn (j - i) (skipn i s).

(** [needle in hay] *)
Fixpoint is_prefix (a s : pystr) : bool :=
  match a, s with
  | [], _ => true
  | _ :: _, [] => false
  | x :: a', y :: s' => (x =? y) && is_prefix a' s'
  end.

Fixpoint contains (needle hay : pystr) : bool :=
  is_prefix needle hay ||
  match hay with
  | [] => false
  | _ :: t => contains needle t
  end.

(** [s.partition(c)] for a one-character separator, as
    (head, separator found, tail). *)
Fixpoint partition (c : N) (s : pystr) : pystr * bool * pystr :=
  match s with
  | [] => ([], false, [])
  | d :: t =>
      if d =? c then ([], true, t)
      else let '(h, f, r) := partition c t in (d :: h, f, r)
  end.

(** [s.rpartition(c)], as (head, separator found, tail). *)
Definition rpartition (c : N) (s : pystr) : pystr * bool * pystr :=
  let '(h, f, r) := partition c (rev s) in
  if f then (rev r, true, rev h) else ([], false, s).

(** ** app/utils/helpers.py *)

Module Helpers.

Definition underscore : N := 95.
Definition dot : N := 46.
Definition space : N := 32.

(** The character class of the first [re.sub]: less-than, greater-than,
    colon, double quote, slash, backslash, bar, question mark, star. *)
Definition invalid_char (c : N) : bool :=
  (c =? 60) || (c =? 62) || (c =? 58) || (c =? 34) || (c =? 47)
  || (c =? 92) || (c =? 124) || (c =? 63) || (c =? 42).

(** [re.sub(invalid, '_', filename)] *)
Definition replace_invalid (s : pystr) : pystr :=
  List.map (fun c => if invalid_char c then underscore else c) s.

(** [''.join(char if ord(char) < 128 else '_' for char in filename)] *)
Definition replace_non_ascii (s : pystr) : pystr :=
  List.map (fun c => if c <? 128 then c else underscore) s.

(** [re.sub(r'_+', '_', filename)]: an underscore that is followed by
    another underscore is dropped, so every run keeps its last one. *)
Fixpoint collapse_underscores (s : pystr) : pystr :=
  match s with
  | [] => []
  | c :: t =>
      match t with
      | d :: _ =>
          if (c =? underscore) && (d =? underscore)
          then collapse_underscores t
          else c :: collapse_underscores t
      | [] => [c]
      end
  end.

(** [filename.strip('. ')] *)
Definition dot_or_space (c : N) : bool := (c =? dot) || (c =? space).

(** [genericpath._splitext(p, sep, altsep, extsep)], which is what
    [os.path.splitext] runs with [sep = '/'] (and [altsep = None]) on POSIX
    and [sep = '\\'], [altsep = '/'] on Windows. *)
Definition splitext_generic (sep : N) (altsep : option N) (p : pystr)
  : pystr * pystr :=
  let sepIndex :=
    match altsep with
    | Some a => Z.max (rfind sep p) (rfind a p)
    | None => rfind sep p
    end in
  let dotIndex := rfind dot p in
  if (sepIndex <? dotIndex)%Z
  then
    (* skip all leading dots *)
    if existsb (fun c => negb (c =? dot))
               (slice p (Z.to_nat (sepIndex + 1)) (Z.to_nat dotIndex))
    then (firstn (Z.to_nat dotIndex) p, skipn (Z.to_nat dotIndex) p)
    else (p, [])
  else (p, []).

Definition splitext (p : pystr) : pystr * pystr :=
  splitext_generic 47 None p.

Definition splitext_nt (p : pystr) : pystr * pystr :=
  splitext_generic 92 (Some 47) p.

(** The first four steps of [sanitize_filename], before the length limit. *)
Definition clean (filename : pystr) : pystr :=
  strip dot_or_space
    (collapse_underscores (replace_non_ascii (replace_invalid filename))).

Definition ellipsis : pystr := [dot; dot; dot].

(** [sanitize_filename(filename)] *)
Definition sanitize_filename (filename : pystr) : pystr :=
  let filename := clean filename in
  if (200 <? length filename)%nat
  then
    let '(name, ext) := splitext filename in
    firstn 196 name ++ ellipsis ++ ext
  else filename.

End Helpers.

(** ** Exceptions

    The classes of [app/utils/exceptions.py] and [utils/exceptions.py]
    (which share the names [ValidationError], [ConfigurationError],
    [GoogleSheetsError] and [GoogleDriveError]), followed by the classes the
    libraries raise. *)

Inductive exc_class :=
  | YouTubeManagerError
  | ValidationError
  | ConfigurationError
  | DownloadError
  | ProcessingError
  | UploadError
  | GoogleAPIError
  | GoogleSheetsError
  | GoogleDriveError
  | CleanupError
  | YouTubeDataError
  (* raised by yt_dlp, urllib, socket, the OS, googleapiclient, gspread and
     the interpreter *)
  | YTDLError
  | URLError
  | SocketTimeout
  | OSError
  | HttpError
  | APIError
  | SpreadsheetNotFound
  | ValueError
  | KeyError
  | IndexError
  | AttributeError.

#[global] Instance exc_class_eq_dec : EqDecision exc_class.
Proof. solve_decision. Defined.

Record exc := Exc { exc_cls : exc_class; exc_msg : pystr }.

(** The classes declared by the application: every one derives from
    [YouTubeManagerError]. *)
Definition taxonomy (c : exc_class) : bool :=
  match c with
  | YouTubeManagerError | ValidationError | ConfigurationError | DownloadError
  | ProcessingError | UploadError | GoogleAPIError | GoogleSheetsError
  | GoogleDriveError | CleanupError | YouTubeDataError => true
  | _ => false
  end.

(** [isinstance(e, cls)] for the handlers that occur in the code; [URLError]
    and [socket.timeout] derive from [OSError], the two Google errors of the
    [app] package from [GoogleAPIError]. *)
Definition isinstance (e : exc) (cls : exc_class) : bool :=
  bool_decide (exc_cls e = cls)
  || match cls, exc_cls e with
     | YouTubeManagerError, c => taxonomy c
     | GoogleAPIError, (GoogleSheetsError | GoogleDriveError) => true
     | OSError, (URLError | SocketTimeout) => true
     | _, _ => false
     end.

Inductive res (A : Type) :=
  | Ok (a : A)
  | Raise (e : exc).
Arguments Ok {A} a.
Arguments Raise {A} e.

Definition rbind {A B} (r : res A) (k : A -> res B) : res B :=
  match r with
  | Ok a => k a
  | Raise e => Raise e
  end.

(** [try: r  except Exception as e: h e] *)
Definition rtry {A} (r : res A) (h : exc -> res A) : res A :=
  match r with
  | Ok a => Ok a
  | Raise e => h e
  end.

(** ** The interface of [urllib.parse]

    [urlparse] and [parse_qs] belong to the interpreter's library, so the
    validators take them as an argument. [urlparse] may raise (a
    [ValueError] on a malformed bracketed host); of its result the code reads
    [hostname], [netloc], [path] and [query]. [parse_qs] returns a dict from
    names to lists of values. *)

Record ParseResult := {
  hostname : option pystr;
  netloc : pystr;
  path : pystr;
  query : pystr
}.

Record UrlLib := {
  urlparse : pystr -> res ParseResult;
  parse_qs : pystr -> gmap pystr (list pystr)
}.

(** [s.split(sep)] for a non-empty separator: [skip] counts the characters of
    a matched separator that are still to be passed over, [cur] is the piece
    being read, reversed. *)
Fixpoint split_go (sep s : pystr) (skip : nat) (cur : pystr) : list pystr :=
  match s with
  | [] => [rev cur]
  | c :: t =>
      match skip with
      | S k => split_go sep t k cur
      | O =>
          if is_prefix sep s
          then rev cur :: split_go sep t (length sep - 1) []
          else split_go sep t 0 (c :: cur)
      end
  end.

Definition split (sep s : pystr) : list pystr := split_go sep s 0 [].

(** The truth value of a string: [if video_id] *)
Definition truthy (s : pystr) : bool :=
  match s with [] => false | _ => true end.

(** ** Video identifiers *)

Definition id_char (c : N) : bool :=
  ((97 <=? c) && (c <=? 122)) || ((65 <=? c) && (c <=? 90))
  || ((48 <=? c) && (c <=? 57)) || (c =? 95) || (c =? 45).

Definition newline : N := 10.

(** [re.match(r'^[a-zA-Z0-9_-]{11}$', s)] as a truth value. Without
    [re.MULTILINE], [^] is the start of the string and [$] matches at the end
    of the string and also just before a newline that ends the string. *)
Definition re_match_id (s : pystr) : bool :=
  (length (firstn 11 s) =? 11)%nat
  && forallb id_char (firstn 11 s)
  && match skipn 11 s with
     | [] => true
     | [c] => c =? newline
     | _ => false
     end.

(** ** app/utils/validators.py *)

Module Validators.

Definition youtube_hosts : list pystr :=
  [py "www.youtube.com"; py "youtube.com"; py "m.youtube.com"].

(** [x in [a, b, ...]] for strings *)
Definition str_in (x : pystr) (l : list pystr) : bool :=
  existsb (pystr_eqb x) l.

(** [hostname in [...]] where [hostname] may be [None] *)
Definition host_in (h : option pystr) (l : list pystr) : bool :=
  match h with
  | Some x => str_in x l
  | None => false
  end.

(** [s.split(sep)[i]] raises [IndexError] when there is no such piece. *)
Definition index (l : list pystr) (i : nat) : res pystr :=
  match l !! i with
  | Some x => Ok x
  | None => Raise (Exc IndexError (py "list index out of range"))
  end.

(** [parsed_url.path.split(marker)[1].split('?')[0]] *)
Definition after_marker (marker p : pystr) : res (option pystr) :=
  rbind (index (split marker p) 1) (fun seg =>
  rbind (index (split (py "?") seg) 0) (fun v => Ok (Some v))).

(** The body of the [try] block. *)
Definition validate_body (L : UrlLib) (url : pystr) : res pystr :=
  (* Clean the URL *)
  let url := strip isspace url in
  (* Handle direct video IDs (11 characters) *)
  if re_match_id url then Ok url else
  (* Parse the URL *)
  rbind (urlparse L url) (fun parsed_url =>
  rbind
    ((* Handle different URL patterns *)
     if host_in (hostname parsed_url) youtube_hosts then
       if str_in (path parsed_url) [py "/watch"; py "/shorts"] then
         (* parse_qs(parsed_url.query).get('v', [None])[0] *)
         match parse_qs L (query parsed_url) !! py "v" with
         | None => Ok None
         | Some vs => rbind (index vs 0) (fun v => Ok (Some v))
         end
       else if contains (py "/shorts/") (path parsed_url) then
         after_marker (py "/shorts/") (path parsed_url)
       else if is_prefix (py "/embed/") (path parsed_url) then
         after_marker (py "/embed/") (path parsed_url)
       else if is_prefix (py "/v/") (path parsed_url) then
         after_marker (py "/v/") (path parsed_url)
       else Ok None
     else if bool_decide (hostname parsed_url = Some (py "youtu.be")) then
       let video_id := lstrip (N.eqb 47) (path parsed_url) in
       if contains (py "?") video_id
       then rbind (index (split (py "?") video_id) 0) (fun v => Ok (Some v))
       else Ok (Some video_id)
     else Ok None)
    (fun video_id =>
       (* Validate video ID format *)
       match video_id with
       | Some v =>
           if truthy v && re_match_id v then Ok v
           else Raise (Exc ValidationError
                         (py "Could not extract valid video ID from URL"))
       | None =>
           Raise (Exc ValidationError
                    (py "Could not extract valid video ID from URL"))
       end)).

(** [validate_youtube_url(url)] *)
Definition validate_youtube_url (L : UrlLib) (url : pystr) : res pystr :=
  rtry (validate_body L url) (fun e =>
    if isinstance e ValidationError then Raise e
    else Raise (Exc ValidationError
      (py "Invalid YouTube URL. Please provide a valid YouTube video URL."))).

End Validators.

(** ** A model of [urllib.parse]

    Used to run the validators on concrete URLs; the general statements about
    the validators quantify over every [UrlLib]. The model follows CPython's
    [urlsplit], [urlparse], [SplitResult.hostname], [parse_qsl], [parse_qs]
    and [unquote] on strings. It leaves out the NFKC check of the host, and
    lower-cases and percent-decodes ASCII only: a decoded byte above 127 is
    shown as U+FFFD. *)

Module PyUrllib.

Definition c0_or_space (c : N) : bool := c <=? 32.
Definition unsafe_char (c : N) : bool := (c =? 9) || (c =? 13) || (c =? 10).

Definition is_alpha (c : N) : bool :=
  ((97 <=? c) && (c <=? 122)) || ((65 <=? c) && (c <=? 90)).
Definition is_digit (c : N) : bool := (48 <=? c) && (c <=? 57).
Definition scheme_char (c : N) : bool :=
  is_alpha c || is_digit c || (c =? 43) || (c =? 45) || (c =? 46).

Definition lower_char (c : N) : N :=
  if (65 <=? c) && (c <=? 90) then c + 32 else c.
Definition lower (s : pystr) : pystr := List.map lower_char s.

(** [_splitnetloc(url, 2)]: the text after the two slashes up to the first
    of [/], [?], [#]. *)
Fixpoint splitnetloc (s : pystr) : pystr * pystr :=
  match s with
  | [] => ([], [])
  | c :: t =>
      if (c =? 47) || (c =? 63) || (c =? 35) then ([], s)
      else let '(n, r) := splitnetloc t in (c :: n, r)
  end.

Definition uses_params : list pystr :=
  [py ""; py "ftp"; py "hdl"; py "prospero"; py "http"; py "imap";
   py "https"; py "shttp"; py "rtsp"; py "rtspu"; py "sip"; py "sips";
   py "mms"; py "sftp"; py "tel"].

(** [_splitparams(url)], keeping the path only. *)
Definition splitparams (url : pystr) : pystr :=
  if in_chars url 47 then
    let '(dir, _, last) := rpartition 47 url in
    let '(h, _, _) := partition 59 last in
    dir ++ [47] ++ h
  else
    let '(h, _, _) := partition 59 url in h.

(** [SplitResult.hostname] *)
Definition hostname_of (netloc : pystr) : option pystr :=
  let '(_, _, hostinfo) := rpartition 64 netloc in
  let '(_, have_open_br, bracketed) := partition 91 hostinfo in
  let host :=
    if have_open_br
    then let '(h, _, _) := partition 93 bracketed in h
    else let '(h, _, _) := partition 58 hostinfo in h in
  match host with
  | [] => None
  | _ =>
      let '(h, percent, zone) := partition 37 host in
      Some (lower h ++ (if percent then [37] else []) ++ zone)
  end.

Definition urlparse_impl (url : pystr) : res ParseResult :=
  let url := lstrip c0_or_space url in
  let url := List.filter (fun c => negb (unsafe_char c)) url in
  let '(head, colon, rest) := partition 58 url in
  let '(scheme, url) :=
    if colon && truthy head
       && match head with c :: _ => is_alpha c | [] => false end
       && forallb scheme_char head
    then (lower head, rest) else ([], url) in
  let '(netloc, url) :=
    match url with
    | 47 :: 47 :: t => splitnetloc t
    | _ => ([], url)
    end in
  if xorb (in_chars netloc 91) (in_chars netloc 93)
  then Raise (Exc ValueError (py "Invalid IPv6 URL"))
  else
    let '(url, _, _) := partition 35 url in
    let '(url, _, query) := partition 63 url in
    let url :=
      if Validators.str_in scheme uses_params && in_chars url 59
      then splitparams url else url in
    Ok {| hostname := hostname_of netloc; netloc := netloc;
          path := url; query := query |}.

Definition hex_value (c : N) : option N :=
  if is_digit c then Some (c - 48)
  else if (97 <=? c) && (c <=? 102) then Some (c - 87)
  else if (65 <=? c) && (c <=? 70) then Some (c - 55)
  else None.

(** [unquote(s)] *)
Fixpoint unquote (s : pystr) : pystr :=
  match s with
  | [] => []
  | c :: t =>
      if c =? 37 then
        match t with
        | h1 :: h2 :: t' =>
            match hex_value h1, hex_value h2 with
            | Some a, Some b =>
                (if 16 * a + b <? 128 then 16 * a + b else 65533)
                :: unquote t'
            | _, _ => c :: unquote t
            end
        | _ => c :: unquote t
        end
      else c :: unquote t
  end.

Definition plus_to_space (s : pystr) : pystr :=
  List.map (fun c => if c =? 43 then 32 else c) s.

(** One field of [parse_qsl]: fields without [=] and fields with a blank
    value are skipped. *)
Definition parse_field (name_value : pystr) : option (pystr * pystr) :=
  let '(n, has_eq, v) := partition 61 name_value in
  if has_eq && truthy v
  then Some (unquote (plus_to_space n), unquote (plus_to_space v))
  else None.

(** [parse_qs(qs)]: values of a repeated name are collected in order. *)
Definition parse_qs_impl (qs : pystr) : gmap pystr (list pystr) :=
  fold_left
    (fun (d : gmap pystr (list pystr)) name_value =>
       match parse_field name_value with
       | Some (n, v) => <[n := default [] (d !! n) ++ [v]]> d
       | None => d
       end)
    (split (py "&") qs) ∅.

Definition lib : UrlLib := {| urlparse := urlparse_impl; parse_qs := parse_qs_impl |}.

End PyUrllib.

(** ** The world the pipeline acts on

    The tracking sheet is a list of rows of cells (row 1 of the sheet is the
    element at index 0), the file system maps the paths that exist to their
    sizes, and the trace records every call to a collaborator in the order
    it is made. *)

Inductive event :=
  | EvExtractInfo (url : pystr) (download : bool)
  | EvDownload (url outtmpl : pystr)
  | EvRowValues (row : nat)
  | EvInsertRow (cells : list pystr) (row : nat)
  | EvClear
  | EvAppendRow (cells : list pystr)
  | EvFind (text : pystr)
  | EvColValues (col : nat)
  | EvUpdateCell (row col : nat) (value : pystr)
  | EvUpload (file_path name : pystr)
  | EvMkdir (dir : pystr)
  | EvRename (src dst : pystr)
  | EvCopy (src dst : pystr)
  | EvUnlink (file_path : pystr).

#[global] Instance event_eq_dec : EqDecision event.
Proof. solve_decision. Defined.

Record World := {
  sheet : list (list pystr);
  files : gmap pystr N;
  trace : list event
}.

Definition set_sheet (sh : list (list pystr)) (w : World) : World :=
  {| sheet := sh; files := files w; trace := trace w |}.
Definition set_files (fs : gmap pystr N) (w : World) : World :=
  {| sheet := sheet w; files := fs; trace := trace w |}.
Definition record_event (ev : event) (w : World) : World :=
  {| sheet := sheet w; files := files w; trace := trace w ++ [ev] |}.

(** The dict that [ydl.extract_info] returns, as far as the code reads it:
    ['entries' in info], [is_live], [age_limit], [id], [title] (either may be
    missing), [description], [tags], [categories], [thumbnail] and
    [upload_date]. *)
Record ydl_info := {
  has_entries : bool;
  is_live : bool;
  age_limit : Z;
  info_id : option pystr;
  info_title : option pystr;
  info_description : pystr;
  info_tags : list pystr;
  info_categories : list pystr;
  info_thumbnail : pystr;
  info_upload_date : pystr
}.

(** What the resumable upload does: the set-up ([MediaFileUpload],
    [files().create]) raises, a [next_chunk] raises, or the loop ends with a
    response that may carry an id. The progress the loop prints is not part
    of the world. *)
Inductive upload_outcome :=
  | UploadSetupRaises (e : exc)
  | UploadChunkRaises (e : exc)
  | UploadResponse (id : option pystr).

(** What the collaborators answer. A [Some e] in an [option exc] means that
    the call raises [e] and changes nothing. *)
Record Oracle := {
  (* yt_dlp: extract_info(url, download=False) *)
  ydl_extract_info : pystr -> res (option ydl_info);
  (* yt_dlp: download([url]) with the given outtmpl; when it returns, the
     size of the file it left at outtmpl, if it left one *)
  ydl_download : pystr -> pystr -> res (option N);
  (* yt_dlp: extract_info(url, download=True) with the directory of the
     outtmpl; the file is named after the id of the info *)
  ydl_extract_and_download : pystr -> res (option ydl_info * option N);
  (* pathlib, shutil *)
  os_mkdir : pystr -> option exc;
  os_rename : pystr -> pystr -> option exc;
  os_copy : pystr -> pystr -> option exc;
  os_unlink : pystr -> option exc;
  (* gspread *)
  gs_open_by_key : option exc;
  gs_row_values : nat -> option exc;
  gs_insert_row : list pystr -> nat -> option exc;
  gs_clear : option exc;
  gs_append_row : list pystr -> option exc;
  gs_find : pystr -> option exc;
  gs_col_values : nat -> option exc;
  gs_update_cell : nat -> nat -> pystr -> option exc;
  (* googleapiclient *)
  drive_upload : pystr -> pystr -> upload_outcome;
  (* datetime.now().strftime('%Y-%m-%d') *)
  today : pystr;
  (* the client_email of the credentials file *)
  service_account_email : pystr
}.

(** ** The monad of the pipeline: state and exceptions *)

Definition M (A : Type) : Type := World -> res A * World.

Definition ret {A} (a : A) : M A := fun w => (Ok a, w).

Definition bind {A B} (m : M A) (k : A -> M B) : M B :=
  fun w =>
    match m w with
    | (Ok a, w') => k a w'
    | (Raise e, w') => (Raise e, w')
    end.

Definition raise {A} (e : exc) : M A := fun w => (Raise e, w).

(** [try: m  except Exception as e: h e] *)
Definition try_except {A} (m : M A) (h : exc -> M A) : M A :=
  fun w =>
    match m w with
    | (Ok a, w') => (Ok a, w')
    | (Raise e, w') => h e w'
    end.

(** [try: m  finally: f] *)
Definition try_finally {A} (m : M A) (f : M unit) : M A :=
  fun w =>
    let '(r, w') := m w in
    match f w' with
    | (Ok _, w'') => (r, w'')
    | (Raise e, w'') => (Raise e, w'')
    end.

Definition lift {A} (r : res A) : M A := fun w => (r, w).
Definition call (ev : event) : M unit := fun w => (Ok tt, record_event ev w).
Definition gets {A} (f : World -> A) : M A := fun w => (Ok (f w), w).
Definition modify (f : World -> World) : M unit := fun w => (Ok tt, f w).

(** A collaborator call that may raise. *)
Definition answer (o : option exc) : M unit :=
  match o with
  | Some e => raise e
  | None => ret tt
  end.

Declare Scope py_scope.
Delimit Scope py_scope with py.
Notation "x <- m ;; k" := (bind m (fun x => k))
  (at level 100, m at next level, right associativity) : py_scope.
Notation "m ;; k" := (bind m (fun _ => k))
  (at level 100, right associativity) : py_scope.
Local Open Scope py_scope.

(** ** File system calls *)

Definition path_join (dir name : pystr) : pystr := dir ++ py "/" ++ name.

(** [p.exists()] *)
Definition exists_ (p : pystr) : M bool :=
  gets (fun w => bool_decide (is_Some (files w !! p))).

(** [p.parent.mkdir(parents=True, exist_ok=True)] *)
Definition mkdir (o : Oracle) (dir : pystr) : M unit :=
  call (EvMkdir dir) ;; answer (os_mkdir o dir).

(** [src.rename(dst)]: a missing source is a [FileNotFoundError], which is an
    [OSError]. *)
Definition rename (o : Oracle) (src dst : pystr) : M unit :=
  call (EvRename src dst) ;;
  answer (os_rename o src dst) ;;
  sz <- gets (fun w => files w !! src) ;;
  match sz with
  | Some n => modify (fun w => set_files (<[dst := n]> (delete src (files w))) w)
  | None => raise (Exc OSError (py "No such file or directory"))
  end.

(** [p.unlink()] *)
Definition unlink (o : Oracle) (p : pystr) : M unit :=
  call (EvUnlink p) ;;
  answer (os_unlink o p) ;;
  sz <- gets (fun w => files w !! p) ;;
  match sz with
  | Some _ => modify (fun w => set_files (delete p (files w)) w)
  | None => raise (Exc OSError (py "No such file or directory"))
  end.

(** [shutil.copy2(src, dst)] *)
Definition copy2 (o : Oracle) (src dst : pystr) : M unit :=
  call (EvCopy src dst) ;;
  answer (os_copy o src dst) ;;
  sz <- gets (fun w => files w !! src) ;;
  match sz with
  | Some n => modify (fun w => set_files (<[dst := n]> (files w)) w)
  | None => raise (Exc OSError (py "No such file or directory"))
  end.

(** ** Sheet calls *)

Fixpoint dropwhile_empty (cells : list pystr) : list pystr :=
  match cells with
  | [] :: t => dropwhile_empty t
  | _ => cells
  end.

Definition pad {A} (n : nat) (d : A) (l : list A) : list A :=
  l ++ replicate (n - length l) d.

(** The cell at 0-based [r], [c]; a cell that was never written is empty. *)
Definition get_cell (r c : nat) (sh : list (list pystr)) : pystr :=
  default [] (default [] (sh !! r) !! c).

(** Writing the cell at 0-based [r], [c]; the grid grows with empty cells
    where the row or the column did not exist. *)
Definition set_cell (r c : nat) (v : pystr) (sh : list (list pystr))
  : list (list pystr) :=
  let sh' := pad (S r) [] sh in
  <[r := <[c := v]> (pad (S c) [] (default [] (sh' !! r)))]> sh'.

Fixpoint find_in_row (text : pystr) (cells : list pystr) (col : nat)
  : option nat :=
  match cells with
  | [] => None
  | c :: t => if pystr_eqb c text then Some col else find_in_row text t (S col)
  end.

(** The first cell, row by row, whose value is [text], as 1-based
    (row, column). *)
Fixpoint find_from (text : pystr) (sh : list (list pystr)) (row : nat)
  : option (nat * nat) :=
  match sh with
  | [] => None
  | cells :: t =>
      match find_in_row text cells 1 with
      | Some col => Some (row, col)
      | None => find_from text t (S row)
      end
  end.

(** A row or column as the API returns it: without trailing empty cells. *)
Definition trim_empty (cells : list pystr) : list pystr :=
  rev (dropwhile_empty (rev cells)).

(** [worksheet.row_values(row)], 1-based. *)
Definition row_values (o : Oracle) (row : nat) : M (list pystr) :=
  call (EvRowValues row) ;;
  answer (gs_row_values o row) ;;
  gets (fun w => trim_empty (default [] (sheet w !! (row - 1)%nat))).

(** The values of the 1-based column [col], top to bottom. *)
Definition column_of (col : nat) (sh : list (list pystr)) : list pystr :=
  trim_empty (List.map (fun cells => default [] (cells !! (col - 1)%nat)) sh).

(** [worksheet.col_values(col)], 1-based. *)
Definition col_values (o : Oracle) (col : nat) : M (list pystr) :=
  call (EvColValues col) ;;
  answer (gs_col_values o col) ;;
  gets (fun w => column_of col (sheet w)).

(** [worksheet.insert_row(cells, 1)] *)
Definition insert_row (o : Oracle) (cells : list pystr) (row : nat) : M unit :=
  call (EvInsertRow cells row) ;;
  answer (gs_insert_row o cells row) ;;
  modify (fun w =>
    set_sheet (firstn (row - 1)%nat (pad (row - 1)%nat [] (sheet w)) ++ [cells]
               ++ skipn (row - 1)%nat (sheet w)) w).

(** [worksheet.clear()] *)
Definition clear (o : Oracle) : M unit :=
  call EvClear ;;
  answer (gs_clear o) ;;
  modify (set_sheet []).

(** [worksheet.append_row(cells)] *)
Definition append_row (o : Oracle) (cells : list pystr) : M unit :=
  call (EvAppendRow cells) ;;
  answer (gs_append_row o cells) ;;
  modify (fun w => set_sheet (sheet w ++ [cells]) w).

(** [worksheet.find(text)], [None] when no cell has the value. *)
Definition find (o : Oracle) (text : pystr) : M (option (nat * nat)) :=
  call (EvFind text) ;;
  answer (gs_find o text) ;;
  gets (fun w => find_from text (sheet w) 1).

(** [worksheet.update_cell(row, col, value)], 1-based. *)
Definition update_cell (o : Oracle) (row col : nat) (value : pystr) : M unit :=
  call (EvUpdateCell row col value) ;;
  answer (gs_update_cell o row col value) ;;
  modify (fun w => set_sheet (set_cell (row - 1) (col - 1) value (sheet w)) w).

(** ** app/config/settings.py *)

Record Settings := {
  BASE_DIR : pystr;
  PLAYLIST_ID : option pystr;
  KEEP_FILES : bool;
  UPLOAD_TO_DRIVE : bool
}.

Definition STORAGE_DIR (s : Settings) : pystr := path_join (BASE_DIR s) (py "storage").
Definition VIDEO_DIR (s : Settings) : pystr := path_join (STORAGE_DIR s) (py "videos").
Definition TEMP_DIR (s : Settings) : pystr := path_join (VIDEO_DIR s) (py "temp").
Definition PROCESSED_DIR (s : Settings) : pystr := path_join (VIDEO_DIR s) (py "processed").

(** [get_video_path] of app/utils/helpers.py *)
Definition get_video_path (video_id title directory : pystr) (temp : bool)
  : pystr :=
  let clean_title := Helpers.sanitize_filename title in
  let filename := clean_title ++ py "_" ++ video_id ++ py ".mp4" in
  if temp then path_join (path_join directory (py "temp")) filename
  else path_join directory filename.

(** [sep.join(l)] *)
Fixpoint join (sep : pystr) (l : list pystr) : pystr :=
  match l with
  | [] => []
  | [x] => x
  | x :: t => x ++ sep ++ join sep t
  end.

(** [Path(p).name]: the text after the last slash. *)
Definition basename (p : pystr) : pystr := snd (rpartition 47 p).

(** [Path(p).parent]: the text before the last slash. *)
Definition dirname (p : pystr) : pystr := fst (fst (rpartition 47 p)).

(** [d[key]] for a key that may be missing: [KeyError(key)], whose text is
    the key between single quotes. *)
Definition getitem (key : string) (v : option pystr) : M pystr :=
  match v with
  | Some x => ret x
  | None => raise (Exc KeyError (py "'" ++ py key ++ py "'"))
  end.

(** The dict that [get_video_info] returns. *)
Record metadata := {
  md_id : pystr;
  md_title : pystr;
  md_description : pystr;
  md_tags : pystr;
  md_category : pystr;
  md_thumbnail : pystr
}.

(** ** app/core/downloader.py *)

Module Downloader.

(** [get_video_info(video_url)] *)
Definition get_video_info (o : Oracle) (video_url : pystr) : M metadata :=
  try_except
    (call (EvExtractInfo video_url false) ;;
     info <- lift (ydl_extract_info o video_url) ;;
     match info with
     | None =>
         raise (Exc DownloadError (py "Failed to extract video information"))
     | Some info =>
         if has_entries info then
           raise (Exc DownloadError
             (py "URL appears to be a playlist. Please provide a single video URL."))
         else if is_live info then
           raise (Exc DownloadError (py "Live streams are not supported"))
         else if (0 <? age_limit info)%Z then
           raise (Exc DownloadError
             (py "Age-restricted videos are not supported"))
         else
           let tags := join (py ", ") (info_tags info) in
           let category := hd [] (info_categories info) in
           id <- getitem "id" (info_id info) ;;
           title <- getitem "title" (info_title info) ;;
           ret {| md_id := id; md_title := title;
                  md_description := info_description info;
                  md_tags := tags; md_category := category;
                  md_thumbnail := info_thumbnail info |}
     end)
    (fun e =>
       if isinstance e YTDLError then
         if contains (py "Video unavailable") (exc_msg e) then
           raise (Exc DownloadError
             (py "Video is unavailable or has been removed"))
         else if contains (py "Private video") (exc_msg e) then
           raise (Exc DownloadError (py "This video is private"))
         else if contains (py "Sign in to confirm your age") (exc_msg e) then
           raise (Exc DownloadError
             (py "Age-restricted video - cannot download"))
         else
           raise (Exc DownloadError (py "YouTube-DL error: " ++ exc_msg e))
       else if isinstance e URLError then
         raise (Exc DownloadError (py "Network error: " ++ exc_msg e))
       else if isinstance e SocketTimeout then
         raise (Exc DownloadError
           (py "Connection timed out. Please check your internet connection."))
       else
         raise (Exc DownloadError
           (py "Failed to get video info: " ++ exc_msg e))).

(** [download_video(video_url, metadata)] *)
Definition download_video (s : Settings) (o : Oracle)
    (video_url : pystr) (md : metadata) : M pystr :=
  try_except
    ((* Get temporary file path *)
     let temp_path :=
       get_video_path (md_id md) (md_title md) (VIDEO_DIR s) true in
     (* Ensure temp directory exists *)
     mkdir o (path_join (VIDEO_DIR s) (py "temp")) ;;
     (* Download video *)
     try_except
       (call (EvDownload video_url temp_path) ;;
        written <- lift (ydl_download o video_url temp_path) ;;
        match written with
        | Some n => modify (fun w => set_files (<[temp_path := n]> (files w)) w)
        | None => ret tt
        end)
       (fun e =>
          if isinstance e YTDLError then
            if contains (py "No video formats found") (exc_msg e) then
              raise (Exc DownloadError
                (py "No suitable video formats found for download"))
            else if contains (py "Unsupported URL") (exc_msg e) then
              raise (Exc DownloadError (py "URL is not supported"))
            else
              raise (Exc DownloadError (py "Download failed: " ++ exc_msg e))
          else raise e) ;;
     (* Move to final location if download successful *)
     let final_path :=
       get_video_path (md_id md) (md_title md) (PROCESSED_DIR s) false in
     mkdir o (PROCESSED_DIR s) ;;
     size <- gets (fun w => files w !! temp_path) ;;
     match size with
     | Some n =>
         if n =? 0 then
           raise (Exc DownloadError (py "Downloaded file is empty"))
         else
           rename o temp_path final_path ;;
           ret final_path
     | None =>
         raise (Exc DownloadError (py "Download completed but file not found"))
     end)
    (fun e =>
       if isinstance e URLError then
         raise (Exc DownloadError
           (py "Network error during download: " ++ exc_msg e))
       else if isinstance e SocketTimeout then
         raise (Exc DownloadError
           (py "Download timed out. Please check your internet connection."))
       else if isinstance e OSError then
         raise (Exc DownloadError (py "File system error: " ++ exc_msg e))
       else
         raise (Exc DownloadError
           (py "Failed to download video: " ++ exc_msg e))).

End Downloader.

(** ** app/services/google_sheets.py *)

Module Sheets.

Definition HEADERS : list pystr :=
  [py "Title"; py "Description"; py "Tags"; py "Category";
   py "Drive File ID"; py "Playlist"; py "Thumbnail"; py "Upload Date";
   py "Download Status"; py "Upload Status"].

(** [HEADERS.index(name)] *)
Definition headers_index (name : pystr) : M nat :=
  match find_in_row name HEADERS 0 with
  | Some i => ret i
  | None => raise (Exc ValueError (name ++ py " is not in list"))
  end.

(** The row that [add_video] prepares; [drive_file_id] keeps its default
    [None]. *)
Definition row_data (s : Settings) (o : Oracle) (md : metadata)
  : list pystr :=
  [md_title md; md_description md; md_tags md; md_category md;
   py ""; default (py "") (PLAYLIST_ID s); md_thumbnail md; today o;
   py "Pending"; py "Pending"].

(** [add_video(metadata)] *)
Definition add_video (s : Settings) (o : Oracle) (md : metadata) : M unit :=
  try_except
    (append_row o (row_data s o md))
    (fun e =>
       raise (Exc GoogleSheetsError
         (py "Failed to add video to spreadsheet: " ++ exc_msg e))).

(** [update_video_status(video_id, status, drive_file_id, title)] *)
Definition update_video_status (o : Oracle)
    (video_id status : pystr) (drive_file_id : option pystr)
    (title : option pystr) : M unit :=
  try_except
    (match title with
     | Some title =>
         if truthy title then
           (* Find the row with the video title *)
           cell <- find o title ;;
           match cell with
           | None =>
               raise (Exc GoogleSheetsError
                 (py "Video '" ++ title ++ py "' not found in spreadsheet"))
           | Some (row, _) =>
               (if pystr_eqb status (py "Completed") then
                  col <- headers_index (py "Download Status") ;;
                  update_cell o row (col + 1) (py "Completed")
                else ret tt) ;;
               (* Update Drive file ID if provided *)
               match drive_file_id with
               | Some id =>
                   if truthy id then
                     col <- headers_index (py "Drive File ID") ;;
                     update_cell o row (col + 1) id
                   else ret tt
               | None => ret tt
               end
           end
         else
           raise (Exc GoogleSheetsError
             (py "Video title is required to update status"))
     | None =>
         raise (Exc GoogleSheetsError
           (py "Video title is required to update status"))
     end)
    (fun e =>
       raise (Exc GoogleSheetsError
         (py "Failed to update video status: " ++ exc_msg e))).

End Sheets.

(** ** app/services/google_drive.py *)

Module Drive.

(** [validate_file_exists(path)] of app/utils/validators.py *)
Definition validate_file_exists (p : pystr) : M unit :=
  present <- exists_ p ;;
  if present then ret tt
  else raise (Exc ValidationError (py "File not found: " ++ p)).

(** [upload_file(file_path, title)] *)
Definition upload_file (o : Oracle) (file_path : pystr)
    (title : option pystr) : M pystr :=
  try_except
    (validate_file_exists file_path ;;
     let name :=
       match title with
       | Some t => if truthy t then t else basename file_path
       | None => basename file_path
       end in
     call (EvUpload file_path name) ;;
     match drive_upload o file_path name with
     | UploadSetupRaises e => raise e
     | UploadChunkRaises e =>
         if isinstance e HttpError then
           raise (Exc GoogleDriveError
             (py "Error during upload chunk: " ++ exc_msg e))
         else raise e
     | UploadResponse (Some file_id) =>
         if truthy file_id then ret file_id
         else raise (Exc GoogleDriveError
                (py "Upload successful but file ID not received"))
     | UploadResponse None =>
         raise (Exc GoogleDriveError
           (py "Upload successful but file ID not received"))
     end)
    (fun e =>
       if isinstance e HttpError then
         raise (Exc GoogleDriveError (py "Drive API error: " ++ exc_msg e))
       else
         raise (Exc GoogleDriveError (py "Upload failed: " ++ exc_msg e))).

End Drive.

(** ** app/core/processor.py *)

Module Processor.

(** [process_video(video_url)]. The test [self.drive] of the source is
    always true: the constructor sets it to a service object. *)
Definition process_video (L : UrlLib) (s : Settings) (o : Oracle)
    (video_url : pystr) : M unit :=
  try_except
    ((* Extract video ID and get info *)
     video_id <- lift (Validators.validate_youtube_url L video_url) ;;
     video_info <- Downloader.get_video_info o video_url ;;
     (* Add to spreadsheet first *)
     Sheets.add_video s o video_info ;;
     (* Download the video with metadata *)
     video_path <- Downloader.download_video s o video_url video_info ;;
     if UPLOAD_TO_DRIVE s then
       (* Upload to Drive *)
       file_id <- Drive.upload_file o video_path (Some (md_title video_info)) ;;
       if truthy file_id then
         Sheets.update_video_status o video_id (py "Completed")
           (Some file_id) (Some (md_title video_info)) ;;
         (* Delete local file if not keeping files *)
         if negb (KEEP_FILES s) then unlink o video_path else ret tt
       else ret tt
     else
       (* Keep local file and update status as completed locally *)
       Sheets.update_video_status o video_id (py "Completed Locally")
         (Some video_path) (Some (md_title video_info)))
    (fun e => raise (Exc ProcessingError (py "Processing error: " ++ exc_msg e))).

End Processor.

(** ** The older manager: src/youtube_manager.py, utils/validators.py,
    config/config.py *)

Module Legacy.

(** The constants of config/config.py that the pipeline reads. *)
Record Config := {
  ROOT_DIR : pystr;
  SPREADSHEET_ID : pystr;
  PLAYLIST_ID : pystr;
  KEEP_FILE : bool
}.

Definition HEADERS : list pystr :=
  [py "Title"; py "Description"; py "Tags"; py "Category";
   py "Thumbnail"; py "Playlist"; py "Video ID"; py "Upload Date";
   py "Drive File ID"; py "Download Status"].

Definition VIDEOS_DIR (c : Config) : pystr := path_join (ROOT_DIR c) (py "Videos").

(** [re.sub(r'[^\x00-\x7F]+', '_', filename)]: a run of characters above
    127 becomes one underscore. *)
Fixpoint replace_non_ascii_runs (s : pystr) : pystr :=
  match s with
  | [] => []
  | c :: t =>
      if c <? 128 then c :: replace_non_ascii_runs t
      else
        match t with
        | d :: _ =>
            if d <? 128 then Helpers.underscore :: replace_non_ascii_runs t
            else replace_non_ascii_runs t
        | [] => [Helpers.underscore]
        end
  end.

Definition clean (filename : pystr) : pystr :=
  strip Helpers.dot_or_space
    (Helpers.collapse_underscores
       (replace_non_ascii_runs (Helpers.replace_invalid filename))).

(** [sanitize_filename(filename)] of src/youtube_manager.py *)
Definition sanitize_filename (filename : pystr) : pystr :=
  let filename := clean filename in
  if (200 <? length filename)%nat
  then firstn 196 filename ++ Helpers.ellipsis
  else filename.

(** *** utils/validators.py *)

Definition invalid_format_message : pystr :=
  py "Invalid YouTube URL format. Please provide a valid YouTube URL or video ID."
  ++ [newline] ++ py "Supported formats:"
  ++ [newline] ++ py "- https://www.youtube.com/watch?v=VIDEO_ID"
  ++ [newline] ++ py "- https://youtu.be/VIDEO_ID"
  ++ [newline] ++ py "- https://youtube.com/shorts/VIDEO_ID"
  ++ [newline] ++ py "- VIDEO_ID (11 characters)".

(** [extract_video_id_from_url(url)] *)
Definition extract_video_id_from_url (L : UrlLib) (url : pystr) : res pystr :=
  rtry
    ((* If input is already a video ID (11 characters) *)
     if re_match_id url then Ok url else
     (* Try to parse as URL *)
     rbind (urlparse L url) (fun parsed_url =>
       (* Handle youtu.be short URLs *)
       if pystr_eqb (netloc parsed_url) (py "youtu.be") then
         Ok (lstrip (N.eqb 47) (path parsed_url))
       (* Handle youtube.com URLs *)
       else if Validators.str_in (netloc parsed_url) Validators.youtube_hosts then
         match
           (if contains (py "watch") (path parsed_url)
            then parse_qs L (query parsed_url) !! py "v" else None)
         with
         | Some vs => Validators.index vs 0
         | None =>
             if contains (py "shorts") (path parsed_url) then
               Ok (List.last (split (py "/") (path parsed_url)) [])
             else if contains (py "embed") (path parsed_url) then
               Ok (List.last (split (py "/") (path parsed_url)) [])
             else Raise (Exc ValidationError invalid_format_message)
         end
       else Raise (Exc ValidationError invalid_format_message)))
    (fun e =>
       if isinstance e ValidationError then Raise e
       else Raise (Exc ValidationError (py "Error processing URL: " ++ exc_msg e))).

(** [validate_youtube_url(url)] *)
Definition validate_youtube_url (L : UrlLib) (url : pystr) : res pystr :=
  if negb (truthy url) then
    Raise (Exc ValidationError (py "URL cannot be empty"))
  else
    rbind (extract_video_id_from_url L (strip isspace url)) (fun video_id =>
      if negb (re_match_id video_id) then
        Raise (Exc ValidationError
          (py "Invalid video ID format. YouTube video IDs are 11 characters long."))
      else Ok video_id).

(** [validate_file_exists(file_path)]: the [FileNotFoundError] it raises
    is caught at once and turned into a [ValidationError]. *)
Definition validate_file_exists (file_path : pystr) : M bool :=
  present <- exists_ file_path ;;
  if present then ret true
  else raise (Exc ValidationError
         (py "File validation failed: File not found: " ++ file_path)).

(** *** src/youtube_manager.py *)

(** [ensure_video_dir()] *)
Definition ensure_video_dir (c : Config) (o : Oracle) : M pystr :=
  try_except
    (mkdir o (VIDEOS_DIR c) ;; ret (VIDEOS_DIR c))
    (fun e =>
       raise (Exc ConfigurationError
         (py "Failed to create Videos directory: " ++ exc_msg e))).

Definition not_found_message (c : Config) (o : Oracle) : pystr :=
  py "Spreadsheet with ID '" ++ SPREADSHEET_ID c ++ py "' not found. "
  ++ py "Please make sure:" ++ [newline]
  ++ py "1. The spreadsheet exists" ++ [newline]
  ++ py "2. The spreadsheet is shared with this service account: "
  ++ service_account_email o ++ [newline]
  ++ py "3. The spreadsheet ID is correct".

(** [get_or_create_sheet()] *)
Definition get_or_create_sheet (c : Config) (o : Oracle) : M unit :=
  try_except
    (answer (gs_open_by_key o))
    (fun e =>
       if isinstance e SpreadsheetNotFound then
         raise (Exc GoogleSheetsError (not_found_message c o))
       else
         raise (Exc GoogleSheetsError
           (py "Spreadsheet access error: " ++ exc_msg e))) ;;
  try_except
    (current_headers <- row_values o 1 ;;
     match current_headers with
     | [] => insert_row o HEADERS 1
     | _ =>
         if negb (bool_decide (current_headers = HEADERS)) then
           clear o ;;
           insert_row o HEADERS 1
         else ret tt
     end)
    (fun e =>
       raise (Exc GoogleSheetsError (py "Worksheet error: " ++ exc_msg e))).

(** [get_video_data(video_url)] *)
Definition get_video_data (c : Config) (o : Oracle) (video_url : pystr)
  : M (list pystr) :=
  try_except
    (call (EvExtractInfo video_url false) ;;
     info <- lift (ydl_extract_info o video_url) ;;
     match info with
     | None =>
         raise (Exc YouTubeDataError (py "Failed to extract video information"))
     | Some info =>
         (* Format data for spreadsheet *)
         let tags := join (py ", ") (info_tags info) in
         let category := hd [] (info_categories info) in
         let upload_date := info_upload_date info in
         let upload_date :=
           if truthy upload_date
           then slice upload_date 0 4 ++ py "-" ++ slice upload_date 4 6
                ++ py "-" ++ skipn 6 upload_date
           else upload_date in
         ret [default [] (info_title info);
              info_description info;
              tags;
              category;
              info_thumbnail info;
              PLAYLIST_ID c;
              default [] (info_id info);
              upload_date;
              py "";          (* Drive File ID (will be updated after upload) *)
              py "Pending"    (* Download Status *)]
     end)
    (fun e =>
       if isinstance e YTDLError then
         raise (Exc YouTubeDataError (py "Download error: " ++ exc_msg e))
       else
         raise (Exc YouTubeDataError
           (py "Data extraction error: " ++ exc_msg e))).

(** [try: m  except Exception: pass], with the logging left out *)
Definition swallow (m : M unit) : M unit := try_except m (fun _ => ret tt).

(** [download_video(video_url)] *)
Definition download_video (c : Config) (o : Oracle) (video_url : pystr)
  : M pystr :=
  try_except
    ((* Ensure Videos directory exists *)
     videos_dir <- ensure_video_dir c o ;;
     call (EvExtractInfo video_url true) ;;
     r <- lift (ydl_extract_and_download o video_url) ;;
     let '(info, written) := r in
     match info with
     | None =>
         raise (Exc AttributeError
           (py "'NoneType' object has no attribute 'get'"))
     | Some info =>
         match info_id info, written with
         | Some id, Some n =>
             modify (fun w =>
               set_files (<[path_join videos_dir (id ++ py ".mp4") := n]>
                            (files w)) w)
         | _, _ => ret tt
         end ;;
         match info_id info with
         | Some video_id =>
             if truthy video_id then
               let video_title := default video_id (info_title info) in
               (* Get the downloaded file path *)
               let temp_video_path :=
                 path_join videos_dir (video_id ++ py ".mp4") in
               present <- exists_ temp_video_path ;;
               if negb present then
                 raise (Exc YouTubeDataError
                   (py "Download completed but file was not created"))
               else
                 (* Create final filename with video title *)
                 let final_filename :=
                   sanitize_filename video_title ++ py "_" ++ video_id
                   ++ py ".mp4" in
                 (* Rename the file *)
                 final_video_path <-
                   try_except
                     (rename o temp_video_path
                        (path_join videos_dir final_filename) ;;
                      ret (path_join videos_dir final_filename))
                     (fun _ => ret temp_video_path) ;;
                 (* Create a copy in the same directory *)
                 let backup_path :=
                   path_join (dirname final_video_path)
                     (py "backup_" ++ basename final_video_path) in
                 swallow (copy2 o final_video_path backup_path) ;;
                 (* Cleanup downloaded file if KEEP_FILE is False *)
                 present <- exists_ final_video_path ;;
                 (if negb (KEEP_FILE c) && present
                  then swallow (unlink o final_video_path)
                  else ret tt) ;;
                 ret final_video_path
             else raise (Exc YouTubeDataError (py "Could not extract video ID"))
         | None => raise (Exc YouTubeDataError (py "Could not extract video ID"))
         end
     end)
    (fun e =>
       raise (Exc YouTubeDataError (py "Video download failed: " ++ exc_msg e))).

(** [upload_to_drive(file_path)]: the handler inside the loop names the
    [GoogleDriveError] of utils/exceptions.py (the later import wins) and
    re-raises, so whatever [next_chunk] raises reaches the outer handler. *)
Definition upload_to_drive (o : Oracle) (file_path : pystr)
  : M (option pystr) :=
  try_except
    (validate_file_exists file_path ;;
     call (EvUpload file_path (basename file_path)) ;;
     match drive_upload o file_path (basename file_path) with
     | UploadSetupRaises e => raise e
     | UploadChunkRaises e => raise e
     | UploadResponse file_id => ret file_id
     end)
    (fun e =>
       raise (Exc GoogleDriveError (py "Upload failed: " ++ exc_msg e))).

(** [l[i] = v]: an [IndexError] when the list is too short. *)
Definition setitem (i : nat) (v : pystr) (l : list pystr) : res (list pystr) :=
  if (i <? length l)%nat then Ok (<[i := v]> l)
  else Raise (Exc IndexError (py "list assignment index out of range")).

(** [update_spreadsheet(sheet, video_data, drive_file_id)] *)
Definition update_spreadsheet (o : Oracle) (video_data : list pystr)
    (drive_file_id : pystr) : M bool :=
  try_except
    ((* Update Drive File ID and Download Status *)
     video_data <- lift (setitem 8 drive_file_id video_data) ;;
     video_data <- lift (setitem 9 (py "Completed") video_data) ;;
     (* Check for duplicate video ID *)
     video_id <- lift (Validators.index video_data 6) ;;
     existing_ids <- col_values o 7 ;;   (* Column G contains video IDs *)
     if Validators.str_in video_id existing_ids then ret false
     else
       (* Append the new row *)
       append_row o video_data ;;
       ret true)
    (fun e =>
       raise (Exc GoogleSheetsError
         (py "Spreadsheet update failed: " ++ exc_msg e))).

(** The [finally] block of [process_video] once [video_path] is bound. *)
Definition cleanup (o : Oracle) (video_path : pystr) : M unit :=
  present <- exists_ video_path ;;
  if present then swallow (unlink o video_path) else ret tt.

(** [process_video(url)]. The handler [except Exception as e: ... raise]
    re-raises what it caught. The [finally] block acts only when
    [video_path] is among the locals, that is once [download_video] has
    returned, so it encloses the steps after the download. *)
Definition process_video (L : UrlLib) (c : Config) (o : Oracle)
    (url : pystr) : M bool :=
  (* Validate URL and extract video ID *)
  video_id <- lift (validate_youtube_url L url) ;;
  let video_url := py "https://www.youtube.com/watch?v=" ++ video_id in
  (* Get spreadsheet *)
  get_or_create_sheet c o ;;
  (* Get video data *)
  video_data <- get_video_data c o video_url ;;
  match video_data with
  | [] => raise (Exc YouTubeDataError (py "Failed to get video data"))
  | _ =>
      (* Download video *)
      video_path <- download_video c o video_url ;;
      try_finally
        ((* Upload to Drive *)
         drive_file_id <- upload_to_drive o video_path ;;
         match drive_file_id with
         | Some drive_file_id =>
             if truthy drive_file_id then
               (* Update spreadsheet *)
               update_spreadsheet o video_data drive_file_id
             else
               raise (Exc GoogleDriveError (py "Failed to upload to Google Drive"))
         | None =>
             raise (Exc GoogleDriveError (py "Failed to upload to Google Drive"))
         end)
        (cleanup o video_path)
  end.

End Legacy.

(** ** A sample deployment

    The settings, the oracle and the worlds on which the statements below are
    run: a video whose collaborators all answer, and the variations that
    make one of them fail. *)

Module Sample.

Definition video_id : pystr := py "dQw4w9WgXcQ".

Definition info : ydl_info := {|
  has_entries := false;
  is_live := false;
  age_limit := 0%Z;
  info_id := Some video_id;
  info_title := Some (py "Never Gonna: Give You Up");
  info_description := py "The official video";
  info_tags := [py "rick"; py "astley"];
  info_categories := [py "Music"];
  info_thumbnail := py "https://i.ytimg.com/vi/dQw4w9WgXcQ/hq.jpg";
  info_upload_date := py "20091025"
|}.

Definition live_info : ydl_info := {|
  has_entries := false;
  is_live := true;
  age_limit := 0%Z;
  info_id := Some video_id;
  info_title := Some (py "Live now");
  info_description := py "";
  info_tags := [];
  info_categories := [];
  info_thumbnail := py "";
  info_upload_date := py ""
|}.

(** What [get_video_info] makes of [info]. *)
Definition md : metadata := {|
  md_id := video_id;
  md_title := py "Never Gonna: Give You Up";
  md_description := py "The official video";
  md_tags := py "rick, astley";
  md_category := py "Music";
  md_thumbnail := py "https://i.ytimg.com/vi/dQw4w9WgXcQ/hq.jpg"
|}.

(** No collaborator raises; the metadata, the size of the downloaded file
    and the answer of the upload are given. *)
Definition oracle (i : ydl_info) (size : option N) (up : upload_outcome)
  : Oracle := {|
  ydl_extract_info := fun _ => Ok (Some i);
  ydl_download := fun _ _ => Ok size;
  ydl_extract_and_download := fun _ => Ok (Some i, size);
  os_mkdir := fun _ => None;
  os_rename := fun _ _ => None;
  os_copy := fun _ _ => None;
  os_unlink := fun _ => None;
  gs_open_by_key := None;
  gs_row_values := fun _ => None;
  gs_insert_row := fun _ _ => None;
  gs_clear := None;
  gs_append_row := fun _ => None;
  gs_find := fun _ => None;
  gs_col_values := fun _ => None;
  gs_update_cell := fun _ _ _ => None;
  drive_upload := fun _ _ => up;
  today := py "2024-05-01";
  service_account_email := py "bot@example.iam.gserviceaccount.com"
|}.

Definition all_fine : Oracle :=
  oracle info (Some 1048576) (UploadResponse (Some (py "abc123"))).

Definition settings (keep upload : bool) : Settings := {|
  BASE_DIR := py "/srv/app";
  PLAYLIST_ID := None;
  KEEP_FILES := keep;
  UPLOAD_TO_DRIVE := upload
|}.

Definition config : Legacy.Config := {|
  Legacy.ROOT_DIR := py "/srv/app";
  Legacy.SPREADSHEET_ID := py "sheet-1";
  Legacy.PLAYLIST_ID := py "NOTHINHG";
  Legacy.KEEP_FILE := true
|}.

(** A fresh sheet with its header row, and an empty video directory. *)
Definition world : World :=
  {| sheet := [Sheets.HEADERS]; files := ∅; trace := [] |}.

(** The world once the metadata is fetched, and once the row is added. *)
Definition fetched : World :=
  {| sheet := [Sheets.HEADERS]; files := ∅;
     trace := [EvExtractInfo video_id false] |}.

Definition registered (s : Settings) (o : Oracle) : World :=
  {| sheet := [Sheets.HEADERS; Sheets.row_data s o md];
     files := ∅;
     trace := [EvExtractInfo video_id false;
               EvAppendRow (Sheets.row_data s o md)] |}.

Definition legacy_world : World :=
  {| sheet := [Legacy.HEADERS]; files := ∅; trace := [] |}.

(** The sheet of the older manager after the video has been processed once. *)
Definition legacy_world_seen : World :=
  {| sheet :=
       [Legacy.HEADERS;
        [py "Never Gonna: Give You Up"; py "The official video";
         py "rick, astley"; py "Music";
         py "https://i.ytimg.com/vi/dQw4w9WgXcQ/hq.jpg"; py "NOTHINHG";
         video_id; py "2009-10-25"; py "abc123"; py "Completed"]];
     files := ∅;
     trace := [] |}.

Definition final_path : pystr :=
  py "/srv/app/storage/videos/processed/Never Gonna_ Give You Up_dQw4w9WgXcQ.mp4".

Definition temp_path : pystr :=
  py "/srv/app/storage/videos/temp/Never Gonna_ Give You Up_dQw4w9WgXcQ.mp4".

End Sample.

(** ** app/utils/helpers.py: [format_duration] *)

Module Formatting.

(** The decimal digits of a number, most significant first. *)
Fixpoint uint_chars (d : Decimal.uint) : pystr :=
  match d with
  | Decimal.Nil => []
  | Decimal.D0 d => 48 :: uint_chars d
  | Decimal.D1 d => 49 :: uint_chars d
  | Decimal.D2 d => 50 :: uint_chars d
  | Decimal.D3 d => 51 :: uint_chars d
  | Decimal.D4 d => 52 :: uint_chars d
  | Decimal.D5 d => 53 :: uint_chars d
  | Decimal.D6 d => 54 :: uint_chars d
  | Decimal.D7 d => 55 :: uint_chars d
  | Decimal.D8 d => 56 :: uint_chars d
  | Decimal.D9 d => 57 :: uint_chars d
  end.

(** [str(n)] for an integer: a minus sign for a negative one, then the
    digits. *)
Definition str_int (z : Z) : pystr :=
  if (z <? 0)%Z then 45 :: uint_chars (N.to_uint (Z.to_N (- z)))
  else uint_chars (N.to_uint (Z.to_N z)).

(** [f"{z:02d}"]: filled with a zero up to two characters, the sign
    counting as one. *)
Definition format_02d (z : Z) : pystr :=
  if (z <? 0)%Z then str_int z
  else if (z <? 10)%Z then 48 :: str_int z
  else str_int z.

(** [format_duration(seconds)]; [//] and [%] round towards minus infinity,
    as [Z.div] and [Z.modulo] do for a positive divisor. *)
Definition format_duration (seconds : Z) : pystr :=
  let hours := (seconds / 3600)%Z in
  let minutes := ((seconds mod 3600) / 60)%Z in
  let seconds := (seconds mod 60)%Z in
  if (0 <? hours)%Z then
    str_int hours ++ py ":" ++ format_02d minutes ++ py ":" ++ format_02d seconds
  else
    str_int minutes ++ py ":" ++ format_02d seconds.

End Formatting.

(** ** app/utils/validators.py: the metadata and spreadsheet-id checks *)

Module MoreValidators.

Definition required_fields : list pystr := [py "id"; py "title"; py "duration"].

(** [validate_video_metadata(metadata)] for a dict with values of any type. *)
Definition validate_video_metadata {V} (md : gmap pystr V) : res unit :=
  let missing_fields :=
    List.filter (fun field => negb (bool_decide (is_Some (md !! field))))
      required_fields in
  match missing_fields with
  | [] => Ok tt
  | _ =>
      Raise (Exc ValidationError
        (py "Missing required video metadata fields: "
         ++ join (py ", ") missing_fields))
  end.

(** [re.match(r'^[a-zA-Z0-9-_]+$', s)] as a truth value. The class is that
    of the identifiers (in [0-9-_] the hyphen after the range is a literal);
    [+] takes every character of the class it can, none of which is a
    newline, and [$] then matches at the end of the string or before a
    newline that ends it. *)
Definition re_match_spreadsheet_id (s : pystr) : bool :=
  match s with
  | [] => false
  | c :: _ =>
      id_char c
      && match lstrip id_char s with
         | [] => true
         | [d] => d =? newline
         | _ => false
         end
  end.

(** [validate_spreadsheet_id(spreadsheet_id)] *)
Definition validate_spreadsheet_id (spreadsheet_id : pystr) : res unit :=
  if negb (re_match_spreadsheet_id spreadsheet_id)
  then Raise (Exc ValidationError (py "Invalid spreadsheet ID format"))
  else Ok tt.

End MoreValidators.

(** The dict literal that [get_video_info] of app/core/downloader.py
    returns, with its six keys. *)
Definition metadata_dict (md : metadata) : gmap pystr pystr :=
  <[py "id" := md_id md]>
  (<[py "title" := md_title md]>
  (<[py "description" := md_description md]>
  (<[py "tags" := md_tags md]>
  (<[py "category" := md_category md]>
  (<[py "thumbnail" := md_thumbnail md]> ∅))))).

(** ** app/core/downloader.py: [cleanup] *)

Module DownloaderCleanup.

(** [cleanup(video_path)]: only an [OSError] is turned into a
    [DownloadError]. *)
Definition cleanup (o : Oracle) (video_path : pystr) : M unit :=
  try_except
    (present <- exists_ video_path ;;
     if present then unlink o video_path else ret tt)
    (fun e =>
       if isinstance e OSError then
         raise (Exc DownloadError
           (py "Failed to delete video file: " ++ exc_msg e))
       else raise e).

End DownloaderCleanup.

(** ** app/services/google_sheets.py: the header row and the lookup *)

Module SheetsService.

(** [_get_or_create_worksheet()], from the point where [sheet1] is at hand. *)
Definition _get_or_create_worksheet (o : Oracle) : M unit :=
  try_except
    ((* Check if headers exist and are correct *)
     headers <- row_values o 1 ;;
     match headers with
     | [] => append_row o Sheets.HEADERS
     | _ =>
         if negb (bool_decide (headers = Sheets.HEADERS)) then
           (* Update headers if they don't match *)
           clear o ;;
           append_row o Sheets.HEADERS
         else ret tt
     end)
    (fun e =>
       raise (Exc GoogleSheetsError
         (py "Failed to setup worksheet: " ++ exc_msg e))).

(** [get_video_info(video_id)]: [None] when no cell has the value, else
    [dict(zip(self.HEADERS, row_data))]. *)
Definition get_video_info (o : Oracle) (video_id : pystr)
  : M (option (gmap pystr pystr)) :=
  try_except
    ((* Find the row with the video ID *)
     cell <- find o video_id ;;
     match cell with
     | None => ret None
     | Some (row, _) =>
         (* Get all values in the row *)
         row_data <- row_values o row ;;
         (* Create dictionary with headers as keys *)
         ret (Some (list_to_map (zip Sheets.HEADERS row_data)))
     end)
    (fun e =>
       raise (Exc GoogleSheetsError
         (py "Failed to get video info: " ++ exc_msg e))).

End SheetsService.

(** ** app/config/settings.py: [Settings.__init__] *)

Module SettingsLoader.

(** The attributes set by [__init__] that [Settings] above does not have. *)
Record Loaded := {
  settings : Settings;
  SPREADSHEET_ID : pystr;
  DRIVE_FOLDER_ID : pystr;
  CHUNK_SIZE : Z;
  MAX_RETRIES : Z;
  LOG_LEVEL : pystr;
  LOG_FORMAT : pystr
}.

(** [os.getenv(key, default)] on the environment as a dict. *)
Definition getenv (env : gmap pystr pystr) (key : string) (dflt : pystr)
  : pystr :=
  default dflt (env !! py key).

(** [value.lower() == "true"]: no character outside ASCII has a lower case
    with one of the letters of [true] in it, so the ASCII lower case decides
    the test. *)
Definition is_true (value : pystr) : bool :=
  pystr_eqb (PyUrllib.lower value) (py "true").

(** [Settings()]: [int] is the built-in conversion, [base_dir] the directory
    three levels above the file, [env] the environment after [load_dotenv]. *)
Definition init (int : pystr -> res Z) (base_dir : pystr)
    (env : gmap pystr pystr) : res Loaded :=
  let spreadsheet_id := env !! py "SPREADSHEET_ID" in
  let drive_folder_id := env !! py "DRIVE_FOLDER_ID" in
  let playlist_id := env !! py "PLAYLIST_ID" in
  rbind (int (getenv env "CHUNK_SIZE" (py "52428800"))) (fun chunk_size =>
  rbind (int (getenv env "MAX_RETRIES" (py "3"))) (fun max_retries =>
  let keep_files := is_true (getenv env "KEEP_FILES" (py "true")) in
  let upload_to_drive := is_true (getenv env "UPLOAD_TO_DRIVE" (py "true")) in
  let log_level := getenv env "LOG_LEVEL" (py "INFO") in
  let log_format :=
    getenv env "LOG_FORMAT"
      (py "%(asctime)s - %(levelname)s - [%(name)s] - %(message)s") in
  (* Validate required settings *)
  if negb (truthy (default [] spreadsheet_id)) then
    Raise (Exc ValueError
      (py "SPREADSHEET_ID environment variable is required"))
  else if negb (truthy (default [] drive_folder_id)) then
    Raise (Exc ValueError
      (py "DRIVE_FOLDER_ID environment variable is required"))
  else
    Ok {| settings := {| BASE_DIR := base_dir;
                         PLAYLIST_ID := playlist_id;
                         KEEP_FILES := keep_files;
                         UPLOAD_TO_DRIVE := upload_to_drive |};
          SPREADSHEET_ID := default [] spreadsheet_id;
          DRIVE_FOLDER_ID := default [] drive_folder_id;
          CHUNK_SIZE := chunk_size;
          MAX_RETRIES := max_retries;
          LOG_LEVEL := log_level;
          LOG_FORMAT := log_format |})).

End SettingsLoader.

(** ** main.py: the input loop *)

Module Main.

Definition msg_exiting : pystr := [newline] ++ py "Exiting...".
Definition msg_empty : pystr := py "URL cannot be empty!".
Definition msg_processing : pystr :=
  [newline] ++ py "Processing video... Please wait.".
Definition msg_success : pystr :=
  [newline] ++ py "Video processed successfully!".
Definition msg_cancelled : pystr :=
  [newline; newline] ++ py "Operation cancelled by user.".

(** [url.lower() == 'q'] *)
Definition is_quit (url : pystr) : bool :=
  pystr_eqb (PyUrllib.lower url) (py "q").

(** What happens in one turn of the loop, as far as it is not decided by
    the program: [input] returns a line and the turn runs to its end;
    [input] returns a line and a [KeyboardInterrupt] arrives while the video
    is processed, which has left the world [w'] by then; the interrupt
    arrives while [input] waits; or [input] raises another exception, such
    as the [EOFError] of a closed input. An interrupt is taken at these two
    places, where the program spends its time. *)
Inductive turn :=
  | Typed (line : pystr)
  | TypedInterrupted (line : pystr) (w' : World)
  | Interrupted
  | InputRaises (e : exc).

(** The handlers [except YouTubeManagerError as e] and
    [except Exception as e], in that order. The handlers only ask whether
    the class is one of the application, so a class that [exc_class] does
    not list is reported like any other class outside the taxonomy. *)
Definition report (e : exc) : pystr :=
  if isinstance e YouTubeManagerError
  then [newline] ++ py "Error: " ++ exc_msg e
  else [newline] ++ py "Unexpected error: " ++ exc_msg e.

(** [process_videos(processor)] on the turns taken so far. The result is
    what the loop itself has printed (the prompt and the progress lines of
    the services apart), whether it has ended, by one of its two [break],
    and the world. When the turns are used up the loop is waiting in
    [input]. A line that is the quit command or is empty starts no
    processing, so there is nothing to interrupt in its turn. *)
Fixpoint process_videos (L : UrlLib) (s : Settings) (o : Oracle)
    (turns : list turn) (w : World) : list pystr * bool * World :=
  match turns with
  | [] => ([], false, w)
  | t :: rest =>
      let next (printed : list pystr) (w1 : World) :=
        let '(out, ended, w') := process_videos L s o rest w1 in
        (printed ++ out, ended, w') in
      match t with
      | Typed line =>
          let url := strip isspace line in
          if is_quit url then ([msg_exiting], true, w)
          else if negb (truthy url) then next [msg_empty] w
          else
            match Processor.process_video L s o url w with
            | (Ok _, w1) => next [msg_processing; msg_success] w1
            | (Raise e, w1) => next [msg_processing; report e] w1
            end
      | TypedInterrupted line w1 =>
          let url := strip isspace line in
          if is_quit url then ([msg_exiting], true, w)
          else if negb (truthy url) then next [msg_empty] w
          else ([msg_processing; msg_cancelled], true, w1)
      | Interrupted => ([msg_cancelled], true, w)
      | InputRaises e => next [report e] w
      end
  end.

End Main.

(** * The vocabulary of the statements *)

(** A video identifier: exactly eleven characters of the class. *)
Definition is_video_id (s : pystr) : bool :=
  (length s =? 11)%nat && forallb id_char s.

(** A character the first two substitutions leave alone. *)
Definition kept_char (c : N) : Prop := Helpers.invalid_char c = false /\ c < 128.

(** No underscore is followed by an underscore. *)
Fixpoint single_underscores (s : pystr) : bool :=
  match s with
  | [] => true
  | c :: t =>
      match t with
      | d :: _ => negb ((c =? Helpers.underscore) && (d =? Helpers.underscore))
                  && single_underscores t
      | [] => true
      end
  end.

(** ** What a run leaves unchanged

    [keeps R m] says that every run of [m], whether it returns or raises,
    relates the world before to the world after by [R]. For a reflexive and
    transitive [R] this goes through every combinator of the monad, so a
    component keeps [R] as soon as its collaborator calls do. *)

Class Frame (R : World -> World -> Prop) := {
  frame_refl : forall w, R w w;
  frame_trans : forall a b c, R a b -> R b c -> R a c
}.

Definition keeps (R : World -> World -> Prop) {A} (m : M A) : Prop :=
  forall w r w', m w = (r, w') -> R w w'.

(** The three relations used below: the sheet is untouched, the files are
    untouched, and the calls made all satisfy a test. *)
Definition same_sheet (w w' : World) : Prop := sheet w' = sheet w.
Definition same_files (w w' : World) : Prop := files w' = files w.
Definition calls_only (ok : event -> bool) (w w' : World) : Prop :=
  exists tr, trace w' = trace w ++ tr /\ forallb ok tr = true.

(** Tests on calls. *)
Definition is_upload (ev : event) : bool :=
  match ev with EvUpload _ _ => true | _ => false end.
Definition is_unlink (ev : event) : bool :=
  match ev with EvUnlink _ => true | _ => false end.
Definition is_append (ev : event) : bool :=
  match ev with EvAppendRow _ => true | _ => false end.
Definition any_call (ev : event) : bool := true.
Definition not_upload (ev : event) : bool := negb (is_upload ev).
Definition not_unlink (ev : event) : bool := negb (is_unlink ev).
Definition not_append (ev : event) : bool := negb (is_append ev).

(** What the handler of [process_video] makes of an exception. *)
Definition processing_error (e : exc) : exc :=
  Exc ProcessingError (py "Processing error: " ++ exc_msg e).

(** Every exception that leaves [m] is of class [c]. *)
Definition raises_only (c : exc_class) {A} (m : M A) : Prop :=
  forall w e w', m w = (Raise e, w') -> exc_cls e = c.

(** The message [get_video_info] gives for a playlist, a live stream or an
    age limit, in the order it tests them. *)
Definition unsupported_reason (i : ydl_info) : pystr :=
  if has_entries i then
    py "URL appears to be a playlist. Please provide a single video URL."
  else if is_live i then py "Live streams are not supported"
  else py "Age-restricted videos are not supported".

(** What is at the temporary path once [ydl.download] has returned: the file
    it wrote, or else whatever was there before. *)
Definition left_behind (written : option N) (w : World) (temp : pystr)
  : option N :=
  match written with
  | Some n => Some n
  | None => files w !! temp
  end.

Definition download_fault (size : option N) : pystr :=
  match size with
  | Some _ => py "Downloaded file is empty"
  | None => py "Download completed but file not found"
  end.

(** Every cell outside the given 0-based columns is what it was. *)
Definition same_cells_outside (cols : list nat) (w w' : World) : Prop :=
  forall r c, c ∉ cols -> get_cell r c (sheet w') = get_cell r c (sheet w).

(** What [row_values(1)] returns. *)
Definition first_row (w : World) : list pystr :=
  trim_empty (default [] (sheet w !! 0%nat)).

(** Reading a duration back: the decimal digits of a string, if it has
    nothing else, and the seconds that the fields between colons stand
    for. *)
Fixpoint chars_uint (s : pystr) : option Decimal.uint :=
  match s with
  | [] => Some Decimal.Nil
  | c :: t =>
      match chars_uint t with
      | None => None
      | Some d =>
          if c =? 48 then Some (Decimal.D0 d)
          else if c =? 49 then Some (Decimal.D1 d)
          else if c =? 50 then Some (Decimal.D2 d)
          else if c =? 51 then Some (Decimal.D3 d)
          else if c =? 52 then Some (Decimal.D4 d)
          else if c =? 53 then Some (Decimal.D5 d)
          else if c =? 54 then Some (Decimal.D6 d)
          else if c =? 55 then Some (Decimal.D7 d)
          else if c =? 56 then Some (Decimal.D8 d)
          else if c =? 57 then Some (Decimal.D9 d)
          else None
      end
  end.

Definition digits_value (s : pystr) : option Z :=
  match s with
  | [] => None
  | _ =>
      match chars_uint s with
      | Some d => Some (Z.of_N (N.of_uint d))
      | None => None
      end
  end.

Definition parse_duration (s : pystr) : option Z :=
  match List.map digits_value (split (py ":") s) with
  | [Some m; Some sec] => Some (m * 60 + sec)%Z
  | [Some h; Some m; Some sec] => Some (h * 3600 + m * 60 + sec)%Z
  | _ => None
  end.

(** A turn after which the loop has ended: the quit command, or an
    interrupt. *)
Definition ends_loop (t : Main.turn) : bool :=
  match t with
  | Main.Typed line => Main.is_quit (strip isspace line)
  | Main.TypedInterrupted line _ =>
      Main.is_quit (strip isspace line) || truthy (strip isspace line)
  | Main.Interrupted => true
  | Main.InputRaises _ => false
  end.

(** A line that the loop may print after the given turns: one of its five
    messages, the report of a [ProcessingError], or the report of an
    exception that [input] has raised in one of the turns. *)
Definition loop_line (turns : list Main.turn) (line : pystr) : Prop :=
  line ∈ [Main.msg_exiting; Main.msg_empty; Main.msg_processing;
          Main.msg_success; Main.msg_cancelled]
  \/ (exists m, line = [newline] ++ py "Error: Processing error: " ++ m)
  \/ (exists e, Main.InputRaises e ∈ turns /\ line = Main.report e).

(** A turn in which a line of white space is typed. *)
Definition blank_turn (t : Main.turn) : Prop :=
  exists line, t = Main.Typed line /\ strip isspace line = [].

(** * Properties *)

(** ** Stripping *)

Lemma lstrip_suffix p s : exists t, s = t ++ lstrip p s.
Proof.
  induction s as [|c s IH]; simpl.
  - exists []. reflexivity.
  - destruct (p c).
    + destruct IH as [t Ht]. exists (c :: t). simpl. congruence.
    + exists []. reflexivity.
Qed.

Lemma lstrip_head p s c r : lstrip p s = c :: r -> p c = false.
Proof.
  induction s as [|d s IH]; simpl; [discriminate|].
  destruct (p d) eqn:Hd; [exact IH|].
  intros [= <- _]. exact Hd.
Qed.

Lemma lstrip_fixed p s : lstrip p (lstrip p s) = lstrip p s.
Proof.
  destruct (lstrip p s) as [|c r] eqn:E; [reflexivity|].
  simpl. rewrite (lstrip_head _ _ _ _ E). reflexivity.
Qed.

Lemma rstrip_prefix p s : exists t, s = rstrip p s ++ t.
Proof.
  unfold rstrip. destruct (lstrip_suffix p (rev s)) as [t Ht].
  exists (rev t). rewrite <- rev_app_distr, <- Ht, rev_involutive. reflexivity.
Qed.

Lemma strip_fixed p s : strip p (strip p s) = strip p s.
Proof.
  unfold strip at 1.
  assert (Hl : lstrip p (strip p s) = strip p s).
  { destruct (strip p s) as [|c r] eqn:E; [reflexivity|].
    unfold strip in E. destruct (rstrip_prefix p (lstrip p s)) as [t Ht].
    rewrite E in Ht. simpl in Ht.
    simpl. rewrite (lstrip_head p s c (r ++ t)); [reflexivity|].
    exact Ht. }
  rewrite Hl. unfold strip, rstrip.
  rewrite rev_involutive, lstrip_fixed. reflexivity.
Qed.

Lemma Forall_lstrip (P : N -> Prop) p s : Forall P s -> Forall P (lstrip p s).
Proof.
  intros H. destruct (lstrip_suffix p s) as [t Ht].
  rewrite Ht in H. apply Forall_app in H. tauto.
Qed.

Lemma Forall_strip (P : N -> Prop) p s : Forall P s -> Forall P (strip p s).
Proof.
  intros H. unfold strip.
  destruct (rstrip_prefix p (lstrip p s)) as [t Ht].
  apply (Forall_lstrip P p) in H. rewrite Ht in H.
  apply Forall_app in H. tauto.
Qed.

(** ** The sanitizer *)

Section Sanitizer.
Import Helpers.

Lemma kept_underscore : kept_char underscore.
Proof. split; reflexivity. Qed.

Lemma kept_dot : kept_char dot.
Proof. split; reflexivity. Qed.

Lemma replace_kept s : Forall kept_char (replace_non_ascii (replace_invalid s)).
Proof.
  induction s as [|d s IH]; simpl; constructor; [|exact IH].
  destruct (invalid_char d) eqn:Hd.
  - apply kept_underscore.
  - destruct (d <? 128) eqn:Hlt.
    + split; [exact Hd | apply N.ltb_lt, Hlt].
    + apply kept_underscore.
Qed.

Lemma replace_invalid_fixed s : Forall kept_char s -> replace_invalid s = s.
Proof.
  induction 1 as [|c s [Hc _] _ IH]; simpl; [reflexivity|].
  rewrite Hc. f_equal. exact IH.
Qed.

Lemma replace_non_ascii_fixed s : Forall kept_char s -> replace_non_ascii s = s.
Proof.
  induction 1 as [|c s [_ Hc] _ IH]; simpl; [reflexivity|].
  apply N.ltb_lt in Hc. rewrite Hc. f_equal. exact IH.
Qed.

Lemma collapse_cons c t :
  collapse_underscores (c :: t) =
  match t with
  | d :: _ => if (c =? underscore) && (d =? underscore)
              then collapse_underscores t else c :: collapse_underscores t
  | [] => [c]
  end.
Proof. reflexivity. Qed.

Lemma Forall_collapse (P : N -> Prop) s :
  Forall P s -> Forall P (collapse_underscores s).
Proof.
  induction 1 as [|c s Hc Hs IH]; [constructor|].
  rewrite collapse_cons. destruct s as [|d s']; [by constructor|].
  destruct ((c =? underscore) && (d =? underscore)); [exact IH|].
  by constructor.
Qed.

Lemma collapse_head c t :
  exists r, collapse_underscores (c :: t) = c :: r.
Proof.
  revert c. induction t as [|d t IH]; intros c.
  - exists []. reflexivity.
  - rewrite collapse_cons.
    destruct ((c =? underscore) && (d =? underscore)) eqn:E.
    + apply andb_prop in E as [Hc Hd].
      apply N.eqb_eq in Hc, Hd. subst c d. apply IH.
    + eexists. reflexivity.
Qed.

Lemma collapse_single s : single_underscores (collapse_underscores s) = true.
Proof.
  induction s as [|c s IH]; [reflexivity|].
  rewrite collapse_cons. destruct s as [|d s']; [reflexivity|].
  destruct ((c =? underscore) && (d =? underscore)) eqn:E; [exact IH|].
  destruct (collapse_head d s') as [r Hr].
  rewrite Hr in IH |- *. simpl. simpl in IH. rewrite E. exact IH.
Qed.

Lemma collapse_fixed s :
  single_underscores s = true -> collapse_underscores s = s.
Proof.
  induction s as [|c s IH]; [reflexivity|].
  intros H. rewrite collapse_cons. destruct s as [|d s']; [reflexivity|].
  simpl in H. apply andb_prop in H as [H1 H2].
  apply negb_true_iff in H1. rewrite H1. f_equal. apply IH. exact H2.
Qed.

Lemma single_app a b :
  single_underscores (a ++ b) = true ->
  single_underscores a = true /\ single_underscores b = true.
Proof.
  induction a as [|c a IH]; simpl; [tauto|].
  destruct a as [|d a'].
  - simpl. destruct b; [tauto|]. intros H. apply andb_prop in H. tauto.
  - intros H. apply andb_prop in H as [H1 H2].
    destruct (IH H2) as [Ha Hb]. split; [|exact Hb].
    simpl in H1 |- *. rewrite H1. exact Ha.
Qed.

Lemma single_strip p s :
  single_underscores s = true -> single_underscores (strip p s) = true.
Proof.
  intros H. unfold strip.
  destruct (lstrip_suffix p s) as [t Ht]. rewrite Ht in H.
  apply single_app in H as [_ H].
  destruct (rstrip_prefix p (lstrip p s)) as [u Hu]. rewrite Hu in H.
  apply single_app in H. tauto.
Qed.

Lemma clean_kept x : Forall kept_char (clean x).
Proof. apply Forall_strip, Forall_collapse, replace_kept. Qed.

Lemma clean_fixed x : clean (clean x) = clean x.
Proof.
  unfold clean at 1.
  rewrite (replace_invalid_fixed _ (clean_kept x)).
  rewrite (replace_non_ascii_fixed _ (clean_kept x)).
  rewrite collapse_fixed.
  - apply strip_fixed.
  - apply single_strip, collapse_single.
Qed.

(** [splitext] cuts its argument in two. *)
Lemma splitext_generic_app sep altsep p :
  fst (splitext_generic sep altsep p) ++ snd (splitext_generic sep altsep p) = p.
Proof.
  unfold splitext_generic.
  repeat case_match; simpl; auto using firstn_skipn, app_nil_r.
Qed.

(** On a cleaned title [splitext] is the same on POSIX and on Windows: the
    title has no separator left. *)
Lemma rfind_aux_absent c s i acc :
  Forall (fun d => d <> c) s -> rfind_aux c s i acc = acc.
Proof.
  intros H. revert i acc. induction H as [|d s Hd _ IH]; intros i acc; simpl.
  - reflexivity.
  - destruct (N.eqb_spec d c); [contradiction|]. apply IH.
Qed.

Lemma kept_no_separator s c :
  invalid_char c = true -> Forall kept_char s -> rfind c s = (-1)%Z.
Proof.
  intros Hc Hs. apply rfind_aux_absent.
  eapply Forall_impl; [exact Hs|]. intros d [Hd _] ->. congruence.
Qed.

Lemma splitext_platform p :
  Forall kept_char p -> splitext_nt p = splitext p.
Proof.
  intros H. unfold splitext_nt, splitext, splitext_generic.
  rewrite (kept_no_separator p 47 eq_refl H).
  rewrite (kept_no_separator p 92 eq_refl H). reflexivity.
Qed.

(** The two substitutions of the older manager agree with those of
    [helpers.py] once runs of underscores are collapsed. *)
Lemma runs_cons c t :
  Legacy.replace_non_ascii_runs (c :: t) =
  if c <? 128 then c :: Legacy.replace_non_ascii_runs t
  else match t with
       | d :: _ =>
           if d <? 128 then underscore :: Legacy.replace_non_ascii_runs t
           else Legacy.replace_non_ascii_runs t
       | [] => [underscore]
       end.
Proof. reflexivity. Qed.

Lemma runs_head c t :
  128 <= c -> exists r, Legacy.replace_non_ascii_runs (c :: t) = underscore :: r.
Proof.
  revert c. induction t as [|d t IH]; intros c Hc; rewrite runs_cons;
    pose proof Hc as Hc'; apply N.ltb_ge in Hc'; rewrite Hc'.
  - eexists. reflexivity.
  - destruct (d <? 128) eqn:Hd.
    + eexists. reflexivity.
    + apply N.ltb_ge in Hd. apply (IH d Hd).
Qed.

Lemma runs_hd s :
  hd_error (Legacy.replace_non_ascii_runs s) = hd_error (replace_non_ascii s).
Proof.
  destruct s as [|c t]; [reflexivity|].
  destruct (c <? 128) eqn:Hc.
  - rewrite runs_cons. simpl. rewrite Hc. reflexivity.
  - pose proof Hc as Hc'. apply N.ltb_ge in Hc'.
    destruct (runs_head c t Hc') as [r Hr].
    rewrite Hr. simpl. rewrite Hc. reflexivity.
Qed.

Lemma collapse_congr c a b :
  hd_error a = hd_error b ->
  collapse_underscores a = collapse_underscores b ->
  collapse_underscores (c :: a) = collapse_underscores (c :: b).
Proof.
  intros Hh Hc. rewrite !collapse_cons.
  destruct a as [|x a], b as [|y b]; try discriminate; [reflexivity|].
  injection Hh as ->. rewrite Hc. reflexivity.
Qed.

Lemma collapse_runs s :
  collapse_underscores (Legacy.replace_non_ascii_runs s) =
  collapse_underscores (replace_non_ascii s).
Proof.
  induction s as [|c t IH]; [reflexivity|].
  change (replace_non_ascii (c :: t))
    with ((if c <? 128 then c else underscore) :: replace_non_ascii t).
  rewrite runs_cons.
  destruct (c <? 128) eqn:Hc.
  - apply collapse_congr; [apply runs_hd | exact IH].
  - destruct t as [|d t']; [reflexivity|].
    destruct (d <? 128) eqn:Hd.
    + apply collapse_congr; [apply runs_hd | exact IH].
    + rewrite IH.
      change (replace_non_ascii (d :: t'))
        with ((if d <? 128 then d else underscore) :: replace_non_ascii t').
      rewrite Hd. rewrite (collapse_cons underscore). reflexivity.
Qed.

Lemma legacy_clean x : Legacy.clean x = clean x.
Proof. unfold Legacy.clean, clean. rewrite collapse_runs. reflexivity. Qed.

Lemma sanitize_untruncated x :
  (length (clean x) <= 200)%nat -> sanitize_filename x = clean x.
Proof.
  intros H. unfold sanitize_filename.
  destruct (Nat.ltb_spec 200 (length (clean x))); [lia | reflexivity].
Qed.

Lemma legacy_sanitize_untruncated x :
  (length (clean x) <= 200)%nat -> Legacy.sanitize_filename x = clean x.
Proof.
  intros H. unfold Legacy.sanitize_filename. rewrite legacy_clean.
  destruct (Nat.ltb_spec 200 (length (clean x))); [lia | reflexivity].
Qed.



Lemma legacy_sanitize_kept x : Forall kept_char (Legacy.sanitize_filename x).
Proof.
  unfold Legacy.sanitize_filename. rewrite legacy_clean.
  destruct (200 <? length (clean x))%nat; [|apply clean_kept].
  apply Forall_app. split; [apply Forall_take, clean_kept|].
  repeat constructor; apply kept_dot.
Qed.

Lemma legacy_sanitize_length x :
  (length (Legacy.sanitize_filename x) <= 200)%nat.
Proof.
  unfold Legacy.sanitize_filename.
  destruct (Nat.ltb_spec 200 (length (Legacy.clean x))); [|lia].
  rewrite length_app, length_take. change (length ellipsis) with 3%nat. lia.
Qed.

End Sanitizer.

(** C4, as the code has it. [sanitize_filename] is idempotent on every title
    it does not truncate, that is whenever the title is at most 200
    characters long after the substitutions and the stripping; this holds
    for the function of helpers.py and for the one of the older manager. *)
Theorem sanitize_idempotent_untruncated (x : pystr) :
  (length (Helpers.clean x) <= 200)%nat ->
  Helpers.sanitize_filename (Helpers.sanitize_filename x)
    = Helpers.sanitize_filename x
  /\ Legacy.sanitize_filename (Legacy.sanitize_filename x)
    = Legacy.sanitize_filename x.
Proof.
  intros H.
  assert (H' : (length (Helpers.clean (Helpers.clean x)) <= 200)%nat)
    by (rewrite clean_fixed; exact H).
  split.
  - rewrite (sanitize_untruncated x H).
    rewrite (sanitize_untruncated _ H'). apply clean_fixed.
  - rewrite (legacy_sanitize_untruncated x H).
    rewrite (legacy_sanitize_untruncated _ H'). apply clean_fixed.
Qed.

Lemma sanitize_idempotent_untruncated_witness :
  let x := py " ..What? <is> this__video: a/b " in
  (length (Helpers.clean x) <= 200)%nat
  /\ Helpers.sanitize_filename x = py "What_ _is_ this_video_ a_b"
  /\ Helpers.sanitize_filename (Helpers.sanitize_filename x)
      = Helpers.sanitize_filename x.
Proof.
  assert (H : (length (Helpers.clean (py " ..What? <is> this__video: a/b "))
               <= 200)%nat) by (vm_compute; lia).
  split; [exact H|]. split; [vm_compute; reflexivity|].
  exact (proj1 (sanitize_idempotent_untruncated _ H)).
Defined.

(** C4 as stated fails on a title of 201 letters: the first pass cuts it to
    196 letters and appends three dots, the second pass strips those dots. *)
Lemma sanitize_idempotent_counterexample :
  let x := replicate 201 97 in
  Helpers.sanitize_filename x = replicate 196 (97 : N) ++ py "..."
  /\ Helpers.sanitize_filename (Helpers.sanitize_filename x) = replicate 196 97
  /\ Helpers.sanitize_filename (Helpers.sanitize_filename x)
      <> Helpers.sanitize_filename x
  /\ Legacy.sanitize_filename (Legacy.sanitize_filename x)
      <> Legacy.sanitize_filename x.
Proof.
  split; [vm_compute; reflexivity|].
  split; [vm_compute; reflexivity|].
  split; intros H; apply (f_equal length) in H; vm_compute in H; discriminate.
Qed.




(** The length bound of C5 fails as well, on a title whose last dot is far
    from its end: everything after that dot is kept as the extension. *)
Lemma sanitize_length_exceeds_203 :
  let x := replicate 196 (97 : N) ++ py "." ++ replicate 10 (98 : N) in
  length (Helpers.sanitize_filename x) = 210%nat.
Proof. vm_compute. reflexivity. Qed.

(** ** The validators *)

Lemma re_match_id_shape v :
  re_match_id v = true ->
  is_video_id v = true
  \/ exists t, v = t ++ [newline] /\ is_video_id t = true.
Proof.
  unfold re_match_id, is_video_id. intros H.
  apply andb_prop in H as [H Hrest]. apply andb_prop in H as [Hlen Hall].
  pose proof (firstn_skipn 11 v) as Hv.
  destruct (skipn 11 v) as [|c [|d r]]; try discriminate.
  - left. rewrite app_nil_r in Hv. rewrite <- Hv, Hlen, Hall. reflexivity.
  - right. apply N.eqb_eq in Hrest. subst c.
    exists (firstn 11 v). rewrite Hlen, Hall. split; [symmetry; exact Hv|reflexivity].
Qed.

Lemma is_video_id_match v : is_video_id v = true -> re_match_id v = true.
Proof.
  unfold re_match_id, is_video_id. intros H.
  apply andb_prop in H as [Hlen Hall]. apply Nat.eqb_eq in Hlen.
  rewrite firstn_all2 by lia. rewrite skipn_all2 by lia.
  rewrite Hall. apply Nat.eqb_eq in Hlen. rewrite Hlen. reflexivity.
Qed.

(** Whatever the library answers, [validate_youtube_url] returns a string the
    regular expression accepts or raises a [ValidationError]. *)
Lemma validate_body_ok L url v :
  Validators.validate_body L url = Ok v -> re_match_id v = true.
Proof.
  unfold Validators.validate_body.
  destruct (re_match_id (strip isspace url)) eqn:Hdirect.
  { intros [= <-]. exact Hdirect. }
  unfold rbind at 1. destruct (urlparse L (strip isspace url)); [|discriminate].
  unfold rbind at 1.
  match goal with |- context [match ?x with Ok _ => _ | Raise _ => _ end] =>
    destruct x as [[v'|]|] end; try discriminate.
  destruct (truthy v' && re_match_id v') eqn:E; [|discriminate].
  intros [= <-]. apply andb_prop in E. tauto.
Qed.

Lemma validate_result L url :
  match Validators.validate_youtube_url L url with
  | Ok v => re_match_id v = true
  | Raise e => exc_cls e = ValidationError
  end.
Proof.
  unfold Validators.validate_youtube_url, rtry.
  destruct (Validators.validate_body L url) as [v|e] eqn:E.
  - eapply validate_body_ok, E.
  - destruct (isinstance e ValidationError) eqn:Hi; [|reflexivity].
    unfold isinstance in Hi. apply orb_prop in Hi as [Hi|Hi].
    + apply bool_decide_eq_true in Hi. exact Hi.
    + destruct (exc_cls e); discriminate.
Qed.

(** A trimmed input that is an identifier is returned as it is. *)
Lemma validate_direct_id L url :
  is_video_id (strip isspace url) = true ->
  Validators.validate_youtube_url L url = Ok (strip isspace url).
Proof.
  intros H. unfold Validators.validate_youtube_url, Validators.validate_body.
  rewrite (is_video_id_match _ H). reflexivity.
Qed.

(** C9 fails on a watch URL whose [v] parameter is an identifier followed by
    an encoded newline: [parse_qs] decodes the newline, [$] accepts it, and
    the twelve characters are returned. *)
Theorem validate_accepts_trailing_newline :
  let url := py "https://www.youtube.com/watch?v=abcdefghijk%0A" in
  Validators.validate_youtube_url PyUrllib.lib url
    = Ok (py "abcdefghijk" ++ [newline])
  /\ length (py "abcdefghijk" ++ [newline]) = 12%nat
  /\ is_video_id (py "abcdefghijk" ++ [newline]) = false
  /\ Legacy.validate_youtube_url PyUrllib.lib url
    = Ok (py "abcdefghijk" ++ [newline]).
Proof. repeat split; vm_compute; reflexivity. Qed.

(** The four URL shapes and the bare identifier give the same result. *)
Lemma validate_url_shapes :
  Forall (fun url => Validators.validate_youtube_url PyUrllib.lib (py url)
                     = Ok (py "dQw4w9WgXcQ"))
    ["dQw4w9WgXcQ"; " dQw4w9WgXcQ  ";
     "https://www.youtube.com/watch?v=dQw4w9WgXcQ";
     "https://youtu.be/dQw4w9WgXcQ";
     "https://youtube.com/shorts/dQw4w9WgXcQ";
     "https://m.youtube.com/embed/dQw4w9WgXcQ?start=3"]%string.
Proof. repeat constructor; vm_compute; reflexivity. Qed.

(** ** What a run leaves unchanged *)

Section Keeps.
Context (R : World -> World -> Prop) `{!Frame R}.

Lemma keeps_ret {A} (a : A) : keeps R (ret a).
Proof. intros w r w' [= _ <-]. apply frame_refl. Qed.

Lemma keeps_raise {A} (e : exc) : keeps R (@raise A e).
Proof. intros w r w' [= _ <-]. apply frame_refl. Qed.

Lemma keeps_lift {A} (x : res A) : keeps R (lift x).
Proof. intros w r w' [= _ <-]. apply frame_refl. Qed.

Lemma keeps_gets {A} (f : World -> A) : keeps R (gets f).
Proof. intros w r w' [= _ <-]. apply frame_refl. Qed.

Lemma keeps_answer (x : option exc) : keeps R (answer x).
Proof. destruct x; [apply keeps_raise | apply keeps_ret]. Qed.

Lemma keeps_modify (f : World -> World) :
  (forall w, R w (f w)) -> keeps R (modify f).
Proof. intros Hf w r w' [= _ <-]. apply Hf. Qed.

Lemma keeps_call (ev : event) :
  (forall w, R w (record_event ev w)) -> keeps R (call ev).
Proof. intros Hf w r w' [= _ <-]. apply Hf. Qed.

Lemma keeps_bind {A B} (m : M A) (k : A -> M B) :
  keeps R m -> (forall a, keeps R (k a)) -> keeps R (bind m k).
Proof.
  intros Hm Hk w r w'. unfold bind.
  destruct (m w) as [[a|e] w1] eqn:E.
  - intros H. eapply frame_trans; [eapply Hm, E | eapply Hk, H].
  - intros [= _ <-]. eapply Hm, E.
Qed.

Lemma keeps_try_except {A} (m : M A) (h : exc -> M A) :
  keeps R m -> (forall e, keeps R (h e)) -> keeps R (try_except m h).
Proof.
  intros Hm Hh w r w'. unfold try_except.
  destruct (m w) as [[a|e] w1] eqn:E.
  - intros [= _ <-]. eapply Hm, E.
  - intros H. eapply frame_trans; [eapply Hm, E | eapply Hh, H].
Qed.

Lemma keeps_try_finally {A} (m : M A) (f : M unit) :
  keeps R m -> keeps R f -> keeps R (try_finally m f).
Proof.
  intros Hm Hf w r w'. unfold try_finally.
  destruct (m w) as [r1 w1] eqn:E. destruct (f w1) as [[u|e] w2] eqn:E2.
  - intros [= _ <-]. eapply frame_trans; [eapply Hm, E | eapply Hf, E2].
  - intros [= _ <-]. eapply frame_trans; [eapply Hm, E | eapply Hf, E2].
Qed.

End Keeps.

(** One step of a [keeps] proof: a combinator, a case split on what the
    code branches on, or the unfolding of a call of the model. *)
Ltac keeps_step :=
  lazymatch goal with
  | |- keeps _ (bind _ _) => apply keeps_bind; [try exact _| |intros ?]
  | |- keeps _ (try_except _ _) => apply keeps_try_except; [try exact _| |intros ?]
  | |- keeps _ (try_finally _ _) => apply keeps_try_finally; [try exact _| |]
  | |- keeps _ (ret _) => apply keeps_ret; exact _
  | |- keeps _ (raise _) => apply keeps_raise; exact _
  | |- keeps _ (lift _) => apply keeps_lift; exact _
  | |- keeps _ (gets _) => apply keeps_gets; exact _
  | |- keeps _ (answer _) => apply keeps_answer; exact _
  | |- keeps _ (modify _) => apply keeps_modify; intros ?
  | |- keeps _ (call _) => apply keeps_call; intros ?
  | |- keeps _ (match ?x with _ => _ end) => destruct x
  | |- keeps _ (let '(_, _) := ?x in _) => destruct x
  end.

#[global] Instance same_sheet_frame : Frame same_sheet.
Proof. split; unfold same_sheet; intros; congruence. Qed.

#[global] Instance same_files_frame : Frame same_files.
Proof. split; unfold same_files; intros; congruence. Qed.

#[global] Instance calls_only_frame ok : Frame (calls_only ok).
Proof.
  split.
  - intros w. exists []. rewrite app_nil_r. split; reflexivity.
  - intros a b c (t1 & H1 & F1) (t2 & H2 & F2). exists (t1 ++ t2).
    rewrite H2, H1, app_assoc, forallb_app, F1, F2. split; reflexivity.
Qed.

Lemma calls_only_record ok ev w :
  ok ev = true -> calls_only ok w (record_event ev w).
Proof. intros H. exists [ev]. simpl. rewrite H. split; reflexivity. Qed.

Lemma calls_only_quiet ok w w' : trace w' = trace w -> calls_only ok w w'.
Proof. intros H. exists []. rewrite app_nil_r. split; [exact H | reflexivity]. Qed.

(** Closing the side conditions of the collaborator calls. *)
Ltac keeps_side :=
  first
    [ reflexivity
    | apply calls_only_record; reflexivity
    | apply calls_only_quiet; reflexivity ].

Ltac keeps_auto := repeat keeps_step; try keeps_side.

Lemma get_video_info_sheet o url : keeps same_sheet (Downloader.get_video_info o url).
Proof. unfold Downloader.get_video_info, getitem. keeps_auto. Qed.

Lemma get_video_info_files o url : keeps same_files (Downloader.get_video_info o url).
Proof. unfold Downloader.get_video_info, getitem. keeps_auto. Qed.

Lemma download_video_sheet s o url md :
  keeps same_sheet (Downloader.download_video s o url md).
Proof. unfold Downloader.download_video, mkdir, rename. keeps_auto. Qed.

Lemma download_video_calls s o url md ok :
  ok (EvMkdir (path_join (VIDEO_DIR s) (py "temp"))) = true ->
  ok (EvMkdir (PROCESSED_DIR s)) = true ->
  (forall a b, ok (EvDownload a b) = true) ->
  (forall a b, ok (EvRename a b) = true) ->
  keeps (calls_only ok) (Downloader.download_video s o url md).
Proof.
  intros H1 H2 H3 H4.
  unfold Downloader.download_video, mkdir, rename. keeps_auto;
    apply calls_only_record; auto.
Qed.

(** ** The pipeline of the app package *)

(** [process_video] spelled out over the results of its components. *)
Lemma process_video_eq L s o url w :
  Processor.process_video L s o url w =
  match Validators.validate_youtube_url L url with
  | Raise e => (Raise (processing_error e), w)
  | Ok video_id =>
  match Downloader.get_video_info o url w with
  | (Raise e, w1) => (Raise (processing_error e), w1)
  | (Ok md, w1) =>
  match Sheets.add_video s o md w1 with
  | (Raise e, w2) => (Raise (processing_error e), w2)
  | (Ok _, w2) =>
  match Downloader.download_video s o url md w2 with
  | (Raise e, w3) => (Raise (processing_error e), w3)
  | (Ok video_path, w3) =>
    if UPLOAD_TO_DRIVE s then
      match Drive.upload_file o video_path (Some (md_title md)) w3 with
      | (Raise e, w4) => (Raise (processing_error e), w4)
      | (Ok file_id, w4) =>
          if truthy file_id then
            match Sheets.update_video_status o video_id (py "Completed")
                    (Some file_id) (Some (md_title md)) w4 with
            | (Raise e, w5) => (Raise (processing_error e), w5)
            | (Ok _, w5) =>
                if KEEP_FILES s then (Ok tt, w5)
                else
                  match unlink o video_path w5 with
                  | (Raise e, w6) => (Raise (processing_error e), w6)
                  | (Ok _, w6) => (Ok tt, w6)
                  end
            end
          else (Ok tt, w4)
      end
    else
      match Sheets.update_video_status o video_id (py "Completed Locally")
              (Some video_path) (Some (md_title md)) w3 with
      | (Raise e, w4) => (Raise (processing_error e), w4)
      | (Ok _, w4) => (Ok tt, w4)
      end
  end end end end.
Proof.
  unfold Processor.process_video, try_except, bind, lift, raise, ret,
    processing_error.
  destruct (Validators.validate_youtube_url L url); [|reflexivity].
  destruct (Downloader.get_video_info o url w) as [[md|e] w1]; [|reflexivity].
  destruct (Sheets.add_video s o md w1) as [[[]|e] w2]; [|reflexivity].
  destruct (Downloader.download_video s o url md w2) as [[p|e] w3];
    [|reflexivity].
  destruct (UPLOAD_TO_DRIVE s).
  - destruct (Drive.upload_file o p (Some (md_title md)) w3)
      as [[fid|e] w4]; [|reflexivity].
    destruct (truthy fid); [|reflexivity].
    destruct (Sheets.update_video_status _ _ _ _ _ w4) as [[[]|e] w5];
      [|reflexivity].
    destruct (KEEP_FILES s); simpl; [reflexivity|].
    destruct (unlink o p w5) as [[[]|e] w6]; reflexivity.
  - destruct (Sheets.update_video_status _ _ _ _ _ w3) as [[[]|e] w4];
      reflexivity.
Qed.

(** *** Which exceptions cross a boundary *)

Lemma raises_only_raise c {A} msg : raises_only c (@raise A (Exc c msg)).
Proof. intros w e w' [= <- _]. reflexivity. Qed.

Lemma raises_only_try c {A} (m : M A) h :
  (forall e, raises_only c (h e)) -> raises_only c (try_except m h).
Proof.
  intros Hh w e w'. unfold try_except.
  destruct (m w) as [[a|e1] w1]; [discriminate|]. apply Hh.
Qed.

Ltac raises_only_tac :=
  apply raises_only_try; intros ?; repeat case_match; apply raises_only_raise.

(** Each component turns whatever its collaborator raises into its own
    class. *)
Lemma get_video_info_raises o url :
  raises_only DownloadError (Downloader.get_video_info o url).
Proof. unfold Downloader.get_video_info. raises_only_tac. Qed.

Lemma download_video_raises s o url md :
  raises_only DownloadError (Downloader.download_video s o url md).
Proof. unfold Downloader.download_video. raises_only_tac. Qed.

Lemma add_video_raises s o md :
  raises_only GoogleSheetsError (Sheets.add_video s o md).
Proof. unfold Sheets.add_video. raises_only_tac. Qed.

Lemma update_video_status_raises o vid st fid title :
  raises_only GoogleSheetsError (Sheets.update_video_status o vid st fid title).
Proof. unfold Sheets.update_video_status. raises_only_tac. Qed.

Lemma upload_file_raises o p title :
  raises_only GoogleDriveError (Drive.upload_file o p title).
Proof. unfold Drive.upload_file. raises_only_tac. Qed.

(** C3, as the code has it. Whatever the input and whatever the
    collaborators do, [process_video] returns or raises a [ProcessingError],
    a class of the application; and when the extractor raises its
    [ValidationError], [process_video] raises a [ProcessingError] whose
    message is that of the [ValidationError] after the words
    [Processing error: ], before any collaborator has been called. *)
Theorem process_video_failures L s o url w :
  (forall e, fst (Processor.process_video L s o url w) = Raise e ->
     exc_cls e = ProcessingError /\ taxonomy (exc_cls e) = true)
  /\ (forall e0, Validators.validate_youtube_url L url = Raise e0 ->
        exc_cls e0 = ValidationError
        /\ Processor.process_video L s o url w
           = (Raise (Exc ProcessingError
                       (py "Processing error: " ++ exc_msg e0)), w)).
Proof.
  split.
  - intros e. unfold Processor.process_video, try_except.
    match goal with |- context [match ?m w with _ => _ end] =>
      destruct (m w) as [[[]|e1] w1] end; simpl; [discriminate|].
    intros [= <-]. split; reflexivity.
  - intros e0 H. split.
    + pose proof (validate_result L url) as Hr. rewrite H in Hr. exact Hr.
    + rewrite process_video_eq, H. reflexivity.
Qed.

Lemma process_video_failures_witness :
  let url := py "https://example.com/watch?v=dQw4w9WgXcQ" in
  let e0 := Exc ValidationError (py "Could not extract valid video ID from URL") in
  Validators.validate_youtube_url PyUrllib.lib url = Raise e0
  /\ Processor.process_video PyUrllib.lib (Sample.settings true true)
       Sample.all_fine url Sample.world
     = (Raise (Exc ProcessingError
          (py "Processing error: Could not extract valid video ID from URL")),
        Sample.world).
Proof.
  assert (H : Validators.validate_youtube_url PyUrllib.lib
                (py "https://example.com/watch?v=dQw4w9WgXcQ")
              = Raise (Exc ValidationError
                         (py "Could not extract valid video ID from URL")))
    by (vm_compute; reflexivity).
  split; [exact H|].
  exact (proj2 (proj2 (process_video_failures PyUrllib.lib
           (Sample.settings true true) Sample.all_fine _ Sample.world) _ H)).
Defined.

(** C3 as stated fails on a URL of another host: the extractor raises a
    [ValidationError], and what leaves [process_video] is another exception,
    of class [ProcessingError]. *)
Lemma validation_error_not_propagated :
  let url := py "https://example.com/watch?v=dQw4w9WgXcQ" in
  exists e0 e,
    Validators.validate_youtube_url PyUrllib.lib url = Raise e0
    /\ exc_cls e0 = ValidationError
    /\ fst (Processor.process_video PyUrllib.lib (Sample.settings true true)
              Sample.all_fine url Sample.world) = Raise e
    /\ exc_cls e = ProcessingError
    /\ e <> e0.
Proof.
  eexists. eexists.
  split; [vm_compute; reflexivity|].
  split; [reflexivity|].
  split; [vm_compute; reflexivity|].
  split; [reflexivity|discriminate].
Qed.

(** *** Unsupported content *)

Lemma get_video_info_unsupported o url w i :
  ydl_extract_info o url = Ok (Some i) ->
  has_entries i = true \/ is_live i = true \/ (0 < age_limit i)%Z ->
  Downloader.get_video_info o url w
  = (Raise (Exc DownloadError
              (py "Failed to get video info: " ++ unsupported_reason i)),
     record_event (EvExtractInfo url false) w).
Proof.
  intros Hi Hu.
  unfold Downloader.get_video_info, try_except, bind, call, lift, raise,
    unsupported_reason.
  rewrite Hi.
  destruct (has_entries i); [reflexivity|].
  destruct (is_live i); [reflexivity|].
  destruct Hu as [Hu|[Hu|Hu]]; try discriminate.
  apply Z.ltb_lt in Hu. rewrite Hu. reflexivity.
Qed.

(** C7, as the code has it. When the metadata reports a playlist, a live
    stream or an age limit, [get_video_info] raises a [DownloadError] that
    names the reason, [process_video] raises the [ProcessingError] that wraps
    it, and the only collaborator call of the run is the metadata fetch: the
    sheet and the files are as before. *)
Theorem unsupported_content_rejected L s o url w vid i :
  Validators.validate_youtube_url L url = Ok vid ->
  ydl_extract_info o url = Ok (Some i) ->
  has_entries i = true \/ is_live i = true \/ (0 < age_limit i)%Z ->
  exists w',
    Processor.process_video L s o url w
    = (Raise (Exc ProcessingError
         (py "Processing error: Failed to get video info: "
          ++ unsupported_reason i)), w')
    /\ fst (Downloader.get_video_info o url w)
       = Raise (Exc DownloadError
           (py "Failed to get video info: " ++ unsupported_reason i))
    /\ sheet w' = sheet w
    /\ files w' = files w
    /\ trace w' = trace w ++ [EvExtractInfo url false].
Proof.
  intros Hv Hi Hu. exists (record_event (EvExtractInfo url false) w).
  rewrite process_video_eq, Hv, (get_video_info_unsupported o url w i Hi Hu).
  repeat split; reflexivity.
Qed.

Lemma unsupported_content_rejected_witness :
  let o := Sample.oracle Sample.live_info (Some 1048576)
             (UploadResponse (Some (py "abc123"))) in
  exists w',
    Processor.process_video PyUrllib.lib (Sample.settings true true) o
      Sample.video_id Sample.world
    = (Raise (Exc ProcessingError
         (py "Processing error: Failed to get video info: Live streams are not supported")),
       w')
    /\ sheet w' = [Sheets.HEADERS]
    /\ files w' = ∅.
Proof.
  destruct (unsupported_content_rejected PyUrllib.lib
              (Sample.settings true true)
              (Sample.oracle Sample.live_info (Some 1048576)
                 (UploadResponse (Some (py "abc123"))))
              Sample.video_id Sample.world Sample.video_id Sample.live_info)
    as (w' & Hp & _ & Hs & Hf & _).
  - vm_compute. reflexivity.
  - reflexivity.
  - right. left. reflexivity.
  - exists w'. split; [exact Hp|]. split; [exact Hs | exact Hf].
Defined.

(** C7 as stated fails on a live stream: the class that leaves
    [get_video_info] is [DownloadError], the one it uses for every failed
    fetch, and the class that leaves [process_video] is [ProcessingError];
    the application declares no class for unsupported content. *)
Lemma live_stream_error_class :
  let o := Sample.oracle Sample.live_info (Some 1048576)
             (UploadResponse (Some (py "abc123"))) in
  fst (Downloader.get_video_info o Sample.video_id Sample.world)
  = Raise (Exc DownloadError
      (py "Failed to get video info: Live streams are not supported"))
  /\ fst (Processor.process_video PyUrllib.lib (Sample.settings true true) o
            Sample.video_id Sample.world)
     = Raise (Exc ProcessingError
         (py "Processing error: Failed to get video info: Live streams are not supported")).
Proof. split; vm_compute; reflexivity. Qed.

(** *** Running the model *)

(** Unfolds the monad and the collaborator calls and reduces the reads of
    the world; the oracle's answers are then rewritten by hand. *)
Ltac run_model :=
  cbv beta iota zeta delta [try_except try_finally bind mkdir call answer
    lift gets modify raise ret rename unlink copy2 exists_ append_row find
    update_cell row_values col_values insert_row clear
    record_event set_files set_sheet];
  cbn [files sheet trace].

Lemma temp_final_differ s id title :
  get_video_path id title (VIDEO_DIR s) true
  <> get_video_path id title (PROCESSED_DIR s) false.
Proof.
  unfold get_video_path, PROCESSED_DIR, path_join.
  rewrite <- !app_assoc. intros H. apply app_inv_head in H.
  vm_compute in H. discriminate.
Qed.

(** Every run of [get_video_info] makes one call, the metadata fetch, and
    changes nothing else. *)
Lemma get_video_info_run o url w r w' :
  Downloader.get_video_info o url w = (r, w') ->
  w' = record_event (EvExtractInfo url false) w.
Proof.
  unfold Downloader.get_video_info, getitem. run_model.
  repeat case_match; simplify_eq; intros; simplify_eq; reflexivity.
Qed.

Lemma add_video_run s o md w :
  gs_append_row o (Sheets.row_data s o md) = None ->
  Sheets.add_video s o md w
  = (Ok tt, {| sheet := sheet w ++ [Sheets.row_data s o md];
               files := files w;
               trace := trace w ++ [EvAppendRow (Sheets.row_data s o md)] |}).
Proof.
  intros H. unfold Sheets.add_video. run_model. rewrite H. reflexivity.
Qed.

Lemma download_video_any s o url md :
  keeps (calls_only any_call) (Downloader.download_video s o url md).
Proof. unfold Downloader.download_video, mkdir, rename. keeps_auto. Qed.

Lemma upload_file_any o p t : keeps (calls_only any_call) (Drive.upload_file o p t).
Proof.
  unfold Drive.upload_file, Drive.validate_file_exists, exists_. keeps_auto.
Qed.

Lemma update_video_status_any o a b c d :
  keeps (calls_only any_call) (Sheets.update_video_status o a b c d).
Proof.
  unfold Sheets.update_video_status, Sheets.headers_index, find, update_cell.
  keeps_auto.
Qed.

Lemma unlink_any o p : keeps (calls_only any_call) (unlink o p).
Proof. unfold unlink. keeps_auto. Qed.

(** What holds of every step after the row has been added holds of the rest
    of the run. *)
Lemma process_video_tail (R : World -> World -> Prop) `{!Frame R}
    L s o url w vid md w1 w2 :
  Validators.validate_youtube_url L url = Ok vid ->
  Downloader.get_video_info o url w = (Ok md, w1) ->
  Sheets.add_video s o md w1 = (Ok tt, w2) ->
  keeps R (Downloader.download_video s o url md) ->
  (forall p t, keeps R (Drive.upload_file o p t)) ->
  (forall a b c d, keeps R (Sheets.update_video_status o a b c d)) ->
  (forall p, keeps R (unlink o p)) ->
  R w2 (snd (Processor.process_video L s o url w)).
Proof.
  intros Hv Hg Ha Kd Ku Ks Kl. rewrite process_video_eq, Hv, Hg, Ha.
  destruct (Downloader.download_video s o url md w2) as [[p|e] w3] eqn:Ed;
    apply Kd in Ed; [|exact Ed].
  destruct (UPLOAD_TO_DRIVE s).
  - destruct (Drive.upload_file o p _ w3) as [[fid|e] w4] eqn:Eu;
      apply Ku in Eu; [|exact (frame_trans _ _ _ Ed Eu)].
    destruct (truthy fid); [|exact (frame_trans _ _ _ Ed Eu)].
    destruct (Sheets.update_video_status _ _ _ _ _ w4) as [[[]|e] w5] eqn:Es;
      apply Ks in Es;
      [|exact (frame_trans _ _ _ Ed (frame_trans _ _ _ Eu Es))].
    destruct (KEEP_FILES s);
      [exact (frame_trans _ _ _ Ed (frame_trans _ _ _ Eu Es))|].
    destruct (unlink o p w5) as [[[]|e] w6] eqn:El; apply Kl in El;
      exact (frame_trans _ _ _ Ed
               (frame_trans _ _ _ Eu (frame_trans _ _ _ Es El))).
  - destruct (Sheets.update_video_status _ _ _ _ _ w3) as [[[]|e] w4] eqn:Es;
      apply Ks in Es; exact (frame_trans _ _ _ Ed Es).
Qed.

(** C2, as the code has it: the pipeline of the app package registers the
    video before the download, the older manager does not. Once the input
    is validated and the metadata fetched, and the sheet takes the row,
    [process_video] of the app package appends a row whose download status
    is [Pending] right after the metadata fetch; every later call comes
    after it in the trace, so a download call of the run has the append
    before it; and when the download fails the run ends with that row at
    the end of the sheet. *)
Theorem pending_row_precedes_download L s o url w vid md w1 :
  Validators.validate_youtube_url L url = Ok vid ->
  Downloader.get_video_info o url w = (Ok md, w1) ->
  gs_append_row o (Sheets.row_data s o md) = None ->
  let row := Sheets.row_data s o md in
  let w2 := {| sheet := sheet w ++ [row]; files := files w;
               trace := trace w ++ [EvExtractInfo url false; EvAppendRow row] |} in
  let result := Processor.process_video L s o url w in
  row !! 8%nat = Some (py "Pending")
  /\ Sheets.add_video s o md w1 = (Ok tt, w2)
  /\ (exists later, trace (snd result) = trace w2 ++ later)
  /\ (forall before u t after,
        trace (snd result) = trace w ++ before ++ EvDownload u t :: after ->
        EvAppendRow row ∈ before)
  /\ (forall e w3,
        Downloader.download_video s o url md w2 = (Raise e, w3) ->
        result = (Raise (processing_error e), w3)
        /\ sheet w3 = sheet w ++ [row]).
Proof.
  intros Hv Hg Hrow row w2 result.
  apply get_video_info_run in Hg as Hw1.
  assert (Ha : Sheets.add_video s o md w1 = (Ok tt, w2)).
  { rewrite (add_video_run s o md w1 Hrow). subst w1 w2. simpl.
    rewrite <- app_assoc. reflexivity. }
  destruct (process_video_tail (calls_only any_call) L s o url w vid md w1 w2
              Hv Hg Ha (download_video_any s o url md) (upload_file_any o)
              (update_video_status_any o) (unlink_any o)) as (later & Hl & _).
  fold result in Hl.
  split; [reflexivity|]. split; [exact Ha|]. split; [|split].
  - exists later. exact Hl.
  - intros before u t after Hsplit. rewrite Hl in Hsplit.
    cbn [trace w2] in Hsplit. rewrite <- app_assoc in Hsplit.
    apply app_inv_head in Hsplit.
    destruct before as [|e1 [|e2 before]]; try discriminate.
    injection Hsplit as _ <- _. apply list_elem_of_In. right. left. reflexivity.
  - intros e w3 Hd. subst result. rewrite process_video_eq, Hv, Hg, Ha, Hd.
    split; [reflexivity|]. apply download_video_sheet in Hd. exact Hd.
Qed.

Lemma pending_row_precedes_download_witness :
  let o := Sample.oracle Sample.info None (UploadResponse (Some (py "abc123"))) in
  let s := Sample.settings true true in
  let result := Processor.process_video PyUrllib.lib s o Sample.video_id Sample.world in
  fst result
  = Raise (Exc ProcessingError
      (py "Processing error: Failed to download video: Download completed but file not found"))
  /\ sheet (snd result)
     = [Sheets.HEADERS;
        [py "Never Gonna: Give You Up"; py "The official video";
         py "rick, astley"; py "Music"; py ""; py "";
         py "https://i.ytimg.com/vi/dQw4w9WgXcQ/hq.jpg"; py "2024-05-01";
         py "Pending"; py "Pending"]].
Proof.
  intros o s result. subst result.
  assert (Hv : Validators.validate_youtube_url PyUrllib.lib Sample.video_id
               = Ok Sample.video_id) by (vm_compute; reflexivity).
  assert (Hg : Downloader.get_video_info o Sample.video_id Sample.world
               = (Ok Sample.md,
                  record_event (EvExtractInfo Sample.video_id false) Sample.world))
    by (vm_compute; reflexivity).
  assert (Hrow : gs_append_row o (Sheets.row_data s o Sample.md) = None)
    by reflexivity.
  destruct (pending_row_precedes_download PyUrllib.lib s o Sample.video_id
              Sample.world Sample.video_id Sample.md _ Hv Hg Hrow)
    as (_ & _ & _ & _ & Hfail).
  match type of Hfail with
  | forall e w3, ?d = _ -> _ => destruct d as [rd w3] eqn:Hd
  end.
  assert (Hrd : rd = Raise (Exc DownloadError
            (py "Failed to download video: Download completed but file not found"))).
  { apply (f_equal fst) in Hd. simpl in Hd. rewrite <- Hd.
    vm_compute. reflexivity. }
  subst rd. destruct (Hfail _ _ eq_refl) as [Hres Hsheet].
  rewrite Hres. split; [reflexivity|].
  simpl. rewrite Hsheet. vm_compute. reflexivity.
Defined.

(** *** An empty or missing download *)

Lemma download_video_empty s o url md w written :
  let temp := get_video_path (md_id md) (md_title md) (VIDEO_DIR s) true in
  os_mkdir o (TEMP_DIR s) = None ->
  os_mkdir o (PROCESSED_DIR s) = None ->
  ydl_download o url temp = Ok written ->
  left_behind written w temp = Some 0 \/ left_behind written w temp = None ->
  Downloader.download_video s o url md w
  = (Raise (Exc DownloadError
       (py "Failed to download video: "
        ++ download_fault (left_behind written w temp))),
     {| sheet := sheet w;
        files := match written with
                 | Some n => <[temp := n]> (files w)
                 | None => files w
                 end;
        trace := trace w ++ [EvMkdir (TEMP_DIR s); EvDownload url temp;
                             EvMkdir (PROCESSED_DIR s)] |}).
Proof.
  intros temp H1 H2 H3 Hl. subst temp.
  unfold TEMP_DIR, left_behind in *.
  unfold Downloader.download_video.
  run_model. rewrite H1. run_model. rewrite H3. run_model.
  destruct written as [n|]; run_model; rewrite H2; run_model.
  - rewrite lookup_insert_eq.
    destruct Hl as [[= ->]|]; [|discriminate].
    cbn. rewrite <- !app_assoc. reflexivity.
  - destruct Hl as [Hl|Hl]; rewrite Hl; cbn; rewrite <- !app_assoc;
      reflexivity.
Qed.

(** C6, as the code has it. When the download returns and the temporary file
    is empty, or is not there, [download_video] raises a [DownloadError]
    that says so, and [process_video] raises the [ProcessingError] that
    wraps it. No rename is attempted: the calls of the step are the two
    [mkdir] and the download, the temporary file stays as the download left
    it and the final path is as it was. *)
Theorem empty_or_missing_download_fails L s o url w vid md w1 w2 written :
  let temp := get_video_path (md_id md) (md_title md) (VIDEO_DIR s) true in
  let final := get_video_path (md_id md) (md_title md) (PROCESSED_DIR s) false in
  Validators.validate_youtube_url L url = Ok vid ->
  Downloader.get_video_info o url w = (Ok md, w1) ->
  Sheets.add_video s o md w1 = (Ok tt, w2) ->
  os_mkdir o (TEMP_DIR s) = None ->
  os_mkdir o (PROCESSED_DIR s) = None ->
  ydl_download o url temp = Ok written ->
  left_behind written w2 temp = Some 0 \/ left_behind written w2 temp = None ->
  exists w3,
    Downloader.download_video s o url md w2
    = (Raise (Exc DownloadError
         (py "Failed to download video: "
          ++ download_fault (left_behind written w2 temp))), w3)
    /\ Processor.process_video L s o url w
       = (Raise (Exc ProcessingError
            (py "Processing error: Failed to download video: "
             ++ download_fault (left_behind written w2 temp))), w3)
    /\ trace w3 = trace w2 ++ [EvMkdir (TEMP_DIR s); EvDownload url temp;
                               EvMkdir (PROCESSED_DIR s)]
    /\ files w3 !! temp = left_behind written w2 temp
    /\ files w3 !! final = files w2 !! final.
Proof.
  intros temp final Hv Hg Ha H1 H2 H3 Hl.
  eexists. split; [apply (download_video_empty s o url md w2 written H1 H2 H3 Hl)|].
  split.
  - rewrite process_video_eq, Hv, Hg, Ha.
    rewrite (download_video_empty s o url md w2 written H1 H2 H3 Hl).
    reflexivity.
  - cbn [trace files]. split; [reflexivity|].
    unfold left_behind. destruct written as [n|].
    + rewrite lookup_insert_eq. split; [reflexivity|].
      apply lookup_insert_ne, temp_final_differ.
    + split; reflexivity.
Qed.

Lemma empty_or_missing_download_fails_witness :
  let o := Sample.oracle Sample.info (Some 0) (UploadResponse (Some (py "abc123"))) in
  let s := Sample.settings true true in
  exists w3,
    Processor.process_video PyUrllib.lib s o Sample.video_id Sample.world
    = (Raise (Exc ProcessingError
         (py "Processing error: Failed to download video: Downloaded file is empty")),
       w3)
    /\ files w3 !! Sample.temp_path = Some 0
    /\ files w3 !! Sample.final_path = None.
Proof.
  intros o s.
  destruct (empty_or_missing_download_fails PyUrllib.lib s o Sample.video_id
              Sample.world Sample.video_id Sample.md
              Sample.fetched (Sample.registered s o) (Some 0))
    as (w3 & _ & Hp & _ & Ht & Hf).
  - vm_compute. reflexivity.
  - vm_compute. reflexivity.
  - vm_compute. reflexivity.
  - reflexivity.
  - reflexivity.
  - reflexivity.
  - left. reflexivity.
  - exists w3. split; [exact Hp|]. split; [exact Ht | exact Hf].
Defined.

(** C6 as stated fails on a download that leaves an empty file: what leaves
    [process_video] is a [ProcessingError]; the [DownloadError] is what
    [download_video] raised. *)
Lemma empty_download_error_class :
  let o := Sample.oracle Sample.info (Some 0) (UploadResponse (Some (py "abc123"))) in
  let s := Sample.settings true true in
  exists e,
    fst (Processor.process_video PyUrllib.lib s o Sample.video_id Sample.world)
    = Raise e
    /\ exc_cls e = ProcessingError
    /\ exc_cls e <> DownloadError
    /\ exc_msg e
       = py "Processing error: Failed to download video: Downloaded file is empty".
Proof.
  eexists. split; [vm_compute; reflexivity|].
  split; [reflexivity|]. split; [discriminate | reflexivity].
Qed.

(** The older manager has no size test: an empty download is renamed to its
    final name, uploaded and recorded. *)
Lemma legacy_keeps_empty_download :
  let o := Sample.oracle Sample.info (Some 0) (UploadResponse (Some (py "abc123"))) in
  let result := Legacy.process_video PyUrllib.lib Sample.config o Sample.video_id
                  Sample.legacy_world in
  fst result = Ok true
  /\ EvRename (py "/srv/app/Videos/dQw4w9WgXcQ.mp4")
       (py "/srv/app/Videos/Never Gonna_ Give You Up_dQw4w9WgXcQ.mp4")
     ∈ trace (snd result).
Proof.
  split; [vm_compute; reflexivity|].
  apply list_elem_of_In. vm_compute. tauto.
Qed.

(** *** Cells of the sheet *)

Lemma pad_length {A} n (d : A) l : (n <= length (pad n d l))%nat.
Proof. unfold pad. rewrite length_app, length_replicate. lia. Qed.

Lemma pad_lookup_default {A} n (d : A) l i :
  default d (pad n d l !! i) = default d (l !! i).
Proof.
  unfold pad. destruct (decide (i < length l)%nat) as [Hi|Hi].
  - rewrite lookup_app_l by exact Hi. reflexivity.
  - rewrite lookup_app_r by lia.
    rewrite (lookup_ge_None_2 l i) by lia. simpl.
    destruct (replicate (n - length l) d !! (i - length l)%nat) eqn:E;
      [|reflexivity].
    apply lookup_replicate in E as [-> _]. reflexivity.
Qed.

Lemma get_cell_set_cell_eq r c v sh : get_cell r c (set_cell r c v sh) = v.
Proof.
  unfold get_cell, set_cell.
  rewrite list_lookup_insert_eq by apply pad_length. simpl.
  rewrite list_lookup_insert_eq by apply pad_length. reflexivity.
Qed.

Lemma get_cell_set_cell_ne r r' c c' v sh :
  c <> c' -> get_cell r' c' (set_cell r c v sh) = get_cell r' c' sh.
Proof.
  intros Hc. unfold get_cell, set_cell.
  destruct (decide (r = r')) as [<-|Hr].
  - rewrite list_lookup_insert_eq by apply pad_length. simpl.
    rewrite list_lookup_insert_ne by exact Hc.
    rewrite !pad_lookup_default. reflexivity.
  - rewrite list_lookup_insert_ne by exact Hr.
    rewrite pad_lookup_default. reflexivity.
Qed.

Lemma get_cell_last sh cells c :
  get_cell (length sh) c (sh ++ [cells]) = default [] (cells !! c).
Proof.
  unfold get_cell. rewrite lookup_app_r by apply Nat.le_refl.
  rewrite Nat.sub_diag. reflexivity.
Qed.

(** A text that is in the row just appended is found, in that row or in an
    earlier one. *)
Lemma find_from_app_last text sh cells col k :
  find_in_row text cells 1 = Some col ->
  exists row col',
    find_from text (sh ++ [cells]) k = Some (row, col') /\ (k <= row)%nat.
Proof.
  intros Hc. revert k. induction sh as [|r sh IH]; intros k; simpl.
  - rewrite Hc. eauto.
  - destruct (find_in_row text r 1); [eauto|].
    destruct (IH (S k)) as (row & col' & H & Hle).
    exists row, col'. split; [exact H | lia].
Qed.

(** Where a text is found when a row is appended: in the sheet before, if
    it is there, and in the new row otherwise. *)
Lemma find_from_bounds text sh k row col :
  find_from text sh k = Some (row, col) ->
  (k <= row < k + length sh)%nat
  /\ forall b, find_from text sh b = Some ((row - k + b)%nat, col).
Proof.
  revert k. induction sh as [|cells sh IH]; intros k; simpl; [discriminate|].
  destruct (find_in_row text cells 1) as [c|].
  - intros [= <- <-]. split; [lia|]. intros b. do 2 f_equal. lia.
  - intros H. destruct (IH _ H) as [Hb Hs]. split; [lia|].
    intros b. rewrite (Hs (S b)). do 2 f_equal. lia.
Qed.

Lemma find_from_app_found text sh more k cell :
  find_from text sh k = Some cell -> find_from text (sh ++ more) k = Some cell.
Proof.
  revert k. induction sh as [|cells sh IH]; intros k; simpl; [discriminate|].
  destruct (find_in_row text cells 1); [trivial | apply IH].
Qed.

Lemma find_from_app_fresh text sh cells k :
  find_from text sh k = None ->
  find_from text (sh ++ [cells]) k
  = match find_in_row text cells 1 with
    | Some col => Some ((k + length sh)%nat, col)
    | None => None
    end.
Proof.
  revert k. induction sh as [|r sh IH]; intros k; simpl.
  - intros _. rewrite Nat.add_0_r. destruct (find_in_row text cells 1); reflexivity.
  - destruct (find_in_row text r 1); [discriminate|].
    intros H. rewrite (IH _ H). destruct (find_in_row text cells 1); [|reflexivity].
    do 2 f_equal. lia.
Qed.

Lemma get_cell_set_cell_row r r' c c' v sh :
  r <> r' -> get_cell r' c' (set_cell r c v sh) = get_cell r' c' sh.
Proof.
  intros Hr. unfold get_cell, set_cell.
  rewrite list_lookup_insert_ne by exact Hr.
  rewrite pad_lookup_default. reflexivity.
Qed.

(** *** The steps of a successful run *)

Lemma add_video_ok s o md w w' :
  Sheets.add_video s o md w = (Ok tt, w') ->
  w' = {| sheet := sheet w ++ [Sheets.row_data s o md];
          files := files w;
          trace := trace w ++ [EvAppendRow (Sheets.row_data s o md)] |}.
Proof.
  unfold Sheets.add_video. run_model.
  destruct (gs_append_row o (Sheets.row_data s o md)); [discriminate|].
  intros [= <-]. reflexivity.
Qed.

Lemma download_video_ok s o url md w p w' :
  Downloader.download_video s o url md w = (Ok p, w') ->
  p = get_video_path (md_id md) (md_title md) (PROCESSED_DIR s) false
  /\ sheet w' = sheet w
  /\ exists n, n <> 0 /\ files w' !! p = Some n.
Proof.
  unfold Downloader.download_video. run_model.
  intros H.
  repeat (case_match; simplify_eq; cbn [files sheet trace] in * ).
  all: split; [reflexivity|]; split; [reflexivity|].
  all: eexists; split; [|apply lookup_insert_eq].
  all: match goal with
       | H : (_ =? 0) = false |- _ => apply N.eqb_neq in H; exact H
       end.
Qed.

Lemma get_video_path_truthy id title dir temp :
  truthy (get_video_path id title dir temp) = true.
Proof.
  unfold get_video_path, path_join.
  destruct temp; destruct dir; reflexivity.
Qed.

Lemma get_video_info_no_upload o url :
  keeps (calls_only not_upload) (Downloader.get_video_info o url).
Proof. unfold Downloader.get_video_info, getitem. keeps_auto. Qed.

Lemma add_video_no_upload s o md :
  keeps (calls_only not_upload) (Sheets.add_video s o md).
Proof. unfold Sheets.add_video, append_row. keeps_auto. Qed.

Lemma download_video_no_upload s o url md :
  keeps (calls_only not_upload) (Downloader.download_video s o url md).
Proof. unfold Downloader.download_video, mkdir, rename. keeps_auto. Qed.

Lemma update_video_status_no_upload o a b c d :
  keeps (calls_only not_upload) (Sheets.update_video_status o a b c d).
Proof.
  unfold Sheets.update_video_status, Sheets.headers_index, find, update_cell.
  keeps_auto.
Qed.

(** [update_video_status] with the status [Completed Locally]: the cell of
    the download status is not written, the path goes to column 5. *)
Lemma update_video_status_local o vid p title w row col :
  truthy title = true ->
  truthy p = true ->
  gs_find o title = None ->
  find_from title (sheet w) 1 = Some (row, col) ->
  gs_update_cell o row 5 p = None ->
  Sheets.update_video_status o vid (py "Completed Locally") (Some p)
    (Some title) w
  = (Ok tt, {| sheet := set_cell (row - 1) 4 p (sheet w);
               files := files w;
               trace := trace w ++ [EvFind title; EvUpdateCell row 5 p] |}).
Proof.
  intros Ht Hp Hf Hfound Hu.
  unfold Sheets.update_video_status. rewrite Ht, Hp.
  change (pystr_eqb (py "Completed Locally") (py "Completed")) with false.
  change (Sheets.headers_index (py "Drive File ID")) with (@ret nat 4%nat).
  run_model. rewrite Hf. run_model. rewrite Hfound. run_model.
  change (4 + 1)%nat with 5%nat. rewrite Hu. run_model.
  rewrite <- app_assoc. reflexivity.
Qed.

(** C10, as the code has it. With the upload switched off, a run whose
    collaborators answer returns without any upload call. The local path of
    the file goes to the Drive File ID column (column 5) of the first row,
    counting the row the run has appended, that has a cell equal to the
    title: the row of the run when no cell of the sheet before the run
    equals the title, and an older row otherwise, in which case the row of
    the run keeps an empty Drive File ID. No cell of the Download Status
    column (column 9) changes, so the row the run appended still says
    [Pending]. *)
Theorem completed_locally_leaves_pending L s o url w vid md w1 w2 p w3 :
  UPLOAD_TO_DRIVE s = false ->
  Validators.validate_youtube_url L url = Ok vid ->
  Downloader.get_video_info o url w = (Ok md, w1) ->
  Sheets.add_video s o md w1 = (Ok tt, w2) ->
  Downloader.download_video s o url md w2 = (Ok p, w3) ->
  truthy (md_title md) = true ->
  gs_find o (md_title md) = None ->
  (forall row, gs_update_cell o row 5 p = None) ->
  exists row col w',
    Processor.process_video L s o url w = (Ok tt, w')
    /\ calls_only not_upload w w'
    /\ p = get_video_path (md_id md) (md_title md) (PROCESSED_DIR s) false
    /\ sheet w3 = sheet w ++ [Sheets.row_data s o md]
    /\ find_from (md_title md) (sheet w3) 1 = Some (row, col)
    /\ sheet w' = set_cell (row - 1) 4 p (sheet w3)
    /\ get_cell (row - 1) 4 (sheet w') = p
    /\ (forall r, get_cell r 8 (sheet w') = get_cell r 8 (sheet w3))
    /\ get_cell (length (sheet w)) 8 (sheet w') = py "Pending"
    /\ (find_from (md_title md) (sheet w) 1 = None ->
        row = S (length (sheet w))
        /\ get_cell (length (sheet w)) 4 (sheet w') = p)
    /\ (is_Some (find_from (md_title md) (sheet w) 1) ->
        (row <= length (sheet w))%nat
        /\ find_from (md_title md) (sheet w) 1 = Some (row, col)
        /\ get_cell (length (sheet w)) 4 (sheet w') = py "").
Proof.
  intros Hup Hv Hg Ha Hd Ht Hf Hu.
  pose proof (get_video_info_run _ _ _ _ _ Hg) as Hw1.
  pose proof (add_video_ok _ _ _ _ _ Ha) as Hw2.
  destruct (download_video_ok _ _ _ _ _ _ _ Hd) as (Hp & Hs3 & _).
  assert (Hsheet : sheet w3 = sheet w ++ [Sheets.row_data s o md]).
  { rewrite Hs3, Hw2, Hw1. reflexivity. }
  destruct (find_from_app_last (md_title md) (sheet w)
              (Sheets.row_data s o md) 1 1) as (row & col & Hfound & Hrow).
  { simpl. unfold pystr_eqb. rewrite bool_decide_eq_true_2; reflexivity. }
  rewrite <- Hsheet in Hfound.
  assert (Htp : truthy p = true) by (rewrite Hp; apply get_video_path_truthy).
  pose proof (update_video_status_local o vid p (md_title md) w3 row col
                Ht Htp Hf Hfound (Hu row)) as Hst.
  eexists row, col, _.
  split. { rewrite process_video_eq, Hv, Hg, Ha, Hd, Hup, Hst. reflexivity. }
  split.
  { eapply frame_trans; [eapply get_video_info_no_upload, Hg|].
    eapply frame_trans; [eapply add_video_no_upload, Ha|].
    eapply frame_trans; [eapply download_video_no_upload, Hd|].
    eapply update_video_status_no_upload, Hst. }
  split; [exact Hp|]. split; [exact Hsheet|]. split; [exact Hfound|].
  cbn [sheet]. split; [reflexivity|].
  split; [apply get_cell_set_cell_eq|].
  split; [intros r; apply get_cell_set_cell_ne; discriminate|].
  split.
  { rewrite get_cell_set_cell_ne by discriminate.
    rewrite Hsheet, get_cell_last. reflexivity. }
  rewrite Hsheet in Hfound. split.
  - intros Hnone. rewrite (find_from_app_fresh _ _ _ _ Hnone) in Hfound.
    destruct (find_in_row _ _ 1); [|discriminate].
    injection Hfound as <- _.
    split; [reflexivity|]. cbn [Nat.add Nat.sub]. rewrite Nat.sub_0_r.
    apply get_cell_set_cell_eq.
  - intros [cell Hcell].
    rewrite (find_from_app_found _ _ [Sheets.row_data s o md] _ _ Hcell)
      in Hfound.
    injection Hfound as ->.
    destruct (find_from_bounds _ _ _ _ _ Hcell) as [Hb _].
    split; [lia|]. split; [exact Hcell|].
    rewrite get_cell_set_cell_row by lia.
    rewrite Hsheet, get_cell_last. reflexivity.
Qed.

Lemma completed_locally_leaves_pending_witness :
  let s := Sample.settings true false in
  exists w',
    Processor.process_video PyUrllib.lib s Sample.all_fine Sample.video_id
      Sample.world = (Ok tt, w')
    /\ calls_only not_upload Sample.world w'
    /\ get_cell 1 4 (sheet w') = Sample.final_path
    /\ get_cell 1 8 (sheet w') = py "Pending".
Proof.
  intros s.
  destruct (Downloader.download_video s Sample.all_fine Sample.video_id Sample.md
              (Sample.registered s Sample.all_fine))
    as [rd w3] eqn:Hd.
  assert (Hrd : rd = Ok Sample.final_path).
  { apply (f_equal fst) in Hd. simpl in Hd. rewrite <- Hd.
    vm_compute. reflexivity. }
  subst rd.
  destruct (completed_locally_leaves_pending PyUrllib.lib s Sample.all_fine
              Sample.video_id Sample.world Sample.video_id Sample.md
              Sample.fetched (Sample.registered s Sample.all_fine)
              Sample.final_path w3)
    as (row & col & w' & Hp & Hc & _ & Hs3 & Hfound & _ & Hpath & _ & Hpending
        & _ & _).
  - reflexivity.
  - vm_compute. reflexivity.
  - vm_compute. reflexivity.
  - vm_compute. reflexivity.
  - exact Hd.
  - reflexivity.
  - reflexivity.
  - reflexivity.
  - exists w'. split; [exact Hp|]. split; [exact Hc|].
    rewrite Hs3 in Hfound. vm_compute in Hfound.
    injection Hfound as <- <-. split; [exact Hpath | exact Hpending].
Defined.

(** C10 as stated fails on a sheet that already has a row with the same
    title, here that of another video: the run returns, the path is written
    over the Drive File ID of that older row, and the row the run appended
    has an empty Drive File ID. *)
Lemma same_title_marks_older_row :
  let s := Sample.settings true false in
  let older := [py "Never Gonna: Give You Up"; py "A cover"; py ""; py "Music";
                py "1AbC"; py ""; py ""; py "2024-04-01"; py "Completed";
                py "Pending"] in
  let w := {| sheet := [Sheets.HEADERS; older]; files := ∅; trace := [] |} in
  let result := Processor.process_video PyUrllib.lib s Sample.all_fine
                  Sample.video_id w in
  UPLOAD_TO_DRIVE s = false
  /\ fst result = Ok tt
  /\ length (sheet (snd result)) = 3%nat
  /\ get_cell 2 0 (sheet (snd result)) = md_title Sample.md
  /\ get_cell 2 6 (sheet (snd result)) = md_thumbnail Sample.md
  /\ get_cell 2 4 (sheet (snd result)) = py ""
  /\ get_cell 1 4 (sheet (snd result)) = Sample.final_path
  /\ get_cell 2 8 (sheet (snd result)) = py "Pending".
Proof. repeat split; vm_compute; reflexivity. Qed.

(** *** The local file after a run *)

Lemma get_video_info_no_unlink o url :
  keeps (calls_only not_unlink) (Downloader.get_video_info o url).
Proof. unfold Downloader.get_video_info, getitem. keeps_auto. Qed.

Lemma add_video_no_unlink s o md :
  keeps (calls_only not_unlink) (Sheets.add_video s o md).
Proof. unfold Sheets.add_video, append_row. keeps_auto. Qed.

Lemma download_video_no_unlink s o url md :
  keeps (calls_only not_unlink) (Downloader.download_video s o url md).
Proof. unfold Downloader.download_video, mkdir, rename. keeps_auto. Qed.

Lemma upload_file_no_unlink o p t :
  keeps (calls_only not_unlink) (Drive.upload_file o p t).
Proof.
  unfold Drive.upload_file, Drive.validate_file_exists, exists_. keeps_auto.
Qed.

Lemma update_video_status_no_unlink o a b c d :
  keeps (calls_only not_unlink) (Sheets.update_video_status o a b c d).
Proof.
  unfold Sheets.update_video_status, Sheets.headers_index, find, update_cell.
  keeps_auto.
Qed.

Lemma upload_file_files o p t : keeps same_files (Drive.upload_file o p t).
Proof.
  unfold Drive.upload_file, Drive.validate_file_exists, exists_. keeps_auto.
Qed.

Lemma update_video_status_files o a b c d :
  keeps same_files (Sheets.update_video_status o a b c d).
Proof.
  unfold Sheets.update_video_status, Sheets.headers_index, find, update_cell.
  keeps_auto.
Qed.

Lemma add_video_files s o md : keeps same_files (Sheets.add_video s o md).
Proof. unfold Sheets.add_video, append_row. keeps_auto. Qed.

(** [upload_file] returns only an id that is not empty. *)
Lemma upload_file_ok o p t w fid w' :
  Drive.upload_file o p t w = (Ok fid, w') -> truthy fid = true.
Proof.
  unfold Drive.upload_file, Drive.validate_file_exists. run_model.
  intros H. repeat (case_match; simplify_eq); assumption.
Qed.

Lemma unlink_ok o p w w' :
  unlink o p w = (Ok tt, w') ->
  files w' !! p = None /\ trace w' = trace w ++ [EvUnlink p].
Proof.
  run_model. intros H. repeat (case_match; simplify_eq).
  cbn [files trace]. split; [apply lookup_delete_eq | reflexivity].
Qed.

(** C8, as the code has it. After a run that returns, the downloaded file
    has been deleted, by an [unlink] that is the last call of the run,
    exactly when the upload is switched on and [KEEP_FILES] is off; in every
    other case, so whenever [KEEP_FILES] is on and also whenever the upload
    is switched off, the file is still there and no [unlink] was called. *)
Theorem local_file_after_processed L s o url w md w1 w' :
  Downloader.get_video_info o url w = (Ok md, w1) ->
  Processor.process_video L s o url w = (Ok tt, w') ->
  let p := get_video_path (md_id md) (md_title md) (PROCESSED_DIR s) false in
  if UPLOAD_TO_DRIVE s && negb (KEEP_FILES s)
  then files w' !! p = None
       /\ exists before, trace w' = trace w ++ before ++ [EvUnlink p]
  else is_Some (files w' !! p) /\ calls_only not_unlink w w'.
Proof.
  intros Hg H p. rewrite process_video_eq, Hg in H.
  destruct (Validators.validate_youtube_url L url) as [vid|]; [|discriminate].
  destruct (Sheets.add_video s o md w1) as [[[]|] w2] eqn:Ha; [|discriminate].
  destruct (Downloader.download_video s o url md w2) as [[q|] w3] eqn:Hd;
    [|discriminate].
  destruct (download_video_ok _ _ _ _ _ _ _ Hd) as (-> & _ & n & _ & Hn).
  fold p in Hn, Hd, H.
  assert (C3 : calls_only not_unlink w w3).
  { eapply frame_trans; [eapply get_video_info_no_unlink, Hg|].
    eapply frame_trans; [eapply add_video_no_unlink, Ha|].
    eapply download_video_no_unlink, Hd. }
  destruct (UPLOAD_TO_DRIVE s); cbn [andb].
  - destruct (Drive.upload_file o p _ w3) as [[fid|] w4] eqn:Hu;
      [|discriminate].
    rewrite (upload_file_ok _ _ _ _ _ _ Hu) in H.
    destruct (Sheets.update_video_status _ _ _ _ _ w4) as [[[]|] w5] eqn:Hs;
      [|discriminate].
    assert (F5 : files w5 !! p = Some n).
    { rewrite (update_video_status_files _ _ _ _ _ _ _ _ Hs).
      rewrite (upload_file_files _ _ _ _ _ _ Hu). exact Hn. }
    assert (C5 : calls_only not_unlink w w5).
    { eapply frame_trans; [exact C3|].
      eapply frame_trans; [eapply upload_file_no_unlink, Hu|].
      eapply update_video_status_no_unlink, Hs. }
    destruct (KEEP_FILES s); cbn [negb].
    + injection H as <-. split; [rewrite F5; eauto | exact C5].
    + destruct (unlink o p w5) as [[[]|] w6] eqn:Hl; [|discriminate].
      injection H as <-. destruct (unlink_ok _ _ _ _ Hl) as [Hf Ht].
      split; [exact Hf|]. destruct C5 as (before & Hb & _).
      exists before. rewrite Ht, Hb, app_assoc. reflexivity.
  - destruct (Sheets.update_video_status _ _ _ _ _ w3) as [[[]|] w4] eqn:Hs;
      [|discriminate].
    injection H as <-. split.
    + rewrite (update_video_status_files _ _ _ _ _ _ _ _ Hs), Hn. eauto.
    + eapply frame_trans; [exact C3|].
      eapply update_video_status_no_unlink, Hs.
Qed.

Lemma local_file_after_processed_witness :
  (let w' := snd (Processor.process_video PyUrllib.lib (Sample.settings true true)
                    Sample.all_fine Sample.video_id Sample.world) in
   is_Some (files w' !! Sample.final_path) /\ calls_only not_unlink Sample.world w')
  /\
  (let w' := snd (Processor.process_video PyUrllib.lib (Sample.settings false true)
                    Sample.all_fine Sample.video_id Sample.world) in
   files w' !! Sample.final_path = None
   /\ exists before, trace w' = before ++ [EvUnlink Sample.final_path]).
Proof.
  assert (Hg : Downloader.get_video_info Sample.all_fine Sample.video_id
                 Sample.world = (Ok Sample.md, Sample.fetched))
    by (vm_compute; reflexivity).
  split.
  - destruct (Processor.process_video PyUrllib.lib (Sample.settings true true)
                Sample.all_fine Sample.video_id Sample.world) as [r w'] eqn:Hp.
    assert (Hr : r = Ok tt).
    { apply (f_equal fst) in Hp. simpl in Hp. rewrite <- Hp.
      vm_compute. reflexivity. }
    subst r.
    exact (local_file_after_processed _ _ _ _ _ _ _ _ Hg Hp).
  - destruct (Processor.process_video PyUrllib.lib (Sample.settings false true)
                Sample.all_fine Sample.video_id Sample.world) as [r w'] eqn:Hp.
    assert (Hr : r = Ok tt).
    { apply (f_equal fst) in Hp. simpl in Hp. rewrite <- Hp.
      vm_compute. reflexivity. }
    subst r.
    exact (local_file_after_processed _ _ _ _ _ _ _ _ Hg Hp).
Defined.

(** C8 as stated fails when [KEEP_FILES] is off and the upload is switched
    off as well: the run returns, the file is still at its final path and
    no [unlink] was called. *)
Lemma keep_files_off_upload_off :
  let s := Sample.settings false false in
  let result := Processor.process_video PyUrllib.lib s Sample.all_fine
                  Sample.video_id Sample.world in
  KEEP_FILES s = false
  /\ fst result = Ok tt
  /\ files (snd result) !! Sample.final_path = Some 1048576
  /\ forallb not_unlink (trace (snd result)) = true.
Proof. repeat split; vm_compute; reflexivity. Qed.

(** ** The older manager *)

Lemma legacy_sheet_no_append c o :
  keeps (calls_only not_append) (Legacy.get_or_create_sheet c o).
Proof.
  unfold Legacy.get_or_create_sheet, row_values, insert_row, clear. keeps_auto.
Qed.

Lemma legacy_data_no_append c o url :
  keeps (calls_only not_append) (Legacy.get_video_data c o url).
Proof. unfold Legacy.get_video_data. keeps_auto. Qed.

Lemma legacy_download_no_append c o url :
  keeps (calls_only not_append) (Legacy.download_video c o url).
Proof.
  unfold Legacy.download_video, Legacy.ensure_video_dir, Legacy.swallow,
    mkdir, rename, copy2, unlink, exists_.
  keeps_auto.
Qed.

Lemma legacy_upload_no_append o p :
  keeps (calls_only not_append) (Legacy.upload_to_drive o p).
Proof.
  unfold Legacy.upload_to_drive, Legacy.validate_file_exists, exists_.
  keeps_auto.
Qed.

Lemma legacy_data_sheet c o url : keeps same_sheet (Legacy.get_video_data c o url).
Proof. unfold Legacy.get_video_data. keeps_auto. Qed.

Lemma legacy_download_sheet c o url :
  keeps same_sheet (Legacy.download_video c o url).
Proof.
  unfold Legacy.download_video, Legacy.ensure_video_dir, Legacy.swallow,
    mkdir, rename, copy2, unlink, exists_.
  keeps_auto.
Qed.

Lemma legacy_upload_sheet o p : keeps same_sheet (Legacy.upload_to_drive o p).
Proof.
  unfold Legacy.upload_to_drive, Legacy.validate_file_exists, exists_.
  keeps_auto.
Qed.

(** [get_video_data] returns the ten cells of a row. *)
Lemma legacy_data_length c o url w data w' :
  Legacy.get_video_data c o url w = (Ok data, w') -> length data = 10%nat.
Proof.
  unfold Legacy.get_video_data. run_model.
  intros H. repeat (case_match; simplify_eq); reflexivity.
Qed.

(** A successful upload made exactly one call. *)
Lemma legacy_upload_ok o p w fid w' :
  Legacy.upload_to_drive o p w = (Ok fid, w') ->
  trace w' = trace w ++ [EvUpload p (basename p)].
Proof.
  unfold Legacy.upload_to_drive, Legacy.validate_file_exists. run_model.
  intros H. repeat (case_match; simplify_eq); reflexivity.
Qed.

(** The [finally] block returns, leaves the sheet alone and appends no row. *)
Lemma legacy_cleanup_run o p w :
  exists w' calls,
    Legacy.cleanup o p w = (Ok tt, w')
    /\ sheet w' = sheet w
    /\ trace w' = trace w ++ calls
    /\ forallb not_append calls = true.
Proof.
  unfold Legacy.cleanup, Legacy.swallow. run_model.
  destruct (files w !! p) as [n|] eqn:E.
  - rewrite bool_decide_eq_true_2 by eauto.
    destruct (os_unlink o p); run_model.
    + eexists _, [EvUnlink p]. repeat split.
    + rewrite E. eexists _, [EvUnlink p]. repeat split.
  - rewrite bool_decide_eq_false_2 by (intros [? ?]; discriminate).
    eexists _, []. rewrite app_nil_r. repeat split.
Qed.

(** A row whose video id is already in column 7 is not appended. *)
Lemma update_spreadsheet_duplicate o data fid id w :
  length data = 10%nat ->
  data !! 6%nat = Some id ->
  gs_col_values o 7 = None ->
  Validators.str_in id (column_of 7 (sheet w)) = true ->
  Legacy.update_spreadsheet o data fid w
  = (Ok false, record_event (EvColValues 7) w).
Proof.
  intros Hlen Hid Hcol Hin.
  unfold Legacy.update_spreadsheet, Legacy.setitem, Validators.index.
  rewrite Hlen. change (8 <? 10)%nat with true. run_model.
  rewrite length_insert, Hlen. change (9 <? 10)%nat with true. run_model.
  rewrite !list_lookup_insert_ne by discriminate. rewrite Hid. run_model.
  rewrite Hcol. run_model. rewrite Hin. reflexivity.
Qed.

(** What the header check of the older manager does to the sheet when it
    returns: nothing when the first row is the header row, the header row on
    top when the first row is empty, and the header row alone otherwise. *)
Lemma legacy_sheet_ok c o w w1 :
  Legacy.get_or_create_sheet c o w = (Ok tt, w1) ->
  (first_row w = Legacy.HEADERS -> sheet w1 = sheet w)
  /\ (first_row w = [] -> sheet w1 = Legacy.HEADERS :: sheet w)
  /\ (first_row w <> Legacy.HEADERS -> first_row w <> [] ->
      sheet w1 = [Legacy.HEADERS]).
Proof.
  unfold Legacy.get_or_create_sheet, first_row. run_model.
  change (1 - 1)%nat with 0%nat.
  destruct (gs_open_by_key o); run_model; [repeat case_match; discriminate|].
  destruct (gs_row_values o 1); run_model; [discriminate|].
  destruct (trim_empty (default [] (sheet w !! 0%nat))) as [|h hs] eqn:E.
  - run_model. destruct (gs_insert_row o Legacy.HEADERS 1); run_model;
      [discriminate|].
    intros [= <-]. cbn [sheet].
    split; [discriminate|]. split; [reflexivity|]. intros _ H; contradiction.
  - destruct (decide (h :: hs = Legacy.HEADERS)) as [Heq|Hne].
    + rewrite bool_decide_eq_true_2 by exact Heq. cbn [negb]. run_model.
      intros [= <-]. cbn [sheet].
      split; [reflexivity|]. split; [discriminate|]. intros H; contradiction.
    + rewrite bool_decide_eq_false_2 by exact Hne. cbn [negb]. run_model.
      destruct (gs_clear o); run_model; [discriminate|].
      destruct (gs_insert_row o Legacy.HEADERS 1); run_model; [discriminate|].
      intros [= <-]. cbn [sheet].
      split; [intros H; contradiction|]. split; [discriminate|]. reflexivity.
Qed.

Lemma dropwhile_empty_app a b :
  dropwhile_empty a <> [] -> dropwhile_empty (a ++ b) = dropwhile_empty a ++ b.
Proof.
  induction a as [|c a IH]; [intros H; contradiction|].
  destruct c as [|x c]; [exact IH|]. reflexivity.
Qed.

Lemma trim_empty_cons_in y x l :
  In y (trim_empty l) -> In y (trim_empty (x :: l)).
Proof.
  unfold trim_empty. intros H. apply in_rev in H.
  apply in_rev. rewrite rev_involutive. cbn [rev].
  rewrite dropwhile_empty_app by (intros E; rewrite E in H; exact H).
  apply in_or_app. left. exact H.
Qed.

(** A value of a column is still in it when a row is put on top. *)
Lemma column_of_cons_in id col cells sh :
  Validators.str_in id (column_of col sh) = true ->
  Validators.str_in id (column_of col (cells :: sh)) = true.
Proof.
  unfold Validators.str_in, column_of. rewrite !existsb_exists.
  intros (y & Hy & Heq). exists y. split; [|exact Heq].
  cbn [List.map]. apply trim_empty_cons_in, Hy.
Qed.

(** C1, as the code has it. When the video id is already in column 7 of
    the sheet before the run, the first row of that sheet is the header row
    or is empty, so that the header check does not clear the sheet, and the
    fetch, the download and the upload have succeeded, the older
    [process_video] returns [False] and appends no row: the rows are those
    of the sheet before the run, under the header row that the check puts
    on top when the first row was empty. The scan of column 7 comes right
    after the upload call, not before it. *)
Theorem duplicate_detected_after_upload L c o url w vid w1 data w2 p w3 fid w4 id :
  first_row w = Legacy.HEADERS \/ first_row w = [] ->
  Validators.str_in id (column_of 7 (sheet w)) = true ->
  Legacy.validate_youtube_url L url = Ok vid ->
  Legacy.get_or_create_sheet c o w = (Ok tt, w1) ->
  Legacy.get_video_data c o (py "https://www.youtube.com/watch?v=" ++ vid) w1
    = (Ok data, w2) ->
  Legacy.download_video c o (py "https://www.youtube.com/watch?v=" ++ vid) w2
    = (Ok p, w3) ->
  Legacy.upload_to_drive o p w3 = (Ok (Some fid), w4) ->
  truthy fid = true ->
  gs_col_values o 7 = None ->
  data !! 6%nat = Some id ->
  exists w5 cleanup_calls,
    Legacy.process_video L c o url w = (Ok false, w5)
    /\ sheet w5 = (if decide (first_row w = Legacy.HEADERS) then sheet w
                  else Legacy.HEADERS :: sheet w)
    /\ calls_only not_append w w5
    /\ trace w5 = trace w3 ++ [EvUpload p (basename p); EvColValues 7]
                  ++ cleanup_calls.
Proof.
  intros Hhead Hseen Hv H1 H2 H3 H4 Hfid Hcol Hid.
  pose proof (legacy_data_length _ _ _ _ _ _ H2) as Hlen.
  destruct (legacy_sheet_ok _ _ _ _ H1) as (Hsame & Hins & _).
  assert (Hs1 : sheet w1 = (if decide (first_row w = Legacy.HEADERS)
                            then sheet w else Legacy.HEADERS :: sheet w)).
  { destruct (decide (first_row w = Legacy.HEADERS)) as [E|E].
    - apply Hsame, E.
    - destruct Hhead as [E'|E']; [contradiction | apply Hins, E']. }
  assert (Hin : Validators.str_in id (column_of 7 (sheet w1)) = true).
  { rewrite Hs1. destruct (decide (first_row w = Legacy.HEADERS));
      [exact Hseen | apply column_of_cons_in, Hseen]. }
  assert (Hs4 : sheet w4 = sheet w1).
  { rewrite (legacy_upload_sheet _ _ _ _ _ H4).
    rewrite (legacy_download_sheet _ _ _ _ _ _ H3).
    apply (legacy_data_sheet _ _ _ _ _ _ H2). }
  rewrite <- Hs4 in Hin.
  pose proof (update_spreadsheet_duplicate o data fid id w4 Hlen Hid Hcol Hin)
    as Hupd.
  destruct (legacy_cleanup_run o p (record_event (EvColValues 7) w4))
    as (w5 & calls & Hc & Hs5 & Ht5 & Hna).
  exists w5, calls.
  assert (Hp : Legacy.process_video L c o url w = (Ok false, w5)).
  { unfold Legacy.process_video, bind, lift, try_finally.
    rewrite Hv, H1, H2.
    destruct data as [|cell data']; [discriminate|].
    rewrite H3, H4, Hfid, Hupd, Hc. reflexivity. }
  split; [exact Hp|].
  split; [rewrite Hs5; cbn [sheet record_event]; rewrite Hs4; exact Hs1|].
  pose proof (legacy_upload_ok _ _ _ _ _ H4) as Ht4.
  split.
  - eapply frame_trans; [eapply legacy_sheet_no_append, H1|].
    eapply frame_trans; [eapply legacy_data_no_append, H2|].
    eapply frame_trans; [eapply legacy_download_no_append, H3|].
    eapply frame_trans; [eapply legacy_upload_no_append, H4|].
    exists (EvColValues 7 :: calls). rewrite Ht5. cbn [trace record_event].
    rewrite <- app_assoc. split; [reflexivity|].
    cbn [forallb]. rewrite Hna. reflexivity.
  - rewrite Ht5. cbn [trace record_event]. rewrite Ht4.
    rewrite <- !app_assoc. reflexivity.
Qed.

Lemma duplicate_detected_after_upload_witness :
  exists w5,
    Legacy.process_video PyUrllib.lib Sample.config Sample.all_fine
      Sample.video_id Sample.legacy_world_seen = (Ok false, w5)
    /\ sheet w5 = sheet Sample.legacy_world_seen
    /\ calls_only not_append Sample.legacy_world_seen w5.
Proof.
  pose (c := Sample.config). pose (o := Sample.all_fine).
  pose (url := py "https://www.youtube.com/watch?v=" ++ Sample.video_id).
  pose (w1 := snd (Legacy.get_or_create_sheet c o Sample.legacy_world_seen)).
  pose (w2 := snd (Legacy.get_video_data c o url w1)).
  pose (w3 := snd (Legacy.download_video c o url w2)).
  pose (p := py "/srv/app/Videos/Never Gonna_ Give You Up_dQw4w9WgXcQ.mp4").
  pose (w4 := snd (Legacy.upload_to_drive o p w3)).
  destruct (duplicate_detected_after_upload PyUrllib.lib c o Sample.video_id
              Sample.legacy_world_seen Sample.video_id w1
              [py "Never Gonna: Give You Up"; py "The official video";
               py "rick, astley"; py "Music";
               py "https://i.ytimg.com/vi/dQw4w9WgXcQ/hq.jpg"; py "NOTHINHG";
               Sample.video_id; py "2009-10-25"; py ""; py "Pending"]
              w2 p w3 (py "abc123") w4 Sample.video_id)
    as (w5 & calls & Hp & Hs & Hc & _).
  - left. vm_compute. reflexivity.
  - vm_compute. reflexivity.
  - vm_compute. reflexivity.
  - vm_compute. reflexivity.
  - vm_compute. reflexivity.
  - vm_compute. reflexivity.
  - vm_compute. reflexivity.
  - reflexivity.
  - reflexivity.
  - reflexivity.
  - exists w5. split; [exact Hp|]. split; [|exact Hc].
    rewrite Hs. vm_compute. reflexivity.
Defined.

(** C1 as stated fails: on a sheet that already has the video, the older
    [process_video] returns [False] and appends no row, and the file has
    been uploaded by then, before column 7 was read. *)
Lemma duplicate_found_after_upload :
  let result := Legacy.process_video PyUrllib.lib Sample.config Sample.all_fine
                  Sample.video_id Sample.legacy_world_seen in
  let p := py "/srv/app/Videos/Never Gonna_ Give You Up_dQw4w9WgXcQ.mp4" in
  fst result = Ok false
  /\ sheet (snd result) = sheet Sample.legacy_world_seen
  /\ exists before after,
       trace (snd result)
       = before ++ [EvUpload p (basename p); EvColValues 7] ++ after.
Proof.
  intros result p.
  split; [vm_compute; reflexivity|]. split; [vm_compute; reflexivity|].
  exists (firstn 6 (trace (snd result))), (skipn 8 (trace (snd result))).
  vm_compute. reflexivity.
Qed.

(** The header check comes first: on a sheet that has the video in column 7
    under a first row that is not the header row, the check clears the
    sheet, the scan finds nothing, and the run appends the row and returns
    [True]. *)
Lemma duplicate_missed_after_header_mismatch :
  let row := [py "Never Gonna: Give You Up"; py "The official video";
              py "rick, astley"; py "Music";
              py "https://i.ytimg.com/vi/dQw4w9WgXcQ/hq.jpg"; py "NOTHINHG";
              Sample.video_id; py "2009-10-25"; py "abc123"; py "Completed"] in
  let w := {| sheet := [[py "Title"; py "Link"]; row]; files := ∅; trace := [] |} in
  let result := Legacy.process_video PyUrllib.lib Sample.config Sample.all_fine
                  Sample.video_id w in
  Validators.str_in Sample.video_id (column_of 7 (sheet w)) = true
  /\ first_row w <> Legacy.HEADERS
  /\ fst result = Ok true
  /\ sheet (snd result) = [Legacy.HEADERS; row]
  /\ List.filter is_append (trace (snd result)) = [EvAppendRow row].
Proof.
  intros row w result.
  split; [vm_compute; reflexivity|]. split; [vm_compute; discriminate|].
  repeat split; vm_compute; reflexivity.
Qed.

(** The pipeline of the app package has no duplicate scan at all: a second
    run on the same video uploads again and appends a second row. *)
Lemma second_run_appends_second_row :
  let s := Sample.settings true true in
  let once := snd (Processor.process_video PyUrllib.lib s Sample.all_fine
                     Sample.video_id Sample.world) in
  let twice := Processor.process_video PyUrllib.lib s Sample.all_fine
                 Sample.video_id once in
  fst twice = Ok tt
  /\ length (sheet once) = 2%nat
  /\ length (sheet (snd twice)) = 3%nat
  /\ get_cell 1 0 (sheet (snd twice)) = get_cell 2 0 (sheet (snd twice)).
Proof. repeat split; vm_compute; reflexivity. Qed.

(** On a fresh sheet the older manager appends its row once the upload is
    done, already marked [Completed]: no [Pending] row is written before the
    download. *)
Lemma legacy_row_after_upload :
  let result := Legacy.process_video PyUrllib.lib Sample.config Sample.all_fine
                  Sample.video_id Sample.legacy_world in
  fst result = Ok true
  /\ sheet (snd result) = sheet Sample.legacy_world_seen
  /\ List.map (fun ev => (is_upload ev, is_append ev))
       (List.filter (fun ev => is_upload ev || is_append ev)
          (trace (snd result)))
     = [(true, false); (false, true)].
Proof. repeat split; vm_compute; reflexivity. Qed.

(** The [finally] block of the older manager deletes the renamed file even
    though [KEEP_FILE] is on; the backup copy stays. *)
Lemma legacy_cleanup_ignores_keep_file :
  let result := Legacy.process_video PyUrllib.lib Sample.config Sample.all_fine
                  Sample.video_id Sample.legacy_world in
  Legacy.KEEP_FILE Sample.config = true
  /\ files (snd result)
     !! py "/srv/app/Videos/Never Gonna_ Give You Up_dQw4w9WgXcQ.mp4" = None
  /\ files (snd result)
     !! py "/srv/app/Videos/backup_Never Gonna_ Give You Up_dQw4w9WgXcQ.mp4"
     = Some 1048576.
Proof. repeat split; vm_compute; reflexivity. Qed.

(** The older manager re-raises what it catches: the [ValidationError] of
    its validator leaves [process_video] as it is. *)
Lemma legacy_validation_error_propagates L c o url w e :
  Legacy.validate_youtube_url L url = Raise e ->
  Legacy.process_video L c o url w = (Raise e, w).
Proof.
  intros H. unfold Legacy.process_video, bind, lift. rewrite H. reflexivity.
Qed.

(** The older manager writes nothing to the sheet before the upload: when
    its download raises, the exception leaves [process_video] as it is, the
    sheet is as the header check left it, and no row was appended. *)
Lemma legacy_download_failure_keeps_sheet L c o url w vid w1 data w2 e w3 :
  Legacy.validate_youtube_url L url = Ok vid ->
  Legacy.get_or_create_sheet c o w = (Ok tt, w1) ->
  Legacy.get_video_data c o (py "https://www.youtube.com/watch?v=" ++ vid) w1
    = (Ok data, w2) ->
  Legacy.download_video c o (py "https://www.youtube.com/watch?v=" ++ vid) w2
    = (Raise e, w3) ->
  Legacy.process_video L c o url w = (Raise e, w3)
  /\ sheet w3 = sheet w1
  /\ calls_only not_append w w3.
Proof.
  intros Hv H1 H2 H3.
  pose proof (legacy_data_length _ _ _ _ _ _ H2) as Hlen.
  split; [|split].
  - unfold Legacy.process_video, bind, lift. rewrite Hv, H1, H2.
    destruct data as [|cell data']; [discriminate|]. rewrite H3. reflexivity.
  - rewrite (legacy_download_sheet _ _ _ _ _ _ H3).
    apply (legacy_data_sheet _ _ _ _ _ _ H2).
  - eapply frame_trans; [eapply legacy_sheet_no_append, H1|].
    eapply frame_trans; [eapply legacy_data_no_append, H2|].
    eapply legacy_download_no_append, H3.
Qed.

(** C2 as stated fails for the older manager: the input is validated and
    the metadata fetched, the download is started and fails, and the run
    ends with no row in the sheet but the header row; no row was appended
    at any point. *)
Lemma legacy_failed_download_no_row :
  let o := Sample.oracle Sample.info None (UploadResponse (Some (py "abc123"))) in
  let url := py "https://www.youtube.com/watch?v=" ++ Sample.video_id in
  let result := Legacy.process_video PyUrllib.lib Sample.config o
                  Sample.video_id Sample.legacy_world in
  Legacy.validate_youtube_url PyUrllib.lib Sample.video_id = Ok Sample.video_id
  /\ (exists data,
        fst (Legacy.get_video_data Sample.config o url
               (record_event (EvRowValues 1) Sample.legacy_world)) = Ok data
        /\ data !! 9%nat = Some (py "Pending"))
  /\ fst result
     = Raise (Exc YouTubeDataError
         (py "Video download failed: Download completed but file was not created"))
  /\ EvExtractInfo url true ∈ trace (snd result)
  /\ sheet (snd result) = [Legacy.HEADERS]
  /\ forallb not_append (trace (snd result)) = true.
Proof.
  intros o url result.
  split; [vm_compute; reflexivity|].
  split; [eexists; split; vm_compute; reflexivity|].
  split; [vm_compute; reflexivity|].
  split; [|split; vm_compute; reflexivity].
  apply (bool_decide_unpack _). vm_compute. exact I.
Qed.

(** * Further properties of the code *)

(** ** The two sanitizers side by side *)

(** X1. The older [sanitize_filename] and the one of helpers.py return the same
    name exactly when the cleaned title needs no cut or has no extension:
    they differ only in that helpers.py puts the extension back after the
    three dots. *)
Theorem sanitize_implementations_agree (x : pystr) :
  Legacy.sanitize_filename x = Helpers.sanitize_filename x
  <-> ((length (Helpers.clean x) <= 200)%nat
       \/ snd (Helpers.splitext (Helpers.clean x)) = []).
Proof.
  unfold Legacy.sanitize_filename, Helpers.sanitize_filename.
  rewrite legacy_clean.
  pose proof (splitext_generic_app 47 None (Helpers.clean x)) as Happ.
  fold (Helpers.splitext (Helpers.clean x)) in Happ.
  destruct (Helpers.splitext (Helpers.clean x)) as [name ext].
  cbn [fst snd] in *.
  destruct (Nat.ltb_spec 200 (length (Helpers.clean x))) as [Hlong|Hshort].
  - split.
    + intros Heq. right. apply (f_equal length) in Heq.
      rewrite !length_app, !length_take in Heq.
      apply (f_equal length) in Happ. rewrite length_app in Happ.
      change (length Helpers.ellipsis) with 3%nat in Heq.
      destruct ext; [reflexivity|]. cbn [length] in *. lia.
    + intros [Hle| ->]; [lia|].
      rewrite app_nil_r in Happ. subst name. rewrite app_nil_r. reflexivity.
  - split; [intros _; left; lia | reflexivity].
Qed.

(** Whatever the title, the older [sanitize_filename] returns at most 200
    characters, none of them one of the nine substituted characters or above
    127. *)
Theorem legacy_sanitize_bounded (x : pystr) :
  (length (Legacy.sanitize_filename x) <= 200)%nat
  /\ Forall (fun c => Helpers.invalid_char c = false /\ c < 128)
       (Legacy.sanitize_filename x).
Proof. split; [apply legacy_sanitize_length | apply legacy_sanitize_kept]. Qed.

(** ** More on the validators *)

Lemma lstrip_app_all p a s : forallb p a = true -> lstrip p (a ++ s) = lstrip p s.
Proof.
  induction a as [|c a IH]; simpl; [reflexivity|].
  intros H. apply andb_prop in H as [Hc Ha]. rewrite Hc. apply IH, Ha.
Qed.

Lemma lstrip_all p a : forallb p a = true -> lstrip p a = [].
Proof.
  intros H. rewrite <- (app_nil_r a). rewrite lstrip_app_all by exact H.
  reflexivity.
Qed.

Lemma forallb_rev (p : N -> bool) a : forallb p (rev a) = forallb p a.
Proof.
  induction a as [|c a IH]; [reflexivity|].
  simpl. rewrite forallb_app, IH. simpl. rewrite andb_true_r. apply andb_comm.
Qed.

Lemma rstrip_app_all p s b : forallb p b = true -> rstrip p (s ++ b) = rstrip p s.
Proof.
  intros H. unfold rstrip. rewrite rev_app_distr.
  rewrite lstrip_app_all by (rewrite forallb_rev; exact H). reflexivity.
Qed.

Lemma strip_surrounded p a s b :
  forallb p a = true -> forallb p b = true ->
  strip p (a ++ s ++ b) = strip p s.
Proof.
  intros Ha Hb. unfold strip. rewrite lstrip_app_all by exact Ha.
  induction s as [|c s IH]; simpl.
  - rewrite lstrip_all by exact Hb. reflexivity.
  - destruct (p c); [exact IH|].
    apply (rstrip_app_all p (c :: s) b Hb).
Qed.

(** X2. Blanks around the input do not matter: both validators give for a URL
    with white space before and after it what they give for the URL alone
    (the older one tests for the empty string before it strips, so there the
    URL must not be empty). *)
Theorem validate_ignores_surrounding_space L (a url b : pystr) :
  forallb isspace a = true ->
  forallb isspace b = true ->
  Validators.validate_youtube_url L (a ++ url ++ b)
    = Validators.validate_youtube_url L url
  /\ (url <> [] ->
      Legacy.validate_youtube_url L (a ++ url ++ b)
        = Legacy.validate_youtube_url L url).
Proof.
  intros Ha Hb. split.
  - unfold Validators.validate_youtube_url, Validators.validate_body.
    rewrite (strip_surrounded isspace a url b Ha Hb). reflexivity.
  - intros Hne. unfold Legacy.validate_youtube_url.
    rewrite (strip_surrounded isspace a url b Ha Hb).
    destruct url as [|c url]; [contradiction|].
    destruct a; reflexivity.
Qed.

Lemma validate_ignores_surrounding_space_witness :
  Validators.validate_youtube_url PyUrllib.lib
    (py "  " ++ py "https://youtu.be/dQw4w9WgXcQ" ++ [newline])
  = Validators.validate_youtube_url PyUrllib.lib (py "https://youtu.be/dQw4w9WgXcQ")
  /\ Validators.validate_youtube_url PyUrllib.lib (py "https://youtu.be/dQw4w9WgXcQ")
     = Ok (py "dQw4w9WgXcQ").
Proof.
  split; [|vm_compute; reflexivity].
  exact (proj1 (validate_ignores_surrounding_space PyUrllib.lib (py "  ")
                  (py "https://youtu.be/dQw4w9WgXcQ") [newline]
                  eq_refl eq_refl)).
Defined.

(** ** URL shapes *)

Lemma is_prefix_app a s : is_prefix a s = true -> exists r, s = a ++ r.
Proof.
  revert s. induction a as [|x a IH]; intros s H.
  - exists s. reflexivity.
  - destruct s as [|y s]; [discriminate|]. simpl in H.
    apply andb_prop in H as [Hxy H]. apply N.eqb_eq in Hxy. subst y.
    destruct (IH s H) as [r ->]. exists r. reflexivity.
Qed.

Lemma is_prefix_absent x a s :
  In x a -> Forall (fun c => c <> x) s -> is_prefix a s = false.
Proof.
  intros Hin Hs. destruct (is_prefix a s) eqn:E; [|reflexivity].
  destruct (is_prefix_app a s E) as [r ->].
  apply Forall_app in Hs as [Ha _].
  rewrite Forall_forall in Ha. exfalso.
  apply (Ha x); [apply list_elem_of_In; exact Hin | reflexivity].
Qed.

Lemma contains_absent x a s :
  In x a -> Forall (fun c => c <> x) s -> contains a s = false.
Proof.
  intros Hin Hs. induction Hs as [|c s Hc Hs IH].
  - simpl. destruct a; [destruct Hin | reflexivity].
  - change (contains a (c :: s)) with (is_prefix a (c :: s) || contains a s).
    rewrite IH, orb_false_r.
    apply (is_prefix_absent x); [exact Hin | constructor; assumption].
Qed.

Lemma split_go_absent x sep s cur :
  In x sep -> Forall (fun c => c <> x) s ->
  split_go sep s 0 cur = [rev cur ++ s].
Proof.
  intros Hin Hs. revert cur. induction Hs as [|c s Hc Hs IH]; intros cur.
  - simpl. rewrite app_nil_r. reflexivity.
  - change (split_go sep (c :: s) 0 cur)
      with (if is_prefix sep (c :: s)
            then rev cur :: split_go sep s (length sep - 1) []
            else split_go sep s 0 (c :: cur)).
    rewrite (is_prefix_absent x) by (try exact Hin; constructor; assumption).
    rewrite IH. simpl. rewrite <- app_assoc. reflexivity.
Qed.

Lemma id_char_not c x : id_char c = true -> id_char x = false -> c <> x.
Proof. intros Hc Hx ->. congruence. Qed.

Lemma video_id_chars v x :
  is_video_id v = true -> id_char x = false -> Forall (fun c => c <> x) v.
Proof.
  unfold is_video_id. intros H Hx. apply andb_prop in H as [_ H].
  rewrite forallb_forall in H. apply Forall_forall. intros c Hc.
  apply (id_char_not c x); [|exact Hx]. apply H. apply list_elem_of_In. exact Hc.
Qed.

Lemma video_id_truthy v : is_video_id v = true -> truthy v = true.
Proof. destruct v; [discriminate | reflexivity]. Qed.

Ltac eval_py :=
  repeat match goal with
  | |- context [py ?s] =>
      let x := eval vm_compute in (py s) in change (py s) with x
  end.

Lemma contains_cons n c t :
  contains n (c :: t) = is_prefix n (c :: t) || contains n t.
Proof. reflexivity. Qed.

Lemma is_prefix_cons x a y s :
  is_prefix (x :: a) (y :: s) = (x =? y) && is_prefix a s.
Proof. reflexivity. Qed.

Lemma split_go_skip sep c t k cur :
  split_go sep (c :: t) (S k) cur = split_go sep t k cur.
Proof. reflexivity. Qed.

Lemma split_go_here sep c t cur :
  split_go sep (c :: t) 0 cur =
  if is_prefix sep (c :: t)
  then rev cur :: split_go sep t (length sep - 1) []
  else split_go sep t 0 (c :: cur).
Proof. reflexivity. Qed.

Lemma is_prefix_nil s : is_prefix [] s = true.
Proof. reflexivity. Qed.

(* steps through the literal part of a string *)
Ltac walk :=
  eval_py; cbn [app];
  repeat first
    [ progress (repeat first [ rewrite is_prefix_nil | rewrite is_prefix_cons
                             | rewrite contains_cons | rewrite split_go_skip ];
                cbn [N.eqb Pos.eqb andb orb length Nat.sub])
    | rewrite split_go_here ].

Lemma after_marker_id marker v :
  marker = py "/shorts/" \/ marker = py "/embed/" \/ marker = py "/v/" ->
  is_video_id v = true ->
  Validators.after_marker marker (marker ++ v) = Ok (Some v).
Proof.
  intros Hm Hv.
  pose proof (video_id_chars v 47 Hv eq_refl) as Hs.
  pose proof (video_id_chars v 63 Hv eq_refl) as Hq.
  unfold Validators.after_marker, split.
  assert (H1 : split_go marker (marker ++ v) 0 [] = [[]; v]).
  { destruct Hm as [->|[->| ->]]; walk;
      rewrite (split_go_absent 47) by (try exact Hs; cbn; tauto);
      reflexivity. }
  rewrite H1. cbn [Validators.index lookup list_lookup rbind].
  eval_py. rewrite (split_go_absent 63) by (try exact Hq; cbn; tauto).
  reflexivity.
Qed.

(** X3. Whatever library parses the URL: when the host is one of the three
    YouTube hosts and the path is [/watch] or [/shorts] with the identifier
    as first [v] parameter, or the path is [/shorts/], [/embed/] or [/v/]
    followed by the identifier, or when the host is [youtu.be] and the path
    is the identifier after a slash, [validate_youtube_url] returns that
    identifier. *)
Theorem supported_url_shapes L url v pr :
  is_video_id v = true ->
  re_match_id (strip isspace url) = false ->
  urlparse L (strip isspace url) = Ok pr ->
  (Validators.host_in (hostname pr) Validators.youtube_hosts = true
   /\ ((Validators.str_in (path pr) [py "/watch"; py "/shorts"] = true
        /\ exists more, parse_qs L (query pr) !! py "v" = Some (v :: more))
       \/ path pr = py "/shorts/" ++ v
       \/ path pr = py "/embed/" ++ v
       \/ path pr = py "/v/" ++ v))
  \/ (hostname pr = Some (py "youtu.be") /\ path pr = py "/" ++ v) ->
  Validators.validate_youtube_url L url = Ok v.
Proof.
  intros Hv Hdirect Hparse Hshape.
  pose proof (video_id_chars v 47 Hv eq_refl) as Hs.
  pose proof (video_id_chars v 63 Hv eq_refl) as Hq.
  assert (Hfinal : truthy v && re_match_id v = true).
  { rewrite (video_id_truthy v Hv), (is_video_id_match v Hv). reflexivity. }
  unfold Validators.validate_youtube_url, Validators.validate_body.
  rewrite Hdirect. cbn [rbind]. rewrite Hparse. cbn [rbind].
  destruct Hshape as [[Hhost Hpath]|[Hhost Hpath]].
  - rewrite Hhost. destruct Hpath as [[Hw [more Hqs]]|[Hp|[Hp|Hp]]].
    + rewrite Hw, Hqs. cbn [Validators.index lookup list_lookup rbind].
      rewrite Hfinal. reflexivity.
    + rewrite Hp.
      assert (E1 : Validators.str_in (py "/shorts/" ++ v)
                     [py "/watch"; py "/shorts"] = false).
      { unfold Validators.str_in, pystr_eqb. cbn [existsb].
        rewrite !bool_decide_eq_false_2; [reflexivity| |];
          intros E; apply (f_equal length) in E;
          rewrite length_app in E; unfold is_video_id in Hv;
          apply andb_prop in Hv as [Hl _]; apply Nat.eqb_eq in Hl;
          rewrite Hl in E; vm_compute in E; discriminate. }
      rewrite E1.
      assert (E2 : contains (py "/shorts/") (py "/shorts/" ++ v) = true).
      { walk. reflexivity. }
      rewrite E2, (after_marker_id (py "/shorts/") v) by tauto.
      cbn [rbind]. rewrite Hfinal. reflexivity.
    + rewrite Hp.
      assert (E1 : Validators.str_in (py "/embed/" ++ v)
                     [py "/watch"; py "/shorts"] = false).
      { unfold Validators.str_in, pystr_eqb. cbn [existsb].
        rewrite !bool_decide_eq_false_2; [reflexivity| |];
          intros E; apply (f_equal length) in E;
          rewrite length_app in E; unfold is_video_id in Hv;
          apply andb_prop in Hv as [Hl _]; apply Nat.eqb_eq in Hl;
          rewrite Hl in E; vm_compute in E; discriminate. }
      rewrite E1.
      assert (E2 : contains (py "/shorts/") (py "/embed/" ++ v) = false).
      { walk. rewrite (is_prefix_absent 47) by (try exact Hs; cbn; tauto).
        rewrite (contains_absent 47) by (try exact Hs; cbn; tauto).
        reflexivity. }
      rewrite E2.
      assert (E3 : is_prefix (py "/embed/") (py "/embed/" ++ v) = true).
      { walk. reflexivity. }
      rewrite E3, (after_marker_id (py "/embed/") v) by tauto.
      cbn [rbind]. rewrite Hfinal. reflexivity.
    + rewrite Hp.
      assert (E1 : Validators.str_in (py "/v/" ++ v)
                     [py "/watch"; py "/shorts"] = false).
      { unfold Validators.str_in, pystr_eqb. cbn [existsb].
        rewrite !bool_decide_eq_false_2; [reflexivity| |];
          intros E; apply (f_equal length) in E;
          rewrite length_app in E; unfold is_video_id in Hv;
          apply andb_prop in Hv as [Hl _]; apply Nat.eqb_eq in Hl;
          rewrite Hl in E; vm_compute in E; discriminate. }
      rewrite E1.
      assert (E2 : contains (py "/shorts/") (py "/v/" ++ v) = false).
      { walk. rewrite (is_prefix_absent 47) by (try exact Hs; cbn; tauto).
        rewrite (contains_absent 47) by (try exact Hs; cbn; tauto).
        reflexivity. }
      rewrite E2.
      assert (E3 : is_prefix (py "/embed/") (py "/v/" ++ v) = false).
      { walk. reflexivity. }
      assert (E4 : is_prefix (py "/v/") (py "/v/" ++ v) = true).
      { walk. reflexivity. }
      rewrite E3, E4, (after_marker_id (py "/v/") v) by tauto.
      cbn [rbind]. rewrite Hfinal. reflexivity.
  - rewrite Hhost, Hpath.
    change (Validators.host_in (Some (py "youtu.be")) Validators.youtube_hosts)
      with false.
    rewrite bool_decide_eq_true_2 by reflexivity.
    assert (E1 : lstrip (N.eqb 47) (py "/" ++ v) = v).
    { eval_py. cbn [app lstrip N.eqb Pos.eqb].
      destruct v as [|c v]; [reflexivity|]. cbn [lstrip].
      destruct (N.eqb_spec 47 c) as [<-|]; [|reflexivity].
      inversion Hs; subst. contradiction. }
    rewrite E1. rewrite (contains_absent 63) by (try exact Hq; cbn; tauto).
    cbn [rbind]. rewrite Hfinal. reflexivity.
Qed.

Lemma supported_url_shapes_witness :
  Validators.validate_youtube_url PyUrllib.lib
    (py "https://m.youtube.com/embed/dQw4w9WgXcQ?start=3")
  = Ok (py "dQw4w9WgXcQ").
Proof.
  apply (supported_url_shapes PyUrllib.lib _ (py "dQw4w9WgXcQ")
           {| hostname := Some (py "m.youtube.com");
              netloc := py "m.youtube.com";
              path := py "/embed/dQw4w9WgXcQ";
              query := py "start=3" |}).
  - reflexivity.
  - vm_compute. reflexivity.
  - vm_compute. reflexivity.
  - left. split; [vm_compute; reflexivity|]. right. right. left. reflexivity.
Defined.

(** X4. An input that is no identifier and whose host is neither a YouTube host
    nor [youtu.be] is refused with the message of the missing identifier;
    when the library cannot parse it, the message is that of the invalid
    URL. Both are [ValidationError]. *)
Theorem unrecognized_url_rejected L url :
  re_match_id (strip isspace url) = false ->
  (forall pr,
     urlparse L (strip isspace url) = Ok pr ->
     Validators.host_in (hostname pr) Validators.youtube_hosts = false ->
     hostname pr <> Some (py "youtu.be") ->
     Validators.validate_youtube_url L url
     = Raise (Exc ValidationError
                (py "Could not extract valid video ID from URL")))
  /\ (forall e,
        urlparse L (strip isspace url) = Raise e ->
        exc_cls e <> ValidationError ->
        Validators.validate_youtube_url L url
        = Raise (Exc ValidationError
            (py "Invalid YouTube URL. Please provide a valid YouTube video URL."))).
Proof.
  intros Hdirect. split.
  - intros pr Hparse Hhost Hshort.
    unfold Validators.validate_youtube_url, Validators.validate_body.
    rewrite Hdirect. cbn [rbind]. rewrite Hparse. cbn [rbind].
    rewrite Hhost. rewrite bool_decide_eq_false_2 by exact Hshort.
    reflexivity.
  - intros e Hparse Hcls.
    unfold Validators.validate_youtube_url, Validators.validate_body.
    rewrite Hdirect. cbn [rbind]. rewrite Hparse. cbn [rbind rtry].
    assert (Hi : isinstance e ValidationError = false).
    { unfold isinstance. rewrite bool_decide_eq_false_2 by exact Hcls.
      destruct (exc_cls e); reflexivity. }
    rewrite Hi. reflexivity.
Qed.

Lemma unrecognized_url_rejected_witness :
  Validators.validate_youtube_url PyUrllib.lib
    (py "https://vimeo.com/watch?v=dQw4w9WgXcQ")
  = Raise (Exc ValidationError (py "Could not extract valid video ID from URL"))
  /\ Validators.validate_youtube_url PyUrllib.lib (py "http://[::1/x")
     = Raise (Exc ValidationError
         (py "Invalid YouTube URL. Please provide a valid YouTube video URL.")).
Proof.
  split.
  - apply (proj1 (unrecognized_url_rejected PyUrllib.lib
                    (py "https://vimeo.com/watch?v=dQw4w9WgXcQ") eq_refl)
             {| hostname := Some (py "vimeo.com"); netloc := py "vimeo.com";
                path := py "/watch"; query := py "v=dQw4w9WgXcQ" |}).
    + vm_compute. reflexivity.
    + reflexivity.
    + discriminate.
  - apply (proj2 (unrecognized_url_rejected PyUrllib.lib
                    (py "http://[::1/x") eq_refl)
             (Exc ValueError (py "Invalid IPv6 URL"))).
    + vm_compute. reflexivity.
    + discriminate.
Defined.

(** ** The spreadsheet id and the metadata check *)

Lemma lstrip_split p s :
  exists t, s = t ++ lstrip p s /\ forallb p t = true.
Proof.
  induction s as [|c s IH]; simpl.
  - exists []. split; reflexivity.
  - destruct (p c) eqn:Hc.
    + destruct IH as (t & Ht & Hp). exists (c :: t). simpl.
      rewrite Hc, Hp. split; [congruence | reflexivity].
    + exists []. split; reflexivity.
Qed.

(** X5. [validate_spreadsheet_id] accepts exactly the non-empty strings of
    letters, digits, hyphens and underscores, and those strings followed by
    one newline; the empty string and every other string raise. *)
Theorem spreadsheet_id_accepted (s : pystr) :
  MoreValidators.validate_spreadsheet_id s = Ok tt
  <-> exists t, t <> [] /\ forallb id_char t = true
                /\ (s = t \/ s = t ++ [newline]).
Proof.
  unfold MoreValidators.validate_spreadsheet_id,
    MoreValidators.re_match_spreadsheet_id.
  split.
  - destruct s as [|c s]; [discriminate|].
    destruct (id_char c) eqn:Hc; [|discriminate]. cbn [andb].
    destruct (lstrip_split id_char (c :: s)) as (t & Ht & Hp).
    destruct (lstrip id_char (c :: s)) as [|d [|d' r]] eqn:E;
      try discriminate.
    + intros _. exists t. rewrite app_nil_r in Ht.
      split; [rewrite <- Ht; discriminate|]. split; [exact Hp|]. left. exact Ht.
    + destruct (N.eqb_spec d newline) as [->|]; [|discriminate].
      intros _. exists t. split.
      * intros ->. simpl in Ht. injection Ht as -> _. discriminate.
      * split; [exact Hp|]. right. exact Ht.
  - intros (t & Hne & Hp & [->| ->]).
    + destruct t as [|c t]; [contradiction|].
      pose proof Hp as Hp'. simpl in Hp'. apply andb_prop in Hp' as [Hc _].
      rewrite Hc. rewrite lstrip_all by exact Hp. reflexivity.
    + destruct t as [|c t]; [contradiction|].
      pose proof Hp as Hp'. simpl in Hp'. apply andb_prop in Hp' as [Hc _].
      cbn [app]. rewrite Hc.
      change (c :: t ++ [newline]) with ((c :: t) ++ [newline]).
      rewrite lstrip_app_all by exact Hp. reflexivity.
Qed.

Lemma spreadsheet_id_accepted_examples :
  MoreValidators.validate_spreadsheet_id (py "1Zi0Pjsdnd6rOCRuFA-pwKrXlzu_") = Ok tt
  /\ MoreValidators.validate_spreadsheet_id (py "abc" ++ [newline]) = Ok tt
  /\ MoreValidators.validate_spreadsheet_id (py "")
     = Raise (Exc ValidationError (py "Invalid spreadsheet ID format"))
  /\ MoreValidators.validate_spreadsheet_id (py "a b")
     = Raise (Exc ValidationError (py "Invalid spreadsheet ID format")).
Proof. repeat split. Qed.

(** X6. [validate_video_metadata] accepts a dict exactly when it has the keys
    [id], [title] and [duration]; the dict that [get_video_info] of the
    downloader returns has no [duration], so it is always refused, with
    that one field named in the message. *)
Theorem downloader_metadata_fails_check :
  (forall V (m : gmap pystr V),
     MoreValidators.validate_video_metadata m = Ok tt
     <-> is_Some (m !! py "id") /\ is_Some (m !! py "title")
         /\ is_Some (m !! py "duration"))
  /\ (forall md : metadata,
        MoreValidators.validate_video_metadata (metadata_dict md)
        = Raise (Exc ValidationError
                   (py "Missing required video metadata fields: duration"))).
Proof.
  split; [|reflexivity].
  intros V m. unfold MoreValidators.validate_video_metadata,
    MoreValidators.required_fields. cbn [List.filter].
  destruct (decide (is_Some (m !! py "id"))) as [H1|H1];
    destruct (decide (is_Some (m !! py "title"))) as [H2|H2];
    destruct (decide (is_Some (m !! py "duration"))) as [H3|H3];
    rewrite ?(bool_decide_eq_true_2 _ H1), ?(bool_decide_eq_false_2 _ H1),
      ?(bool_decide_eq_true_2 _ H2), ?(bool_decide_eq_false_2 _ H2),
      ?(bool_decide_eq_true_2 _ H3), ?(bool_decide_eq_false_2 _ H3);
    cbn [negb]; split; try discriminate; tauto.
Qed.

(** ** The components of the pipeline *)

(** X7. [get_video_info] returns exactly when the extractor gives a dict that
    has no entries, is not live, has no positive age limit and has an id and
    a title; the dict returned has the tags joined by a comma and a space and
    the first category, or the empty string when there is none. A dict
    without a title makes it raise a [DownloadError] that quotes the key. *)
Theorem get_video_info_result (o : Oracle) (url : pystr) (w : World) :
  (forall md w',
     Downloader.get_video_info o url w = (Ok md, w') <->
     w' = record_event (EvExtractInfo url false) w
     /\ exists i,
          ydl_extract_info o url = Ok (Some i)
          /\ has_entries i = false /\ is_live i = false
          /\ (age_limit i <= 0)%Z
          /\ info_id i = Some (md_id md)
          /\ info_title i = Some (md_title md)
          /\ md_description md = info_description i
          /\ md_tags md = join (py ", ") (info_tags i)
          /\ md_category md = hd [] (info_categories i)
          /\ md_thumbnail md = info_thumbnail i)
  /\ (forall i id,
        ydl_extract_info o url = Ok (Some i) ->
        has_entries i = false -> is_live i = false -> (age_limit i <= 0)%Z ->
        info_id i = Some id -> info_title i = None ->
        fst (Downloader.get_video_info o url w)
        = Raise (Exc DownloadError (py "Failed to get video info: 'title'"))).
Proof.
  split.
  - intros md w'. split.
    + intros H. split; [eapply get_video_info_run, H|].
      revert H. unfold Downloader.get_video_info, getitem. run_model.
      destruct (ydl_extract_info o url) as [[i|]|e]; run_model;
        [|discriminate|repeat case_match; discriminate].
      destruct (has_entries i) eqn:E1; [discriminate|].
      destruct (is_live i) eqn:E2; [discriminate|].
      destruct (0 <? age_limit i)%Z eqn:E3; [discriminate|].
      destruct (info_id i) as [id|] eqn:E4; [|discriminate].
      destruct (info_title i) as [t|] eqn:E5; [|discriminate].
      intros [= <- _]. exists i. cbn. apply Z.ltb_ge in E3.
      repeat split; assumption.
    + intros (-> & i & H0 & H1 & H2 & H3 & H4 & H5 & H6 & H7 & H8 & H9).
      unfold Downloader.get_video_info, getitem. run_model.
      rewrite H0. run_model. rewrite H1, H2.
      apply Z.ltb_ge in H3. rewrite H3, H4, H5. run_model.
      destruct md; cbn in *; subst. reflexivity.
  - intros i id H0 H1 H2 H3 H4 H5.
    unfold Downloader.get_video_info, getitem. run_model.
    rewrite H0. run_model. rewrite H1, H2.
    apply Z.ltb_ge in H3. rewrite H3, H4, H5. reflexivity.
Qed.

(** X8. When the download leaves a file that is not empty at the temporary path
    and the rename is allowed, [download_video] returns the final path: the
    file is there with the size it had, the temporary path is gone, every
    other path is as the download left it (so as before the call), the sheet
    is untouched, and the calls are the two [mkdir], the download and the
    rename, in that order. *)
Theorem download_video_promotes s o url md w written n :
  let temp := get_video_path (md_id md) (md_title md) (VIDEO_DIR s) true in
  let final := get_video_path (md_id md) (md_title md) (PROCESSED_DIR s) false in
  os_mkdir o (TEMP_DIR s) = None ->
  os_mkdir o (PROCESSED_DIR s) = None ->
  ydl_download o url temp = Ok written ->
  left_behind written w temp = Some n ->
  n <> 0 ->
  os_rename o temp final = None ->
  exists w',
    Downloader.download_video s o url md w = (Ok final, w')
    /\ files w' !! final = Some n
    /\ files w' !! temp = None
    /\ (forall q, q <> temp -> q <> final -> files w' !! q = files w !! q)
    /\ sheet w' = sheet w
    /\ trace w' = trace w ++ [EvMkdir (TEMP_DIR s); EvDownload url temp;
                              EvMkdir (PROCESSED_DIR s); EvRename temp final].
Proof.
  intros temp final H1 H2 H3 Hl Hn Hr.
  pose proof (temp_final_differ s (md_id md) (md_title md)) as Hne.
  fold temp final in Hne.
  unfold TEMP_DIR, left_behind in *.
  unfold Downloader.download_video. fold temp final.
  run_model. rewrite H1. run_model. rewrite H3. run_model.
  apply N.eqb_neq in Hn.
  destruct written as [k|]; run_model; rewrite H2; run_model.
  - injection Hl as ->. rewrite lookup_insert_eq, Hn. run_model.
    rewrite Hr. run_model. rewrite lookup_insert_eq.
    eexists. split; [reflexivity|]. cbn [files sheet trace].
    split; [apply lookup_insert_eq|].
    split; [rewrite lookup_insert_ne by congruence; apply lookup_delete_eq|].
    split; [|split; [reflexivity|rewrite <- !app_assoc; reflexivity]].
    intros q Hq1 Hq2.
    rewrite lookup_insert_ne, lookup_delete_ne, lookup_insert_ne by congruence.
    reflexivity.
  - rewrite Hl, Hn. run_model. rewrite Hr. run_model. rewrite Hl.
    eexists. split; [reflexivity|]. cbn [files sheet trace].
    split; [apply lookup_insert_eq|].
    split; [rewrite lookup_insert_ne by congruence; apply lookup_delete_eq|].
    split; [|split; [reflexivity|rewrite <- !app_assoc; reflexivity]].
    intros q Hq1 Hq2.
    rewrite lookup_insert_ne, lookup_delete_ne by congruence.
    reflexivity.
Qed.

Lemma download_video_promotes_witness :
  let s := Sample.settings true true in
  let w := Sample.registered s Sample.all_fine in
  exists w',
    Downloader.download_video s Sample.all_fine Sample.video_id Sample.md w
    = (Ok (get_video_path Sample.video_id (md_title Sample.md)
             (PROCESSED_DIR s) false), w')
    /\ files w' !! get_video_path Sample.video_id (md_title Sample.md)
                     (PROCESSED_DIR s) false = Some 1048576
    /\ files w' !! get_video_path Sample.video_id (md_title Sample.md)
                     (VIDEO_DIR s) true = None
    /\ (forall q,
          q <> get_video_path Sample.video_id (md_title Sample.md)
                 (VIDEO_DIR s) true ->
          q <> get_video_path Sample.video_id (md_title Sample.md)
                 (PROCESSED_DIR s) false ->
          files w' !! q = files w !! q)
    /\ sheet w' = sheet w
    /\ trace w'
       = trace w
         ++ [EvMkdir (TEMP_DIR s);
             EvDownload Sample.video_id
               (get_video_path Sample.video_id (md_title Sample.md)
                  (VIDEO_DIR s) true);
             EvMkdir (PROCESSED_DIR s);
             EvRename
               (get_video_path Sample.video_id (md_title Sample.md)
                  (VIDEO_DIR s) true)
               (get_video_path Sample.video_id (md_title Sample.md)
                  (PROCESSED_DIR s) false)].
Proof.
  intros s w.
  apply (download_video_promotes s Sample.all_fine Sample.video_id Sample.md w
           (Some 1048576) 1048576);
    [reflexivity | reflexivity | reflexivity | reflexivity | discriminate
    | reflexivity].
Defined.

(** X9. When the rename of a downloaded file raises an [OSError],
    [download_video] raises a [DownloadError] that reports a file system
    error; the downloaded file stays at the temporary path and the final
    path is as it was. *)
Theorem rename_failure_keeps_temp s o url md w written n e :
  let temp := get_video_path (md_id md) (md_title md) (VIDEO_DIR s) true in
  let final := get_video_path (md_id md) (md_title md) (PROCESSED_DIR s) false in
  os_mkdir o (TEMP_DIR s) = None ->
  os_mkdir o (PROCESSED_DIR s) = None ->
  ydl_download o url temp = Ok written ->
  left_behind written w temp = Some n ->
  n <> 0 ->
  os_rename o temp final = Some e ->
  exc_cls e = OSError ->
  exists w',
    Downloader.download_video s o url md w
    = (Raise (Exc DownloadError (py "File system error: " ++ exc_msg e)), w')
    /\ files w' !! temp = Some n
    /\ files w' !! final = files w !! final
    /\ trace w' = trace w ++ [EvMkdir (TEMP_DIR s); EvDownload url temp;
                              EvMkdir (PROCESSED_DIR s); EvRename temp final].
Proof.
  intros temp final H1 H2 H3 Hl Hn Hr Hc.
  pose proof (temp_final_differ s (md_id md) (md_title md)) as Hne.
  fold temp final in Hne.
  unfold TEMP_DIR, left_behind in *.
  unfold Downloader.download_video. fold temp final.
  run_model. rewrite H1. run_model. rewrite H3. run_model.
  apply N.eqb_neq in Hn.
  assert (Hi : isinstance e URLError = false
               /\ isinstance e SocketTimeout = false
               /\ isinstance e OSError = true).
  { destruct e as [c m]. cbn in Hc. subst c. repeat split. }
  destruct Hi as (I1 & I2 & I3).
  destruct written as [k|]; run_model; rewrite H2; run_model.
  - injection Hl as ->. rewrite lookup_insert_eq, Hn. run_model.
    rewrite Hr. run_model. rewrite I1, I2, I3.
    eexists. split; [reflexivity|]. cbn [files sheet trace].
    split; [apply lookup_insert_eq|].
    split; [apply lookup_insert_ne; congruence|].
    rewrite <- !app_assoc; reflexivity.
  - rewrite Hl, Hn. run_model. rewrite Hr. run_model. rewrite I1, I2, I3.
    eexists. split; [reflexivity|]. cbn [files sheet trace].
    split; [exact Hl|]. split; [reflexivity|].
    rewrite <- !app_assoc; reflexivity.
Qed.

Lemma rename_failure_keeps_temp_witness :
  let s := Sample.settings true true in
  let e := Exc OSError (py "[Errno 13] Permission denied") in
  let o := {| ydl_extract_info := ydl_extract_info Sample.all_fine;
              ydl_download := ydl_download Sample.all_fine;
              ydl_extract_and_download :=
                ydl_extract_and_download Sample.all_fine;
              os_mkdir := os_mkdir Sample.all_fine;
              os_rename := fun _ _ => Some e;
              os_copy := os_copy Sample.all_fine;
              os_unlink := os_unlink Sample.all_fine;
              gs_open_by_key := None;
              gs_row_values := gs_row_values Sample.all_fine;
              gs_insert_row := gs_insert_row Sample.all_fine;
              gs_clear := None;
              gs_append_row := gs_append_row Sample.all_fine;
              gs_find := gs_find Sample.all_fine;
              gs_col_values := gs_col_values Sample.all_fine;
              gs_update_cell := gs_update_cell Sample.all_fine;
              drive_upload := drive_upload Sample.all_fine;
              today := today Sample.all_fine;
              service_account_email := service_account_email Sample.all_fine |} in
  let w := Sample.registered s o in
  let temp := get_video_path Sample.video_id (md_title Sample.md)
                (VIDEO_DIR s) true in
  let final := get_video_path Sample.video_id (md_title Sample.md)
                 (PROCESSED_DIR s) false in
  exists w',
    Downloader.download_video s o Sample.video_id Sample.md w
    = (Raise (Exc DownloadError (py "File system error: " ++ exc_msg e)), w')
    /\ files w' !! temp = Some 1048576
    /\ files w' !! final = files w !! final
    /\ trace w' = trace w ++ [EvMkdir (TEMP_DIR s);
                              EvDownload Sample.video_id temp;
                              EvMkdir (PROCESSED_DIR s); EvRename temp final].
Proof.
  intros s e o w temp final.
  apply (rename_failure_keeps_temp s o Sample.video_id Sample.md w
           (Some 1048576) 1048576 e);
    [reflexivity | reflexivity | reflexivity | reflexivity | discriminate
    | reflexivity | reflexivity].
Defined.

(** ** The columns of the sheet *)

#[global] Instance same_cells_outside_frame cols : Frame (same_cells_outside cols).
Proof.
  split; unfold same_cells_outside.
  - reflexivity.
  - intros a b c H1 H2 r k Hk. rewrite H2, H1 by exact Hk. reflexivity.
Qed.

Lemma same_sheet_cells cols {A} (m : M A) :
  keeps same_sheet m -> keeps (same_cells_outside cols) m.
Proof.
  intros H w r w' E r0 c _. rewrite (H _ _ _ E). reflexivity.
Qed.

Lemma update_cell_cells cols o row col v :
  (col - 1)%nat ∈ cols -> keeps (same_cells_outside cols) (update_cell o row col v).
Proof.
  intros Hin. unfold update_cell. keeps_auto.
  all: intros r c Hc; cbn [sheet set_sheet record_event].
  - reflexivity.
  - apply get_cell_set_cell_ne. intros E. rewrite E in Hin. contradiction.
Qed.

Lemma find_sheet o t : keeps same_sheet (find o t).
Proof. unfold find. keeps_auto. Qed.

Lemma update_video_status_cells o vid st fid title :
  keeps (same_cells_outside [4; 8]%nat)
    (Sheets.update_video_status o vid st fid title).
Proof.
  unfold Sheets.update_video_status.
  change (Sheets.headers_index (py "Download Status")) with (@ret nat 8%nat).
  change (Sheets.headers_index (py "Drive File ID")) with (@ret nat 4%nat).
  pose proof (fun t => same_sheet_cells [4; 8]%nat _ (find_sheet o t)) as Hf.
  pose proof (fun row col v H => update_cell_cells [4; 8]%nat o row col v H) as Hu.
  repeat first
    [ apply Hf
    | apply Hu; cbn; repeat constructor
    | keeps_step ].
Qed.

Lemma outside_4_8 (c : nat) : c <> 4%nat -> c <> 8%nat -> c ∉ [4; 8]%nat.
Proof.
  intros H4 H8. rewrite !not_elem_of_cons.
  repeat split; [exact H4 | exact H8 | apply not_elem_of_nil].
Qed.

Lemma get_cell_beyond r c sh : (length sh <= r)%nat -> get_cell r c sh = [].
Proof.
  intros H. unfold get_cell. rewrite (lookup_ge_None_2 _ r) by exact H.
  reflexivity.
Qed.

Lemma upload_file_sheet o p t : keeps same_sheet (Drive.upload_file o p t).
Proof.
  unfold Drive.upload_file, Drive.validate_file_exists, exists_. keeps_auto.
Qed.

Lemma unlink_sheet o p : keeps same_sheet (unlink o p).
Proof. unfold unlink. keeps_auto. Qed.

Lemma add_video_failed s o md w e w' :
  Sheets.add_video s o md w = (Raise e, w') -> sheet w' = sheet w.
Proof.
  unfold Sheets.add_video. run_model.
  destruct (gs_append_row o (Sheets.row_data s o md)); [|discriminate].
  intros [= _ <-]. reflexivity.
Qed.

(** X10. [update_video_status] writes to the columns of the drive file id and of
    the download status only, whatever its arguments and whatever the sheet
    answers; and over a whole run of [process_video], whether it returns or
    raises, every cell outside these two columns is the one of the sheet
    before, with at most the row of [add_video] appended. So the column
    Upload Status is never written after the row is added: each of its
    cells is what it was, or the [Pending] of the new row. *)
Theorem upload_status_never_written L s o url w :
  (forall vid st fid title w0 r w0',
     Sheets.update_video_status o vid st fid title w0 = (r, w0') ->
     forall row c, c <> 4%nat -> c <> 8%nat ->
       get_cell row c (sheet w0') = get_cell row c (sheet w0))
  /\ (exists added,
        (added = [] \/ exists md, added = [Sheets.row_data s o md])
        /\ forall row c, c <> 4%nat -> c <> 8%nat ->
             get_cell row c (sheet (snd (Processor.process_video L s o url w)))
             = get_cell row c (sheet w ++ added))
  /\ (forall row,
        let after := sheet (snd (Processor.process_video L s o url w)) in
        get_cell row 9 after = get_cell row 9 (sheet w)
        \/ get_cell row 9 after = py "Pending").
Proof.
  assert (Hu : forall vid st fid title w0 r w0',
     Sheets.update_video_status o vid st fid title w0 = (r, w0') ->
     forall row c, c <> 4%nat -> c <> 8%nat ->
       get_cell row c (sheet w0') = get_cell row c (sheet w0)).
  { intros vid st fid title w0 r w0' H row c H4 H8.
    apply (update_video_status_cells _ _ _ _ _ _ _ _ H).
    apply outside_4_8; assumption. }
  assert (Hp : exists added,
        (added = [] \/ exists md, added = [Sheets.row_data s o md])
        /\ forall row c, c <> 4%nat -> c <> 8%nat ->
             get_cell row c (sheet (snd (Processor.process_video L s o url w)))
             = get_cell row c (sheet w ++ added)).
  { destruct (Validators.validate_youtube_url L url) as [vid|e0] eqn:Hv.
    2:{ exists []. split; [left; reflexivity|]. intros row c _ _.
        rewrite process_video_eq, Hv, app_nil_r. reflexivity. }
    destruct (Downloader.get_video_info o url w) as [[md|e1] w1] eqn:Hg.
    2:{ exists []. split; [left; reflexivity|]. intros row c _ _.
        rewrite process_video_eq, Hv, Hg, app_nil_r. cbn [snd].
        rewrite (get_video_info_sheet _ _ _ _ _ Hg). reflexivity. }
    pose proof (get_video_info_sheet _ _ _ _ _ Hg) as Hs1.
    destruct (Sheets.add_video s o md w1) as [[[]|e2] w2] eqn:Ha.
    2:{ exists []. split; [left; reflexivity|]. intros row c _ _.
        rewrite process_video_eq, Hv, Hg, Ha, app_nil_r. cbn [snd].
        rewrite (add_video_failed _ _ _ _ _ _ Ha), Hs1. reflexivity. }
    exists [Sheets.row_data s o md]. split; [right; eauto|].
    intros row c H4 H8.
    pose proof (process_video_tail (same_cells_outside [4; 8]%nat)
                  L s o url w vid md w1 w2 Hv Hg Ha
                  (same_sheet_cells _ _ (download_video_sheet s o url md))
                  (fun p t => same_sheet_cells _ _ (upload_file_sheet o p t))
                  (update_video_status_cells o)
                  (fun p => same_sheet_cells _ _ (unlink_sheet o p))) as Ht.
    rewrite (Ht row c) by (apply outside_4_8; assumption).
    rewrite (add_video_ok _ _ _ _ _ Ha). cbn [sheet].
    unfold same_sheet in Hs1. rewrite Hs1. reflexivity. }
  split; [exact Hu|]. split; [exact Hp|].
  intros row after. subst after.
  destruct Hp as (added & Hadd & Hc).
  rewrite (Hc row 9%nat) by discriminate.
  destruct Hadd as [->|[md ->]].
  - left. rewrite app_nil_r. reflexivity.
  - destruct (decide (row < length (sheet w))%nat) as [Hlt|Hge].
    + left. unfold get_cell. rewrite lookup_app_l by exact Hlt. reflexivity.
    + destruct (decide (row = length (sheet w))) as [->|Hne].
      * right. rewrite get_cell_last. reflexivity.
      * left. rewrite !get_cell_beyond; [reflexivity|lia|].
        rewrite length_app. cbn [length]. lia.
Qed.

(** [update_video_status] with the status [Completed] and a file id, on a
    sheet where the title is found. *)
Lemma update_video_status_completed o vid fid title w row col :
  truthy title = true ->
  truthy fid = true ->
  gs_find o title = None ->
  find_from title (sheet w) 1 = Some (row, col) ->
  gs_update_cell o row 9 (py "Completed") = None ->
  gs_update_cell o row 5 fid = None ->
  Sheets.update_video_status o vid (py "Completed") (Some fid) (Some title) w
  = (Ok tt,
     {| sheet := set_cell (row - 1) 4 fid
                   (set_cell (row - 1) 8 (py "Completed") (sheet w));
        files := files w;
        trace := trace w ++ [EvFind title;
                             EvUpdateCell row 9 (py "Completed");
                             EvUpdateCell row 5 fid] |}).
Proof.
  intros Ht Hp Hf Hfound Hu1 Hu2.
  unfold Sheets.update_video_status. rewrite Ht, Hp.
  change (pystr_eqb (py "Completed") (py "Completed")) with true.
  change (Sheets.headers_index (py "Drive File ID")) with (@ret nat 4%nat).
  change (Sheets.headers_index (py "Download Status")) with (@ret nat 8%nat).
  run_model. rewrite Hf. run_model. rewrite Hfound. run_model.
  change (8 + 1)%nat with 9%nat. rewrite Hu1. run_model.
  change (4 + 1)%nat with 5%nat. rewrite Hu2. run_model.
  rewrite <- !app_assoc. reflexivity.
Qed.

Lemma update_video_status_completed_ok o vid fid title w w' :
  truthy fid = true ->
  Sheets.update_video_status o vid (py "Completed") (Some fid) (Some title) w
  = (Ok tt, w') ->
  exists row col,
    find_from title (sheet w) 1 = Some (row, col)
    /\ sheet w' = set_cell (row - 1) 4 fid
                    (set_cell (row - 1) 8 (py "Completed") (sheet w)).
Proof.
  intros Hp. unfold Sheets.update_video_status. rewrite Hp.
  change (pystr_eqb (py "Completed") (py "Completed")) with true.
  change (Sheets.headers_index (py "Drive File ID")) with (@ret nat 4%nat).
  change (Sheets.headers_index (py "Download Status")) with (@ret nat 8%nat).
  run_model. intros H.
  repeat (case_match; simplify_eq; cbn [files sheet trace] in * ).
  eexists _, _. split; [eassumption|]. reflexivity.
Qed.

(** X11. A run with the upload switched on that returns has marked one row: the
    first row, counting the row it has just appended, that has a cell equal
    to the title. That row gets [Completed] as download status and the id
    of the uploaded file, which is not empty; nothing else changes, and the
    Upload Status of the new row stays [Pending]. When no cell of the
    sheet before the run equals the title, the row marked is the new one;
    when one does, an older row is marked and the new row keeps the download
    status [Pending]. *)
Theorem uploaded_run_marks_first_match L s o url w md w1 w' :
  UPLOAD_TO_DRIVE s = true ->
  Downloader.get_video_info o url w = (Ok md, w1) ->
  Processor.process_video L s o url w = (Ok tt, w') ->
  let before := sheet w ++ [Sheets.row_data s o md] in
  exists row col fid,
    find_from (md_title md) before 1 = Some (row, col)
    /\ truthy fid = true
    /\ sheet w' = set_cell (row - 1) 4 fid
                    (set_cell (row - 1) 8 (py "Completed") before)
    /\ get_cell (row - 1) 8 (sheet w') = py "Completed"
    /\ get_cell (row - 1) 4 (sheet w') = fid
    /\ get_cell (length (sheet w)) 9 (sheet w') = py "Pending"
    /\ (find_from (md_title md) (sheet w) 1 = None ->
        row = S (length (sheet w)))
    /\ (is_Some (find_from (md_title md) (sheet w) 1) ->
        (row <= length (sheet w))%nat
        /\ get_cell (length (sheet w)) 8 (sheet w') = py "Pending").
Proof.
  intros Hup Hg H before. rewrite process_video_eq, Hg, Hup in H.
  destruct (Validators.validate_youtube_url L url) as [vid|]; [|discriminate].
  destruct (Sheets.add_video s o md w1) as [[[]|] w2] eqn:Ha; [|discriminate].
  destruct (Downloader.download_video s o url md w2) as [[p|] w3] eqn:Hd;
    [|discriminate].
  destruct (Drive.upload_file o p _ w3) as [[fid|] w4] eqn:Hu; [|discriminate].
  pose proof (upload_file_ok _ _ _ _ _ _ Hu) as Hfid. rewrite Hfid in H.
  destruct (Sheets.update_video_status _ _ _ _ _ w4) as [[[]|] w5] eqn:Hs;
    [|discriminate].
  assert (Hw' : sheet w' = sheet w5).
  { destruct (KEEP_FILES s); [injection H as <-; reflexivity|].
    destruct (unlink o p w5) as [[[]|] w6] eqn:Hl; [|discriminate].
    injection H as <-. exact (unlink_sheet _ _ _ _ _ Hl). }
  assert (Hs4 : sheet w4 = before).
  { rewrite (upload_file_sheet _ _ _ _ _ _ Hu).
    rewrite (download_video_sheet _ _ _ _ _ _ _ Hd).
    rewrite (add_video_ok _ _ _ _ _ Ha). cbn [sheet].
    rewrite (get_video_info_sheet _ _ _ _ _ Hg). reflexivity. }
  destruct (update_video_status_completed_ok _ _ _ _ _ _ Hfid Hs)
    as (row & col & Hfound & Hs5).
  rewrite Hs4 in Hfound, Hs5. rewrite <- Hw' in Hs5.
  exists row, col, fid.
  split; [exact Hfound|]. split; [exact Hfid|]. split; [exact Hs5|].
  rewrite Hs5.
  split; [rewrite get_cell_set_cell_ne by discriminate;
          apply get_cell_set_cell_eq|].
  split; [apply get_cell_set_cell_eq|].
  split.
  { rewrite !get_cell_set_cell_ne by discriminate.
    unfold before. rewrite get_cell_last. reflexivity. }
  split.
  - intros Hnone. unfold before in Hfound.
    rewrite (find_from_app_fresh _ _ _ _ Hnone) in Hfound.
    destruct (find_in_row _ _ 1); [|discriminate].
    injection Hfound as <- _. reflexivity.
  - intros [cell Hcell]. unfold before in Hfound.
    rewrite (find_from_app_found _ _ [Sheets.row_data s o md] _ _ Hcell)
      in Hfound.
    injection Hfound as ->.
    destruct (find_from_bounds _ _ _ _ _ Hcell) as [Hb _].
    split; [lia|].
    rewrite !get_cell_set_cell_row by lia.
    unfold before. rewrite get_cell_last. reflexivity.
Qed.

Lemma uploaded_run_marks_first_match_witness :
  let s := Sample.settings true true in
  let w := Sample.world in
  exists w',
    Processor.process_video PyUrllib.lib s Sample.all_fine Sample.video_id w
    = (Ok tt, w')
    /\ exists row col fid,
         find_from (md_title Sample.md)
           (sheet w ++ [Sheets.row_data s Sample.all_fine Sample.md]) 1
         = Some (row, col)
         /\ get_cell (row - 1) 8 (sheet w') = py "Completed"
         /\ get_cell (row - 1) 4 (sheet w') = fid
         /\ get_cell (length (sheet w)) 9 (sheet w') = py "Pending"
         /\ row = 2%nat.
Proof.
  intros s w.
  assert (Hg : Downloader.get_video_info Sample.all_fine Sample.video_id w
               = (Ok Sample.md, Sample.fetched))
    by (vm_compute; reflexivity).
  destruct (Processor.process_video PyUrllib.lib s Sample.all_fine
              Sample.video_id w) as [r w'] eqn:Hp.
  assert (Hr : r = Ok tt).
  { apply (f_equal fst) in Hp. simpl in Hp. rewrite <- Hp.
    vm_compute. reflexivity. }
  subst r. exists w'. split; [reflexivity|].
  destruct (uploaded_run_marks_first_match PyUrllib.lib s Sample.all_fine
              Sample.video_id w Sample.md Sample.fetched w' eq_refl Hg Hp)
    as (row & col & fid & H1 & _ & _ & H2 & H3 & H4 & H5 & _).
  exists row, col, fid. repeat split; try assumption.
  apply H5. vm_compute. reflexivity.
Defined.

Lemma unlink_failed o p w e w' :
  unlink o p w = (Raise e, w') -> files w' = files w /\ sheet w' = sheet w.
Proof.
  run_model. intros H. repeat (case_match; simplify_eq); split; reflexivity.
Qed.

(** X12. Nothing is rolled back when a run fails after the download: the file is
    still at its final path with the size it had, also when the failure is
    that of the final [unlink]; and the row that [add_video] appended is
    still in the sheet, with its title and with [Pending] as upload
    status. *)
Theorem failed_run_keeps_download L s o url w vid md w1 w2 p w3 e w' :
  Validators.validate_youtube_url L url = Ok vid ->
  Downloader.get_video_info o url w = (Ok md, w1) ->
  Sheets.add_video s o md w1 = (Ok tt, w2) ->
  Downloader.download_video s o url md w2 = (Ok p, w3) ->
  Processor.process_video L s o url w = (Raise e, w') ->
  files w' = files w3
  /\ (exists n, n <> 0 /\ files w' !! p = Some n)
  /\ get_cell (length (sheet w)) 0 (sheet w') = md_title md
  /\ get_cell (length (sheet w)) 9 (sheet w') = py "Pending".
Proof.
  intros Hv Hg Ha Hd H.
  assert (Hc : same_cells_outside [4; 8]%nat w2 w').
  { pose proof (process_video_tail (same_cells_outside [4; 8]%nat)
                  L s o url w vid md w1 w2 Hv Hg Ha
                  (same_sheet_cells _ _ (download_video_sheet s o url md))
                  (fun p t => same_sheet_cells _ _ (upload_file_sheet o p t))
                  (update_video_status_cells o)
                  (fun p => same_sheet_cells _ _ (unlink_sheet o p))) as Ht.
    rewrite H in Ht. exact Ht. }
  assert (Hs2 : sheet w2 = sheet w ++ [Sheets.row_data s o md]).
  { rewrite (add_video_ok _ _ _ _ _ Ha). cbn [sheet].
    rewrite (get_video_info_sheet _ _ _ _ _ Hg). reflexivity. }
  assert (Hf : files w' = files w3).
  { rewrite process_video_eq, Hv, Hg, Ha, Hd in H.
    destruct (UPLOAD_TO_DRIVE s).
    - destruct (Drive.upload_file o p _ w3) as [[fid|] w4] eqn:Hu.
      2:{ injection H as _ <-. exact (upload_file_files _ _ _ _ _ _ Hu). }
      pose proof (upload_file_files _ _ _ _ _ _ Hu) as F4.
      destruct (truthy fid); [|discriminate].
      destruct (Sheets.update_video_status _ _ _ _ _ w4) as [[[]|] w5] eqn:Hs.
      2:{ injection H as _ <-.
          rewrite (update_video_status_files _ _ _ _ _ _ _ _ Hs). exact F4. }
      pose proof (update_video_status_files _ _ _ _ _ _ _ _ Hs) as F5.
      destruct (KEEP_FILES s); [discriminate|].
      destruct (unlink o p w5) as [[[]|] w6] eqn:Hl; [discriminate|].
      injection H as _ <-. destruct (unlink_failed _ _ _ _ _ Hl) as [-> _].
      rewrite F5. exact F4.
    - destruct (Sheets.update_video_status _ _ _ _ _ w3) as [[[]|] w4] eqn:Hs;
        [discriminate|].
      injection H as _ <-.
      exact (update_video_status_files _ _ _ _ _ _ _ _ Hs). }
  split; [exact Hf|].
  destruct (download_video_ok _ _ _ _ _ _ _ Hd) as (_ & _ & n & Hn & Hpn).
  split; [exists n; rewrite Hf; split; assumption|].
  rewrite !(Hc (length (sheet w))) by (apply outside_4_8; discriminate).
  rewrite Hs2, !get_cell_last. split; reflexivity.
Qed.

Lemma failed_run_keeps_download_witness :
  let s := Sample.settings false true in
  let o := Sample.oracle Sample.info (Some 1048576)
             (UploadChunkRaises (Exc HttpError (py "HttpError 403"))) in
  exists e w',
    Processor.process_video PyUrllib.lib s o Sample.video_id Sample.world
    = (Raise e, w')
    /\ (exists n, n <> 0 /\ files w' !! Sample.final_path = Some n)
    /\ get_cell 1 0 (sheet w') = md_title Sample.md
    /\ get_cell 1 9 (sheet w') = py "Pending".
Proof.
  intros s o.
  destruct (Downloader.download_video s o Sample.video_id Sample.md
              (Sample.registered s o)) as [rd w3] eqn:Hd.
  assert (Hrd : rd = Ok Sample.final_path).
  { apply (f_equal fst) in Hd. simpl in Hd. rewrite <- Hd.
    vm_compute. reflexivity. }
  subst rd.
  destruct (Processor.process_video PyUrllib.lib s o Sample.video_id
              Sample.world) as [r w'] eqn:Hp.
  assert (Hr : r = Raise (Exc ProcessingError
                 (py "Processing error: Upload failed: Error during upload chunk: HttpError 403"))).
  { apply (f_equal fst) in Hp. simpl in Hp. rewrite <- Hp.
    vm_compute. reflexivity. }
  subst r. eexists _, w'. split; [reflexivity|].
  exact (proj2 (failed_run_keeps_download PyUrllib.lib s o Sample.video_id
                  Sample.world Sample.video_id Sample.md Sample.fetched
                  (Sample.registered s o) Sample.final_path w3 _ w'
                  eq_refl eq_refl eq_refl Hd Hp)).
Defined.

(** ** The upload *)

(** X13. [upload_file] returns an id exactly when the file exists and the upload
    ends with a response that carries an id that is not empty; it has then
    made one call, under the title when there is one and under the name of
    the file otherwise. On a path that does not exist it raises before any
    call is made and leaves the world as it was. *)
Theorem upload_file_result (o : Oracle) (p : pystr) (title : option pystr)
    (w : World) :
  let name := match title with
              | Some t => if truthy t then t else basename p
              | None => basename p
              end in
  (forall fid w',
     Drive.upload_file o p title w = (Ok fid, w') <->
     is_Some (files w !! p)
     /\ drive_upload o p name = UploadResponse (Some fid)
     /\ truthy fid = true
     /\ w' = record_event (EvUpload p name) w)
  /\ (files w !! p = None ->
      Drive.upload_file o p title w
      = (Raise (Exc GoogleDriveError
                  (py "Upload failed: File not found: " ++ p)), w)).
Proof.
  intros name. split.
  - intros fid w'. unfold Drive.upload_file, Drive.validate_file_exists.
    fold name. run_model. split.
    + destruct (files w !! p) as [n|] eqn:E.
      2:{ rewrite bool_decide_eq_false_2 by (intros [? ?]; discriminate).
          run_model. case_match; discriminate. }
      rewrite bool_decide_eq_true_2 by eauto. run_model.
      destruct (drive_upload o p name) as [e|e|[id|]]; run_model;
        repeat case_match; simplify_eq; try discriminate.
      intros; simplify_eq. repeat split; eauto.
    + intros ([n E] & Hu & Ht & ->). rewrite E.
      rewrite bool_decide_eq_true_2 by eauto. run_model.
      rewrite Hu, Ht. reflexivity.
  - intros E. unfold Drive.upload_file, Drive.validate_file_exists.
    run_model. rewrite E.
    rewrite bool_decide_eq_false_2 by (intros [? ?]; discriminate).
    run_model. change (isinstance (Exc ValidationError ?m) HttpError) with false.
    cbn [exc_msg]. reflexivity.
Qed.

(** X14. An [HttpError] is reported in two ways: one raised while the upload is
    set up leaves [upload_file] as a Drive API error, one raised by a chunk
    is first turned into a [GoogleDriveError] and so leaves it as a failed
    upload that quotes the chunk error; an upload that ends without an id
    is reported as a failed upload that was successful. *)
Theorem upload_http_error_reports (o : Oracle) (p : pystr)
    (title : option pystr) (w : World) (e : exc) :
  let name := match title with
              | Some t => if truthy t then t else basename p
              | None => basename p
              end in
  is_Some (files w !! p) ->
  exc_cls e = HttpError ->
  (drive_upload o p name = UploadSetupRaises e ->
   fst (Drive.upload_file o p title w)
   = Raise (Exc GoogleDriveError (py "Drive API error: " ++ exc_msg e)))
  /\ (drive_upload o p name = UploadChunkRaises e ->
      fst (Drive.upload_file o p title w)
      = Raise (Exc GoogleDriveError
                 (py "Upload failed: Error during upload chunk: " ++ exc_msg e)))
  /\ (drive_upload o p name = UploadResponse None ->
      fst (Drive.upload_file o p title w)
      = Raise (Exc GoogleDriveError
                 (py "Upload failed: Upload successful but file ID not received"))).
Proof.
  intros name [n E] Hc.
  assert (Hi : isinstance e HttpError = true).
  { destruct e as [c m]. cbn in Hc. subst c. reflexivity. }
  unfold Drive.upload_file, Drive.validate_file_exists. fold name.
  run_model. rewrite E. rewrite bool_decide_eq_true_2 by eauto. run_model.
  repeat split; intros ->; run_model; rewrite ?Hi; run_model; rewrite ?Hi;
    cbn; rewrite <- ?app_assoc; reflexivity.
Qed.

Lemma upload_http_error_reports_witness :
  let e := Exc HttpError (py "HttpError 403") in
  let w := {| sheet := []; files := {[ py "/v/a.mp4" := 7 ]}; trace := [] |} in
  fst (Drive.upload_file
         (Sample.oracle Sample.info None (UploadSetupRaises e))
         (py "/v/a.mp4") None w)
  = Raise (Exc GoogleDriveError (py "Drive API error: HttpError 403"))
  /\ fst (Drive.upload_file
            (Sample.oracle Sample.info None (UploadChunkRaises e))
            (py "/v/a.mp4") None w)
     = Raise (Exc GoogleDriveError
                (py "Upload failed: Error during upload chunk: HttpError 403")).
Proof.
  intros e w.
  assert (Hw : is_Some (files w !! py "/v/a.mp4"))
    by (exists 7; vm_compute; reflexivity).
  split.
  - exact (proj1 (upload_http_error_reports
                    (Sample.oracle Sample.info None (UploadSetupRaises e))
                    (py "/v/a.mp4") None w e Hw eq_refl) eq_refl).
  - exact (proj1 (proj2 (upload_http_error_reports
                    (Sample.oracle Sample.info None (UploadChunkRaises e))
                    (py "/v/a.mp4") None w e Hw eq_refl)) eq_refl).
Defined.

(** ** The title as key of the sheet *)

(** X15. Without a title, or with an empty one, [update_video_status] raises
    before it asks the sheet anything; so a video whose title is empty is
    downloaded, and then its run fails at the status update, with the file
    in place and the row appended. *)
Theorem status_update_needs_title (o : Oracle) :
  (forall vid st fid title w,
     title = None \/ title = Some [] ->
     Sheets.update_video_status o vid st fid title w
     = (Raise (Exc GoogleSheetsError
          (py "Failed to update video status: Video title is required to update status")),
        w))
  /\ (forall L s url w vid md w1 w2 p w3,
        UPLOAD_TO_DRIVE s = false ->
        Validators.validate_youtube_url L url = Ok vid ->
        Downloader.get_video_info o url w = (Ok md, w1) ->
        Sheets.add_video s o md w1 = (Ok tt, w2) ->
        Downloader.download_video s o url md w2 = (Ok p, w3) ->
        md_title md = [] ->
        Processor.process_video L s o url w
        = (Raise (Exc ProcessingError
             (py "Processing error: Failed to update video status: Video title is required to update status")),
           w3)).
Proof.
  assert (H : forall vid st fid title w,
     title = None \/ title = Some [] ->
     Sheets.update_video_status o vid st fid title w
     = (Raise (Exc GoogleSheetsError
          (py "Failed to update video status: Video title is required to update status")),
        w)).
  { intros vid st fid title w [->| ->]; reflexivity. }
  split; [exact H|].
  intros L s url w vid md w1 w2 p w3 Hup Hv Hg Ha Hd Ht.
  rewrite process_video_eq, Hv, Hg, Ha, Hd, Hup, Ht.
  rewrite H by (right; reflexivity). reflexivity.
Qed.

(** ** Deleting a downloaded file *)

(** X16. [cleanup] of the downloader does nothing, and calls nothing, when the
    file is not there; it deletes the file, and only that file, when it is,
    after which a second [cleanup] does nothing; an [OSError] of the
    [unlink] becomes a [DownloadError] and leaves the file, and an
    exception of any class that is not an [OSError] passes unchanged. *)
Theorem cleanup_removes_once (o : Oracle) (p : pystr) (w : World) :
  (files w !! p = None -> DownloaderCleanup.cleanup o p w = (Ok tt, w))
  /\ (is_Some (files w !! p) -> os_unlink o p = None ->
      let w' := {| sheet := sheet w; files := delete p (files w);
                   trace := trace w ++ [EvUnlink p] |} in
      DownloaderCleanup.cleanup o p w = (Ok tt, w')
      /\ DownloaderCleanup.cleanup o p w' = (Ok tt, w'))
  /\ (forall e, is_Some (files w !! p) -> os_unlink o p = Some e ->
      DownloaderCleanup.cleanup o p w
      = (Raise (if isinstance e OSError
                then Exc DownloadError
                       (py "Failed to delete video file: " ++ exc_msg e)
                else e),
         record_event (EvUnlink p) w)).
Proof.
  unfold DownloaderCleanup.cleanup.
  split; [|split].
  - intros E. run_model. rewrite E.
    rewrite bool_decide_eq_false_2 by (intros [? ?]; discriminate).
    reflexivity.
  - intros [n E] Hu. split.
    + run_model. rewrite E, Hu.
      rewrite bool_decide_eq_true_2 by eauto. run_model. rewrite E.
      reflexivity.
    + run_model. rewrite lookup_delete_eq.
      rewrite bool_decide_eq_false_2 by (intros [? ?]; discriminate).
      reflexivity.
  - intros e [n E] Hu. run_model. rewrite E, Hu.
    rewrite bool_decide_eq_true_2 by eauto. run_model.
    destruct (isinstance e OSError); reflexivity.
Qed.

Lemma cleanup_removes_once_witness :
  let w := {| sheet := []; files := {[ py "/v/a.mp4" := 7 ]}; trace := [] |} in
  let w' := {| sheet := []; files := delete (py "/v/a.mp4") (files w);
               trace := [EvUnlink (py "/v/a.mp4")] |} in
  DownloaderCleanup.cleanup Sample.all_fine (py "/v/a.mp4") w = (Ok tt, w')
  /\ DownloaderCleanup.cleanup Sample.all_fine (py "/v/a.mp4") w' = (Ok tt, w')
  /\ DownloaderCleanup.cleanup Sample.all_fine (py "/v/b.mp4") w = (Ok tt, w).
Proof.
  intros w w'.
  assert (Hw : is_Some (files w !! py "/v/a.mp4"))
    by (exists 7; vm_compute; reflexivity).
  destruct (cleanup_removes_once Sample.all_fine (py "/v/a.mp4") w)
    as (_ & H2 & _).
  destruct (H2 Hw eq_refl) as [Ha Hb].
  split; [exact Ha|]. split; [exact Hb|].
  apply (proj1 (cleanup_removes_once Sample.all_fine (py "/v/b.mp4") w)).
  vm_compute. reflexivity.
Defined.

Lemma status_update_needs_title_witness :
  Sheets.update_video_status Sample.all_fine Sample.video_id (py "Completed")
    (Some (py "abc123")) (Some []) Sample.world
  = (Raise (Exc GoogleSheetsError
       (py "Failed to update video status: Video title is required to update status")),
     Sample.world).
Proof.
  apply (proj1 (status_update_needs_title Sample.all_fine)).
  right. reflexivity.
Defined.

(** ** The header row *)

Lemma first_row_single cells w :
  trim_empty cells = cells -> sheet w = [cells] -> first_row w = cells.
Proof. intros H E. unfold first_row. rewrite E. exact H. Qed.

Section HeaderRow.
Context (o : Oracle).
Hypothesis Hr : gs_row_values o 1 = None.
Hypothesis Hc : gs_clear o = None.

Lemma worksheet_same w :
  first_row w = Sheets.HEADERS ->
  SheetsService._get_or_create_worksheet o w
  = (Ok tt, record_event (EvRowValues 1) w).
Proof.
  intros E. unfold SheetsService._get_or_create_worksheet. run_model.
  rewrite Hr. run_model. change (1 - 1)%nat with 0%nat.
  unfold first_row in E. rewrite E. reflexivity.
Qed.

Lemma worksheet_empty w :
  gs_append_row o Sheets.HEADERS = None ->
  first_row w = [] ->
  SheetsService._get_or_create_worksheet o w
  = (Ok tt, {| sheet := sheet w ++ [Sheets.HEADERS];
               files := files w;
               trace := trace w ++ [EvRowValues 1;
                                    EvAppendRow Sheets.HEADERS] |}).
Proof.
  intros Ha E. unfold SheetsService._get_or_create_worksheet. run_model.
  rewrite Hr. run_model. change (1 - 1)%nat with 0%nat.
  unfold first_row in E. rewrite E. run_model. rewrite Ha. run_model.
  rewrite <- app_assoc. reflexivity.
Qed.

Lemma worksheet_wipe w :
  gs_append_row o Sheets.HEADERS = None ->
  first_row w <> Sheets.HEADERS -> first_row w <> [] ->
  SheetsService._get_or_create_worksheet o w
  = (Ok tt, {| sheet := [Sheets.HEADERS];
               files := files w;
               trace := trace w ++ [EvRowValues 1; EvClear;
                                    EvAppendRow Sheets.HEADERS] |}).
Proof.
  intros Ha E1 E2. unfold SheetsService._get_or_create_worksheet. run_model.
  rewrite Hr. run_model. change (1 - 1)%nat with 0%nat.
  unfold first_row in E1, E2.
  destruct (trim_empty _) as [|c row]; [contradiction|].
  rewrite bool_decide_eq_false_2 by exact E1. run_model.
  rewrite Hc. run_model. rewrite Ha. cbn [negb]. run_model.
  rewrite <- !app_assoc. reflexivity.
Qed.

Context (c : Legacy.Config).
Hypothesis Ho : gs_open_by_key o = None.

Lemma legacy_sheet_same w :
  first_row w = Legacy.HEADERS ->
  Legacy.get_or_create_sheet c o w = (Ok tt, record_event (EvRowValues 1) w).
Proof.
  intros E. unfold Legacy.get_or_create_sheet. run_model.
  rewrite Ho, Hr. run_model. change (1 - 1)%nat with 0%nat.
  unfold first_row in E. rewrite E. reflexivity.
Qed.

Lemma legacy_sheet_insert w :
  gs_insert_row o Legacy.HEADERS 1 = None ->
  first_row w = [] ->
  Legacy.get_or_create_sheet c o w
  = (Ok tt, {| sheet := Legacy.HEADERS :: sheet w;
               files := files w;
               trace := trace w ++ [EvRowValues 1;
                                    EvInsertRow Legacy.HEADERS 1] |}).
Proof.
  intros Hi E. unfold Legacy.get_or_create_sheet. run_model.
  rewrite Ho, Hr. run_model. change (1 - 1)%nat with 0%nat.
  unfold first_row in E. rewrite E. run_model. rewrite Hi. run_model.
  rewrite <- app_assoc. reflexivity.
Qed.

Lemma legacy_sheet_wipe w :
  gs_insert_row o Legacy.HEADERS 1 = None ->
  first_row w <> Legacy.HEADERS -> first_row w <> [] ->
  Legacy.get_or_create_sheet c o w
  = (Ok tt, {| sheet := [Legacy.HEADERS];
               files := files w;
               trace := trace w ++ [EvRowValues 1; EvClear;
                                    EvInsertRow Legacy.HEADERS 1] |}).
Proof.
  intros Hi E1 E2. unfold Legacy.get_or_create_sheet. run_model.
  rewrite Ho, Hr. run_model. change (1 - 1)%nat with 0%nat.
  unfold first_row in E1, E2.
  destruct (trim_empty _) as [|c0 row]; [contradiction|].
  rewrite bool_decide_eq_false_2 by exact E1. run_model.
  rewrite Hc. run_model. rewrite Hi. cbn [negb]. run_model.
  rewrite <- !app_assoc. reflexivity.
Qed.

End HeaderRow.

(** X17. When the sheet answers, [_get_or_create_worksheet] returns. A first row
    that is the header row, trailing empty cells apart, is left alone with
    the rest of the sheet. Any other first row that is not empty makes it
    clear the sheet: every row is lost and the header row is all there is.
    An empty sheet gets the header row. After these two cases a second call
    finds the headers and only reads the first row. *)
Theorem worksheet_setup (o : Oracle) (w : World) :
  gs_row_values o 1 = None ->
  gs_clear o = None ->
  gs_append_row o Sheets.HEADERS = None ->
  exists w',
    SheetsService._get_or_create_worksheet o w = (Ok tt, w')
    /\ files w' = files w
    /\ (first_row w = Sheets.HEADERS -> w' = record_event (EvRowValues 1) w)
    /\ (first_row w <> Sheets.HEADERS -> first_row w <> [] ->
        sheet w' = [Sheets.HEADERS]
        /\ trace w' = trace w ++ [EvRowValues 1; EvClear;
                                  EvAppendRow Sheets.HEADERS])
    /\ (sheet w = [] ->
        sheet w' = [Sheets.HEADERS]
        /\ trace w' = trace w ++ [EvRowValues 1; EvAppendRow Sheets.HEADERS])
    /\ (first_row w <> [] \/ sheet w = [] ->
        SheetsService._get_or_create_worksheet o w'
        = (Ok tt, record_event (EvRowValues 1) w')).
Proof.
  intros Hr Hc Ha.
  destruct (decide (first_row w = Sheets.HEADERS)) as [E|E].
  - exists (record_event (EvRowValues 1) w).
    split; [apply worksheet_same; assumption|]. split; [reflexivity|].
    split; [reflexivity|]. split; [intros H; contradiction|].
    split.
    + intros Hs. unfold first_row in E. rewrite Hs in E. discriminate.
    + intros _. apply worksheet_same; assumption.
  - destruct (decide (first_row w = [])) as [E0|E0].
    + eexists. split; [apply worksheet_empty; assumption|]. cbn [files sheet trace].
      split; [reflexivity|]. split; [intros H; contradiction|].
      split; [intros _ H; contradiction|].
      split.
      * intros ->. split; reflexivity.
      * intros [H|Hs]; [contradiction|]. apply worksheet_same; [assumption|].
        unfold first_row. cbn [sheet]. rewrite Hs. reflexivity.
    + eexists. split; [apply worksheet_wipe; assumption|]. cbn [files sheet trace].
      split; [reflexivity|]. split; [intros H; contradiction|].
      split; [intros _ _; split; reflexivity|].
      split.
      * intros Hs. unfold first_row in E0. rewrite Hs in E0. contradiction.
      * intros _. apply worksheet_same; [assumption|]. reflexivity.
Qed.

Lemma worksheet_setup_witness :
  let w := {| sheet := [[py "Name"; py "Link"]; [py "a"; py "b"]];
              files := ∅; trace := [] |} in
  exists w',
    SheetsService._get_or_create_worksheet Sample.all_fine w = (Ok tt, w')
    /\ sheet w' = [Sheets.HEADERS]
    /\ SheetsService._get_or_create_worksheet Sample.all_fine w'
       = (Ok tt, record_event (EvRowValues 1) w').
Proof.
  intros w.
  destruct (worksheet_setup Sample.all_fine w eq_refl eq_refl eq_refl)
    as (w' & H & _ & _ & Hwipe & _ & Hagain).
  exists w'. split; [exact H|]. split.
  - apply Hwipe; vm_compute; discriminate.
  - apply Hagain. left. vm_compute. discriminate.
Defined.

(** X18. The older manager sets its header row in the same way, except that on
    an empty first row it inserts the headers above the rows that are
    there, which it keeps. When the sheet answers, the first row is the
    header row after every call, a mismatch costs every row of the sheet,
    and a second call only reads the first row. *)
Theorem legacy_sheet_setup (c : Legacy.Config) (o : Oracle) (w : World) :
  gs_open_by_key o = None ->
  gs_row_values o 1 = None ->
  gs_clear o = None ->
  gs_insert_row o Legacy.HEADERS 1 = None ->
  exists w',
    Legacy.get_or_create_sheet c o w = (Ok tt, w')
    /\ files w' = files w
    /\ first_row w' = Legacy.HEADERS
    /\ (first_row w = Legacy.HEADERS -> w' = record_event (EvRowValues 1) w)
    /\ (first_row w = [] -> sheet w' = Legacy.HEADERS :: sheet w)
    /\ (first_row w <> Legacy.HEADERS -> first_row w <> [] ->
        sheet w' = [Legacy.HEADERS])
    /\ Legacy.get_or_create_sheet c o w'
       = (Ok tt, record_event (EvRowValues 1) w').
Proof.
  intros Ho Hr Hc Hi.
  destruct (decide (first_row w = Legacy.HEADERS)) as [E|E].
  - exists (record_event (EvRowValues 1) w).
    split; [apply legacy_sheet_same; assumption|]. split; [reflexivity|].
    split; [exact E|]. split; [reflexivity|].
    split; [intros E0; rewrite E0 in E; discriminate|].
    split; [intros H; contradiction|].
    apply legacy_sheet_same; assumption.
  - destruct (decide (first_row w = [])) as [E0|E0].
    + eexists. split; [apply legacy_sheet_insert; assumption|].
      cbn [files sheet trace].
      split; [reflexivity|]. split; [reflexivity|].
      split; [intros H; contradiction|]. split; [reflexivity|].
      split; [intros _ H; contradiction|].
      apply legacy_sheet_same; [assumption..|reflexivity].
    + eexists. split; [apply legacy_sheet_wipe; assumption|].
      cbn [files sheet trace].
      split; [reflexivity|]. split; [reflexivity|].
      split; [intros H; contradiction|].
      split; [intros H; contradiction|]. split; [reflexivity|].
      apply legacy_sheet_same; [assumption..|reflexivity].
Qed.

Lemma legacy_sheet_setup_witness :
  let w := {| sheet := [[]; [py "a"; py "b"]]; files := ∅; trace := [] |} in
  exists w',
    Legacy.get_or_create_sheet Sample.config Sample.all_fine w = (Ok tt, w')
    /\ first_row w' = Legacy.HEADERS
    /\ sheet w' = Legacy.HEADERS :: sheet w.
Proof.
  intros w.
  destruct (legacy_sheet_setup Sample.config Sample.all_fine w
              eq_refl eq_refl eq_refl eq_refl)
    as (w' & H & _ & Hf & _ & Hins & _).
  exists w'. split; [exact H|]. split; [exact Hf|].
  apply Hins. reflexivity.
Defined.

(** X19. The two managers do not agree on the header row, so each takes a sheet
    that the other has set up for a mismatch: the older manager clears a
    sheet whose first row is the header row of the app package, and the
    app package clears one whose first row is that of the older manager,
    whatever the rows below. *)
Theorem managers_wipe_each_other (c : Legacy.Config) (o : Oracle) (w : World) :
  gs_open_by_key o = None ->
  gs_row_values o 1 = None ->
  gs_clear o = None ->
  gs_insert_row o Legacy.HEADERS 1 = None ->
  gs_append_row o Sheets.HEADERS = None ->
  (first_row w = Sheets.HEADERS ->
   sheet (snd (Legacy.get_or_create_sheet c o w)) = [Legacy.HEADERS])
  /\ (first_row w = Legacy.HEADERS ->
      sheet (snd (SheetsService._get_or_create_worksheet o w))
      = [Sheets.HEADERS]).
Proof.
  intros Ho Hr Hc Hi Ha. split; intros E.
  - rewrite (legacy_sheet_wipe o Hr Hc c Ho w Hi);
      [reflexivity | rewrite E; discriminate | rewrite E; discriminate].
  - rewrite (worksheet_wipe o Hr Hc w Ha);
      [reflexivity | rewrite E; discriminate | rewrite E; discriminate].
Qed.

Lemma managers_wipe_each_other_witness :
  let w := {| sheet := [Sheets.HEADERS;
                        Sheets.row_data (Sample.settings true true)
                          Sample.all_fine Sample.md];
              files := ∅; trace := [] |} in
  sheet (snd (Legacy.get_or_create_sheet Sample.config Sample.all_fine w))
  = [Legacy.HEADERS].
Proof.
  intros w.
  apply (proj1 (managers_wipe_each_other Sample.config Sample.all_fine w
                  eq_refl eq_refl eq_refl eq_refl eq_refl)).
  reflexivity.
Defined.

(** ** Looking a video up in the sheet *)

Lemma dict_zip_lookup {V} (ks : list pystr) (l : list V) i k :
  NoDup ks -> ks !! i = Some k ->
  (list_to_map (zip ks l) : gmap pystr V) !! k = l !! i.
Proof.
  intros Hnd. revert i l. induction Hnd as [|k0 ks Hk0 Hnd IH]; intros i l Hi.
  - destruct i; discriminate.
  - destruct l as [|x l]; [destruct i; reflexivity|].
    cbn [zip zip_with list_to_map foldr curry fst snd].
    destruct i as [|j]; cbn in Hi.
    + injection Hi as ->. apply lookup_insert_eq.
    + rewrite lookup_insert_ne.
      * change ((x :: l) !! S j) with (l !! j). apply IH, Hi.
      * intros ->. apply Hk0. eapply list_elem_of_lookup_2, Hi.
Qed.

Lemma headers_nodup : NoDup Sheets.HEADERS.
Proof. apply (bool_decide_unpack _). vm_compute. exact I. Qed.

(** X20. [get_video_info] of the sheet service looks for a cell that equals its
    argument in every column: when there is none it returns [None] after
    that one call, and when there is one it returns the cells of the first
    row that has one, each under the header of its column. The row comes
    without its trailing empty cells, so the dict has no key for them. *)
Theorem sheet_lookup_result (o : Oracle) (key : pystr) (w : World) :
  gs_find o key = None ->
  (forall row, gs_row_values o row = None) ->
  (find_from key (sheet w) 1 = None ->
   SheetsService.get_video_info o key w
   = (Ok None, record_event (EvFind key) w))
  /\ (forall row col,
        find_from key (sheet w) 1 = Some (row, col) ->
        exists d,
          SheetsService.get_video_info o key w
          = (Ok (Some d),
             {| sheet := sheet w; files := files w;
                trace := trace w ++ [EvFind key; EvRowValues row] |})
          /\ forall i h,
               Sheets.HEADERS !! i = Some h ->
               d !! h
               = trim_empty (default [] (sheet w !! (row - 1)%nat)) !! i).
Proof.
  intros Hf Hr. split.
  - intros E. unfold SheetsService.get_video_info. run_model.
    rewrite Hf. run_model. rewrite E. reflexivity.
  - intros row col E. unfold SheetsService.get_video_info. run_model.
    rewrite Hf. run_model. rewrite E. run_model. rewrite Hr. run_model.
    eexists. split; [rewrite <- app_assoc; reflexivity|].
    intros i h Hi. apply dict_zip_lookup; [apply headers_nodup | exact Hi].
Qed.

Lemma sheet_lookup_result_witness :
  let s := Sample.settings true true in
  let w := Sample.registered s Sample.all_fine in
  SheetsService.get_video_info Sample.all_fine Sample.video_id w
  = (Ok None, record_event (EvFind Sample.video_id) w)
  /\ exists d,
       fst (SheetsService.get_video_info Sample.all_fine
              (md_title Sample.md) w) = Ok (Some d)
       /\ d !! py "Title" = Some (md_title Sample.md)
       /\ d !! py "Drive File ID" = Some []
       /\ d !! py "Upload Status" = Some (py "Pending").
Proof.
  intros s w. split.
  - apply (proj1 (sheet_lookup_result Sample.all_fine Sample.video_id w
                    eq_refl (fun _ => eq_refl))).
    vm_compute. reflexivity.
  - destruct (proj2 (sheet_lookup_result Sample.all_fine (md_title Sample.md) w
                        eq_refl (fun _ => eq_refl)) 2%nat 1%nat)
      as (d & H & Hd); [vm_compute; reflexivity|].
    exists d. split; [rewrite H; reflexivity|].
    split; [|split].
    + rewrite (Hd 0%nat) by reflexivity. reflexivity.
    + rewrite (Hd 4%nat) by reflexivity. reflexivity.
    + rewrite (Hd 9%nat) by reflexivity. reflexivity.
Defined.

(** ** The older manager, general statements *)

(** X21. What the older validator returns matches the pattern of an id, and
    what it raises is a [ValidationError], whatever the library answers; an
    id, with or without white space around it, is returned without the
    white space, and the empty string is refused for being empty. *)
Theorem legacy_validate_result (L : UrlLib) (url : pystr) :
  match Legacy.validate_youtube_url L url with
  | Ok v => re_match_id v = true
  | Raise e => exc_cls e = ValidationError
  end
  /\ (is_video_id (strip isspace url) = true ->
      Legacy.validate_youtube_url L url = Ok (strip isspace url))
  /\ (url = [] ->
      Legacy.validate_youtube_url L url
      = Raise (Exc ValidationError (py "URL cannot be empty"))).
Proof.
  split; [|split].
  - unfold Legacy.validate_youtube_url.
    destruct (truthy url); [|reflexivity]. cbn [negb].
    assert (H : forall x, match Legacy.extract_video_id_from_url L x with
                          | Ok _ => True
                          | Raise e => exc_cls e = ValidationError
                          end).
    { intros x. unfold Legacy.extract_video_id_from_url, rtry.
      match goal with |- match match ?b with _ => _ end with _ => _ end =>
        destruct b as [v|e] eqn:E end; [exact I|].
      destruct (isinstance e ValidationError) eqn:Hi; [|reflexivity].
      unfold isinstance in Hi. destruct e as [c m]. cbn in *.
      destruct c; try discriminate; reflexivity. }
    specialize (H (strip isspace url)).
    destruct (Legacy.extract_video_id_from_url L (strip isspace url))
      as [v|e]; cbn [rbind]; [|exact H].
    destruct (re_match_id v) eqn:Hm; [exact Hm | reflexivity].
  - intros Hid.
    pose proof (is_video_id_match _ Hid) as Hm.
    unfold Legacy.validate_youtube_url.
    destruct url as [|c t]; [discriminate|]. cbn [truthy negb].
    unfold Legacy.extract_video_id_from_url. rewrite Hm. cbn [rtry rbind].
    rewrite Hm. reflexivity.
  - intros ->. reflexivity.
Qed.

Lemma legacy_sheet_no_upload c o :
  keeps (calls_only not_upload) (Legacy.get_or_create_sheet c o).
Proof.
  unfold Legacy.get_or_create_sheet, row_values, insert_row, clear. keeps_auto.
Qed.

Lemma legacy_data_no_upload c o url :
  keeps (calls_only not_upload) (Legacy.get_video_data c o url).
Proof. unfold Legacy.get_video_data. keeps_auto. Qed.

Lemma legacy_download_no_upload c o url :
  keeps (calls_only not_upload) (Legacy.download_video c o url).
Proof.
  unfold Legacy.download_video, Legacy.ensure_video_dir, Legacy.swallow,
    mkdir, rename, copy2, unlink, exists_.
  keeps_auto.
Qed.

Lemma legacy_cleanup_no_upload o p :
  keeps (calls_only not_upload) (Legacy.cleanup o p).
Proof.
  unfold Legacy.cleanup, Legacy.swallow, unlink, exists_. keeps_auto.
Qed.

(** With [KEEP_FILE] off and an [unlink] that is allowed, the path that
    [download_video] returns is that of a file it has already deleted. *)
Lemma legacy_download_deletes c o url w p w' :
  Legacy.KEEP_FILE c = false ->
  (forall q, os_unlink o q = None) ->
  Legacy.download_video c o url w = (Ok p, w') ->
  files w' !! p = None.
Proof.
  intros Hk Hu. unfold Legacy.download_video, Legacy.ensure_video_dir,
    Legacy.swallow. rewrite Hk. cbn [negb andb]. run_model.
  intros H.
  repeat (case_match; simplify_eq; cbn [files sheet trace] in * );
    rewrite ?Hu in *; simplify_eq;
    try match goal with
        | H : bool_decide (is_Some ?x) = false |- _ =>
            apply bool_decide_eq_false_1 in H;
            destruct x eqn:?; [exfalso; apply H; eauto | ]
        end;
    try apply lookup_delete_eq; try assumption; try congruence.
Qed.

Lemma legacy_upload_missing o p w :
  files w !! p = None ->
  Legacy.upload_to_drive o p w
  = (Raise (Exc GoogleDriveError
       (py "Upload failed: File validation failed: File not found: " ++ p)), w).
Proof.
  intros E. unfold Legacy.upload_to_drive, Legacy.validate_file_exists.
  run_model. rewrite E.
  rewrite bool_decide_eq_false_2 by (intros [? ?]; discriminate).
  reflexivity.
Qed.

Lemma legacy_cleanup_missing o p w :
  files w !! p = None -> Legacy.cleanup o p w = (Ok tt, w).
Proof.
  intros E. unfold Legacy.cleanup. run_model. rewrite E.
  rewrite bool_decide_eq_false_2 by (intros [? ?]; discriminate).
  reflexivity.
Qed.

(** X22. With [KEEP_FILE] off the older manager cannot succeed: when the
    [unlink] is allowed, [download_video] deletes the file it has just
    renamed, so the upload finds no file. No run returns, none makes an
    upload call, and a run whose download returned raises the
    [GoogleDriveError] of the missing file. *)
Theorem legacy_keep_file_off_never_uploads L c o url w :
  Legacy.KEEP_FILE c = false ->
  (forall q, os_unlink o q = None) ->
  (forall b, fst (Legacy.process_video L c o url w) <> Ok b)
  /\ calls_only not_upload w (snd (Legacy.process_video L c o url w))
  /\ (forall vid w1 data w2 p w3,
        Legacy.validate_youtube_url L url = Ok vid ->
        Legacy.get_or_create_sheet c o w = (Ok tt, w1) ->
        Legacy.get_video_data c o (py "https://www.youtube.com/watch?v=" ++ vid) w1
        = (Ok data, w2) ->
        Legacy.download_video c o (py "https://www.youtube.com/watch?v=" ++ vid) w2
        = (Ok p, w3) ->
        Legacy.process_video L c o url w
        = (Raise (Exc GoogleDriveError
             (py "Upload failed: File validation failed: File not found: " ++ p)),
           w3)).
Proof.
  intros Hk Hu.
  assert (Hrun : forall vid w1 data w2 p w3,
        Legacy.validate_youtube_url L url = Ok vid ->
        Legacy.get_or_create_sheet c o w = (Ok tt, w1) ->
        Legacy.get_video_data c o (py "https://www.youtube.com/watch?v=" ++ vid) w1
        = (Ok data, w2) ->
        Legacy.download_video c o (py "https://www.youtube.com/watch?v=" ++ vid) w2
        = (Ok p, w3) ->
        Legacy.process_video L c o url w
        = (Raise (Exc GoogleDriveError
             (py "Upload failed: File validation failed: File not found: " ++ p)),
           w3)).
  { intros vid w1 data w2 p w3 Hv Hs Hg Hd.
    pose proof (legacy_download_deletes _ _ _ _ _ _ Hk Hu Hd) as Hgone.
    pose proof (legacy_data_length _ _ _ _ _ _ Hg) as Hlen.
    unfold Legacy.process_video, bind, lift. rewrite Hv, Hs, Hg.
    destruct data as [|x data]; [discriminate|]. rewrite Hd.
    unfold try_finally.
    rewrite (legacy_upload_missing _ _ _ Hgone).
    rewrite (legacy_cleanup_missing _ _ _ Hgone). reflexivity. }
  split; [|split; [|exact Hrun]].
  - intros b.
    destruct (Legacy.validate_youtube_url L url) as [vid|e] eqn:Hv.
    2:{ unfold Legacy.process_video, bind, lift. rewrite Hv. discriminate. }
    destruct (Legacy.get_or_create_sheet c o w) as [[[]|e] w1] eqn:Hs.
    2:{ unfold Legacy.process_video, bind, lift. rewrite Hv, Hs. discriminate. }
    destruct (Legacy.get_video_data c o
                (py "https://www.youtube.com/watch?v=" ++ vid) w1)
      as [[data|e] w2] eqn:Hg.
    2:{ unfold Legacy.process_video, bind, lift. rewrite Hv, Hs, Hg.
        discriminate. }
    destruct (Legacy.download_video c o
                (py "https://www.youtube.com/watch?v=" ++ vid) w2)
      as [[p|e] w3] eqn:Hd.
    + rewrite (Hrun _ _ _ _ _ _ eq_refl eq_refl Hg Hd). discriminate.
    + unfold Legacy.process_video, bind, lift. rewrite Hv, Hs, Hg.
      destruct data; [discriminate|]. rewrite Hd. discriminate.
  - destruct (Legacy.validate_youtube_url L url) as [vid|e] eqn:Hv.
    2:{ unfold Legacy.process_video, bind, lift. rewrite Hv.
        apply frame_refl. }
    destruct (Legacy.get_or_create_sheet c o w) as [[[]|e] w1] eqn:Hs.
    2:{ unfold Legacy.process_video, bind, lift. rewrite Hv, Hs.
        exact (legacy_sheet_no_upload _ _ _ _ _ Hs). }
    pose proof (legacy_sheet_no_upload _ _ _ _ _ Hs) as C1.
    destruct (Legacy.get_video_data c o
                (py "https://www.youtube.com/watch?v=" ++ vid) w1)
      as [[data|e] w2] eqn:Hg.
    2:{ unfold Legacy.process_video, bind, lift. rewrite Hv, Hs, Hg.
        exact (frame_trans _ _ _ C1 (legacy_data_no_upload _ _ _ _ _ _ Hg)). }
    pose proof (frame_trans _ _ _ C1 (legacy_data_no_upload _ _ _ _ _ _ Hg))
      as C2.
    destruct (Legacy.download_video c o
                (py "https://www.youtube.com/watch?v=" ++ vid) w2)
      as [[p|e] w3] eqn:Hd.
    + rewrite (Hrun _ _ _ _ _ _ eq_refl eq_refl Hg Hd).
      exact (frame_trans _ _ _ C2 (legacy_download_no_upload _ _ _ _ _ _ Hd)).
    + unfold Legacy.process_video, bind, lift. rewrite Hv, Hs, Hg.
      destruct data; [exact C2|]. rewrite Hd.
      exact (frame_trans _ _ _ C2 (legacy_download_no_upload _ _ _ _ _ _ Hd)).
Qed.

Lemma legacy_keep_file_off_never_uploads_witness :
  let c := {| Legacy.ROOT_DIR := py "/srv/app";
              Legacy.SPREADSHEET_ID := py "sheet-1";
              Legacy.PLAYLIST_ID := py "NOTHINHG";
              Legacy.KEEP_FILE := false |} in
  let r := Legacy.process_video PyUrllib.lib c Sample.all_fine Sample.video_id
             Sample.legacy_world in
  (forall b, fst r <> Ok b)
  /\ calls_only not_upload Sample.legacy_world (snd r)
  /\ fst r
     = Raise (Exc GoogleDriveError
         (py "Upload failed: File validation failed: File not found: /srv/app/Videos/Never Gonna_ Give You Up_dQw4w9WgXcQ.mp4")).
Proof.
  intros c r.
  destruct (legacy_keep_file_off_never_uploads PyUrllib.lib c Sample.all_fine
              Sample.video_id Sample.legacy_world eq_refl (fun _ => eq_refl))
    as (H1 & H2 & _).
  split; [exact H1|]. split; [exact H2|].
  vm_compute. reflexivity.
Defined.

Lemma legacy_upload_files o p : keeps same_files (Legacy.upload_to_drive o p).
Proof.
  unfold Legacy.upload_to_drive, Legacy.validate_file_exists, exists_.
  keeps_auto.
Qed.

Lemma legacy_update_files o data fid :
  keeps same_files (Legacy.update_spreadsheet o data fid).
Proof.
  unfold Legacy.update_spreadsheet, col_values, append_row. keeps_auto.
Qed.

Lemma finally_cleanup {A} (m : M A) o p w :
  keeps same_files m ->
  os_unlink o p = None ->
  files (snd (try_finally m (Legacy.cleanup o p) w)) = delete p (files w)
  /\ fst (try_finally m (Legacy.cleanup o p) w) = fst (m w).
Proof.
  intros Hm Hu. unfold try_finally.
  destruct (m w) as [r w1] eqn:E. apply Hm in E. unfold same_files in E.
  unfold Legacy.cleanup, Legacy.swallow. run_model. rewrite Hu.
  destruct (files w1 !! p) as [n|] eqn:Ep.
  - rewrite bool_decide_eq_true_2 by eauto. run_model. rewrite Ep.
    cbn [fst snd files]. rewrite E. split; reflexivity.
  - rewrite bool_decide_eq_false_2 by (intros [? ?]; discriminate).
    cbn [fst snd files].
    rewrite <- E. rewrite delete_id by exact Ep. split; reflexivity.
Qed.

(** X23. Once the download of the older manager has returned a path, the
    [finally] block deletes the file at that path whether the run returns
    or raises, [KEEP_FILE] or not: when the [unlink] is allowed, the files
    after the run are those the download left, without that one. *)
Theorem legacy_finally_removes_file L c o url w vid w1 data w2 p w3 :
  Legacy.validate_youtube_url L url = Ok vid ->
  Legacy.get_or_create_sheet c o w = (Ok tt, w1) ->
  Legacy.get_video_data c o (py "https://www.youtube.com/watch?v=" ++ vid) w1
  = (Ok data, w2) ->
  Legacy.download_video c o (py "https://www.youtube.com/watch?v=" ++ vid) w2
  = (Ok p, w3) ->
  os_unlink o p = None ->
  files (snd (Legacy.process_video L c o url w)) = delete p (files w3)
  /\ files (snd (Legacy.process_video L c o url w)) !! p = None.
Proof.
  intros Hv Hs Hg Hd Hu.
  pose proof (legacy_data_length _ _ _ _ _ _ Hg) as Hlen.
  assert (H : files (snd (Legacy.process_video L c o url w))
              = delete p (files w3)).
  { unfold Legacy.process_video, bind at 1 2 3 4, lift. rewrite Hv, Hs, Hg.
    destruct data as [|x data]; [discriminate|]. rewrite Hd.
    apply finally_cleanup; [|exact Hu].
    apply keeps_bind; [exact _ | apply legacy_upload_files |].
    intros [fid|]; [|apply keeps_raise; exact _].
    destruct (truthy fid); [apply legacy_update_files|].
    apply keeps_raise; exact _. }
  split; [exact H|]. rewrite H. apply lookup_delete_eq.
Qed.

Lemma legacy_finally_removes_file_witness :
  let o := Sample.oracle Sample.info (Some 1048576)
             (UploadChunkRaises (Exc HttpError (py "HttpError 403"))) in
  let r := Legacy.process_video PyUrllib.lib Sample.config o Sample.video_id
             Sample.legacy_world in
  fst r = Raise (Exc GoogleDriveError (py "Upload failed: HttpError 403"))
  /\ files (snd r)
     !! py "/srv/app/Videos/Never Gonna_ Give You Up_dQw4w9WgXcQ.mp4" = None.
Proof.
  intros o r. split; [vm_compute; reflexivity|].
  destruct (Legacy.get_video_data Sample.config o
              (py "https://www.youtube.com/watch?v=" ++ Sample.video_id)
              (record_event (EvRowValues 1) Sample.legacy_world))
    as [rg w2] eqn:Hg.
  assert (Hrg : exists data, rg = Ok data).
  { apply (f_equal fst) in Hg. simpl in Hg. rewrite <- Hg.
    eexists. vm_compute. reflexivity. }
  destruct Hrg as [data ->].
  destruct (Legacy.download_video Sample.config o
              (py "https://www.youtube.com/watch?v=" ++ Sample.video_id) w2)
    as [rd w3] eqn:Hd.
  assert (Hrd : rd = Ok (py "/srv/app/Videos/Never Gonna_ Give You Up_dQw4w9WgXcQ.mp4")).
  { assert (Hw2 : w2 = snd (Legacy.get_video_data Sample.config o
              (py "https://www.youtube.com/watch?v=" ++ Sample.video_id)
              (record_event (EvRowValues 1) Sample.legacy_world)))
      by (rewrite Hg; reflexivity).
    apply (f_equal fst) in Hd. simpl in Hd. rewrite <- Hd, Hw2.
    vm_compute. reflexivity. }
  subst rd.
  exact (proj2 (legacy_finally_removes_file PyUrllib.lib Sample.config o
                  Sample.video_id Sample.legacy_world Sample.video_id
                  (record_event (EvRowValues 1) Sample.legacy_world)
                  data w2 _ w3 eq_refl eq_refl Hg Hd eq_refl)).
Defined.

(** X24. [update_spreadsheet] on a row of fewer than ten cells raises before it
    asks the sheet anything. On a row of ten or more it reads column 7 and
    then either returns [False] without writing, when the id of the row is
    in that column, or appends the row with the file id in its ninth cell
    and [Completed] in its tenth and returns [True]. *)
Theorem update_spreadsheet_result (o : Oracle) (data : list pystr)
    (fid : pystr) (w : World) :
  ((length data < 10)%nat ->
   Legacy.update_spreadsheet o data fid w
   = (Raise (Exc GoogleSheetsError
        (py "Spreadsheet update failed: list assignment index out of range")),
      w))
  /\ (forall id,
        (10 <= length data)%nat ->
        data !! 6%nat = Some id ->
        gs_col_values o 7 = None ->
        let row := <[9%nat := py "Completed"]> (<[8%nat := fid]> data) in
        gs_append_row o row = None ->
        Legacy.update_spreadsheet o data fid w
        = if Validators.str_in id (column_of 7 (sheet w))
          then (Ok false, record_event (EvColValues 7) w)
          else (Ok true,
                {| sheet := sheet w ++ [row]; files := files w;
                   trace := trace w ++ [EvColValues 7; EvAppendRow row] |})).
Proof.
  split.
  - intros Hlen. unfold Legacy.update_spreadsheet, Legacy.setitem.
    destruct (8 <? length data)%nat eqn:E8.
    + apply Nat.ltb_lt in E8.
      assert (length data = 9%nat) as Hl by lia.
      run_model. rewrite length_insert, Hl. reflexivity.
    + reflexivity.
  - intros id Hlen Hid Hcol row Happ.
    unfold Legacy.update_spreadsheet, Legacy.setitem, Validators.index.
    assert (E8 : (8 <? length data)%nat = true) by (apply Nat.ltb_lt; lia).
    assert (E9 : (9 <? length data)%nat = true) by (apply Nat.ltb_lt; lia).
    rewrite E8. run_model. rewrite length_insert, E9. run_model.
    rewrite !list_lookup_insert_ne by discriminate. rewrite Hid. run_model.
    rewrite Hcol. run_model.
    destruct (Validators.str_in id (column_of 7 (sheet w))); [reflexivity|].
    run_model. fold row. rewrite Happ. run_model.
    rewrite <- app_assoc. reflexivity.
Qed.

Lemma update_spreadsheet_result_witness :
  let data := [py "t"; py "d"; py ""; py ""; py ""; py "pl"; py "abcdefghijk";
               py "2020-01-01"; py ""; py "Pending"] in
  Legacy.update_spreadsheet Sample.all_fine data (py "F1") Sample.legacy_world
  = (Ok true,
     {| sheet := [Legacy.HEADERS;
                  [py "t"; py "d"; py ""; py ""; py ""; py "pl";
                   py "abcdefghijk"; py "2020-01-01"; py "F1";
                   py "Completed"]];
        files := ∅;
        trace := [EvColValues 7;
                  EvAppendRow
                    [py "t"; py "d"; py ""; py ""; py ""; py "pl";
                     py "abcdefghijk"; py "2020-01-01"; py "F1";
                     py "Completed"]] |})
  /\ Legacy.update_spreadsheet Sample.all_fine [py "t"] (py "F1")
       Sample.legacy_world
     = (Raise (Exc GoogleSheetsError
          (py "Spreadsheet update failed: list assignment index out of range")),
        Sample.legacy_world).
Proof.
  intros data. split.
  - exact (proj2 (update_spreadsheet_result Sample.all_fine data (py "F1")
                    Sample.legacy_world) (py "abcdefghijk")
             (Nat.le_refl 10) eq_refl eq_refl eq_refl).
  - apply (proj1 (update_spreadsheet_result Sample.all_fine [py "t"] (py "F1")
                    Sample.legacy_world)).
    cbn. lia.
Defined.

(** X25. The older manager has none of the checks of the app package: for
    whatever the extractor returns it builds a row of ten cells, with an
    empty cell for a missing id or title, an empty drive file id and
    [Pending] as status; while [get_video_info] of the app package raises
    as soon as the dict is a playlist, a live stream or age-limited, or has
    no id or no title. *)
Theorem legacy_data_unfiltered (c : Legacy.Config) (o : Oracle) (url : pystr)
    (w : World) (i : ydl_info) :
  ydl_extract_info o url = Ok (Some i) ->
  (exists data,
     Legacy.get_video_data c o url w
     = (Ok data, record_event (EvExtractInfo url false) w)
     /\ length data = 10%nat
     /\ data !! 0%nat = Some (default [] (info_title i))
     /\ data !! 5%nat = Some (Legacy.PLAYLIST_ID c)
     /\ data !! 6%nat = Some (default [] (info_id i))
     /\ data !! 8%nat = Some []
     /\ data !! 9%nat = Some (py "Pending"))
  /\ (has_entries i = true \/ is_live i = true \/ (0 < age_limit i)%Z
      \/ info_id i = None \/ info_title i = None ->
      exists e,
        Downloader.get_video_info o url w
        = (Raise e, record_event (EvExtractInfo url false) w)
        /\ exc_cls e = DownloadError).
Proof.
  intros Hi. split.
  - unfold Legacy.get_video_data. run_model. rewrite Hi. run_model.
    eexists. split; [reflexivity|]. repeat split.
  - intros Hbad.
    destruct (Downloader.get_video_info o url w) as [[md|e] w'] eqn:Hg.
    + exfalso.
      pose proof (get_video_info_run _ _ _ _ _ Hg) as ->.
      revert Hg. unfold Downloader.get_video_info, getitem. run_model.
      rewrite Hi. run_model.
      destruct (has_entries i) eqn:E1; [discriminate|].
      destruct (is_live i) eqn:E2; [discriminate|].
      destruct (0 <? age_limit i)%Z eqn:E3; [discriminate|].
      destruct (info_id i) as [id|] eqn:E4; [|discriminate].
      destruct (info_title i) as [t|] eqn:E5; [|discriminate].
      apply Z.ltb_ge in E3.
      destruct Hbad as [H|[H|[H|[H|H]]]]; try discriminate. lia.
    + exists e. rewrite (get_video_info_run _ _ _ _ _ Hg). split; [reflexivity|].
      exact (get_video_info_raises _ _ _ _ _ Hg).
Qed.

Lemma legacy_data_unfiltered_witness :
  let o := Sample.oracle Sample.live_info None (UploadResponse None) in
  (exists data,
     fst (Legacy.get_video_data Sample.config o Sample.video_id
            Sample.legacy_world) = Ok data
     /\ data !! 0%nat = Some (py "Live now"))
  /\ exists e,
       fst (Downloader.get_video_info o Sample.video_id Sample.legacy_world)
       = Raise e
       /\ exc_cls e = DownloadError.
Proof.
  intros o.
  destruct (legacy_data_unfiltered Sample.config o Sample.video_id
              Sample.legacy_world Sample.live_info eq_refl)
    as [(data & H & _ & H0 & _) Hbad].
  split.
  - exists data. rewrite H. split; [reflexivity | exact H0].
  - destruct Hbad as (e & He & Hc); [right; left; reflexivity|].
    exists e. rewrite He. split; [reflexivity | exact Hc].
Defined.

(** ** Durations *)

Lemma chars_uint_chars d : chars_uint (Formatting.uint_chars d) = Some d.
Proof. induction d; simpl; rewrite ?IHd; reflexivity. Qed.

Lemma uint_chars_no_colon d :
  Forall (fun c => c <> 58) (Formatting.uint_chars d).
Proof. induction d; simpl; constructor; try assumption; discriminate. Qed.

Lemma to_uint_not_nil n : N.to_uint n <> Decimal.Nil.
Proof.
  destruct n as [|p]; [discriminate|]. simpl.
  intros H. apply (f_equal Pos.of_uint) in H.
  rewrite DecimalPos.Unsigned.of_to in H. discriminate.
Qed.

Lemma str_int_value z :
  (0 <= z)%Z ->
  Formatting.str_int z = Formatting.uint_chars (N.to_uint (Z.to_N z))
  /\ digits_value (Formatting.str_int z) = Some z
  /\ Forall (fun c => c <> 58) (Formatting.str_int z).
Proof.
  intros Hz. unfold Formatting.str_int.
  destruct (z <? 0)%Z eqn:E; [apply Z.ltb_lt in E; lia|].
  split; [reflexivity|]. split; [|apply uint_chars_no_colon].
  unfold digits_value.
  destruct (Formatting.uint_chars (N.to_uint (Z.to_N z))) as [|c t] eqn:Ec.
  - exfalso. apply (to_uint_not_nil (Z.to_N z)).
    destruct (N.to_uint (Z.to_N z)); simpl in Ec; try discriminate.
    reflexivity.
  - rewrite <- Ec, chars_uint_chars, DecimalN.Unsigned.of_to.
    rewrite Z2N.id by exact Hz. reflexivity.
Qed.

Lemma format_02d_value z :
  (0 <= z)%Z ->
  digits_value (Formatting.format_02d z) = Some z
  /\ Forall (fun c => c <> 58) (Formatting.format_02d z).
Proof.
  intros Hz. destruct (str_int_value z Hz) as (Hs & Hv & Hc).
  unfold Formatting.format_02d.
  destruct (z <? 0)%Z eqn:E; [apply Z.ltb_lt in E; lia|].
  destruct (z <? 10)%Z; [|split; assumption].
  split; [|constructor; [discriminate | exact Hc]].
  rewrite Hs. unfold digits_value.
  change (chars_uint (48 :: ?t))
    with (match chars_uint t with Some d => Some (Decimal.D0 d) | None => None end).
  rewrite chars_uint_chars.
  change (N.of_uint (Decimal.D0 ?d)) with (N.of_uint d).
  rewrite DecimalN.Unsigned.of_to, Z2N.id by exact Hz. reflexivity.
Qed.

Lemma split_colon_field a rest cur :
  Forall (fun c => c <> 58) a ->
  split_go (py ":") (a ++ 58 :: rest) 0 cur
  = (rev cur ++ a) :: split_go (py ":") rest 0 [].
Proof.
  intros Ha. revert cur. induction Ha as [|c a Hc Ha IH]; intros cur.
  - rewrite app_nil_r. reflexivity.
  - cbn [app].
    change (split_go (py ":") (c :: a ++ 58 :: rest) 0 cur)
      with (if is_prefix (py ":") (c :: a ++ 58 :: rest)
            then rev cur :: split_go (py ":") (a ++ 58 :: rest)
                              (length (py ":") - 1) []
            else split_go (py ":") (a ++ 58 :: rest) 0 (c :: cur)).
    change (is_prefix (py ":") (c :: a ++ 58 :: rest))
      with ((58 =? c) && true).
    destruct (58 =? c) eqn:E; [apply N.eqb_eq in E; congruence|].
    cbn [andb]. rewrite IH. cbn [rev]. rewrite <- app_assoc. reflexivity.
Qed.

Lemma split_colon_last a cur :
  Forall (fun c => c <> 58) a ->
  split_go (py ":") a 0 cur = [rev cur ++ a].
Proof. apply split_go_absent. left. reflexivity. Qed.

(** X26. For a duration that is not negative, the seconds can be read back from
    what [format_duration] prints: the fields between the colons are
    decimal numbers, minutes and hours count sixty and 3600 seconds, and
    the sum is the duration. So two such durations with the same text are
    the same. *)
Theorem format_duration_round_trip (s : Z) :
  (0 <= s)%Z ->
  parse_duration (Formatting.format_duration s) = Some s
  /\ forall t, (0 <= t)%Z ->
       Formatting.format_duration t = Formatting.format_duration s -> t = s.
Proof.
  assert (H : forall s, (0 <= s)%Z ->
            parse_duration (Formatting.format_duration s) = Some s).
  { clear s. intros s Hs.
    assert (Hh : (0 <= s / 3600)%Z) by (apply Z.div_pos; lia).
    assert (Hm : (0 <= (s mod 3600) / 60)%Z).
    { apply Z.div_pos; [|lia]. apply Z.mod_pos_bound. lia. }
    assert (Hsec : (0 <= s mod 60)%Z) by (apply Z.mod_pos_bound; lia).
    destruct (str_int_value _ Hh) as (_ & Vh & Ch).
    destruct (str_int_value _ Hm) as (_ & Vm & Cm).
    destruct (format_02d_value _ Hm) as (Vm2 & Cm2).
    destruct (format_02d_value _ Hsec) as (Vs2 & Cs2).
    assert (Hsum : (s / 3600 * 3600 + (s mod 3600) / 60 * 60 + s mod 60 = s)%Z).
    { pose proof (Z.div_mod s 3600 ltac:(lia)) as D1.
      pose proof (Z.div_mod (s mod 3600) 60 ltac:(lia)) as D2.
      assert (D3 : ((s mod 3600) mod 60 = s mod 60)%Z).
      { apply Z.mod_mod_divide. exists 60%Z. reflexivity. }
      lia. }
    unfold Formatting.format_duration, parse_duration, split.
    change (py ":") with [58].
    destruct (0 <? s / 3600)%Z eqn:E.
    - cbn [app].
      rewrite (split_colon_field _ _ [] Ch).
      rewrite (split_colon_field _ _ [] Cm2).
      rewrite (split_colon_last _ [] Cs2).
      cbn [rev app List.map]. rewrite Vh, Vm2, Vs2. f_equal. lia.
    - apply Z.ltb_ge in E. assert (E0 : (s / 3600 = 0)%Z) by lia.
      cbn [app].
      rewrite (split_colon_field _ _ [] Cm).
      rewrite (split_colon_last _ [] Cs2).
      cbn [rev app List.map]. rewrite Vm, Vs2. f_equal. lia. }
  intros Hs. split; [apply H, Hs|].
  intros t Ht E. apply H in Ht. rewrite E, (H s Hs) in Ht. congruence.
Qed.

Lemma format_duration_round_trip_witness :
  Formatting.format_duration 3725 = py "1:02:05"
  /\ parse_duration (Formatting.format_duration 3725) = Some 3725%Z.
Proof.
  split; [vm_compute; reflexivity|].
  apply (proj1 (format_duration_round_trip 3725 ltac:(lia))).
Defined.

(** X27. Below one hour, and so for every negative number too, the text is that
    of the remainder modulo 3600: a duration of minus one second prints as
    59:59, like 3599 seconds. *)
Theorem format_duration_wraps (s : Z) :
  (s < 3600)%Z ->
  Formatting.format_duration s = Formatting.format_duration (s mod 3600).
Proof.
  intros Hs. unfold Formatting.format_duration.
  pose proof (Z.mod_pos_bound s 3600 ltac:(lia)) as Hb.
  assert (H1 : (s / 3600 <= 0)%Z).
  { apply Z.lt_succ_r. apply Z.div_lt_upper_bound; lia. }
  assert (H2 : ((s mod 3600) / 3600 = 0)%Z) by (apply Z.div_small; lia).
  assert (H3 : ((s mod 3600) mod 3600 = s mod 3600)%Z)
    by (apply Z.mod_small; lia).
  assert (H4 : ((s mod 3600) mod 60 = s mod 60)%Z).
  { apply Z.mod_mod_divide. exists 60%Z. reflexivity. }
  rewrite H2, H3, H4.
  destruct (0 <? s / 3600)%Z eqn:E; [apply Z.ltb_lt in E; lia|].
  reflexivity.
Qed.

Lemma format_duration_wraps_witness :
  Formatting.format_duration (-1) = py "59:59"
  /\ Formatting.format_duration (-1) = Formatting.format_duration 3599.
Proof.
  split; [vm_compute; reflexivity|].
  exact (format_duration_wraps (-1) ltac:(lia)).
Defined.

(** ** The settings *)

Lemma lower_char_letter c l :
  97 <= l -> l <= 122 ->
  PyUrllib.lower_char c = l <-> c = l \/ c = l - 32.
Proof.
  intros H1 H2. unfold PyUrllib.lower_char.
  destruct ((65 <=? c) && (c <=? 90)) eqn:E.
  - apply andb_true_iff in E as [Ea Eb].
    apply N.leb_le in Ea, Eb. lia.
  - apply andb_false_iff in E as [E|E]; apply N.leb_gt in E; lia.
Qed.

(** X28. What [Settings()] makes of the environment. When it returns, the two
    required ids were set and not empty, the playlist id is the variable or
    [None], and each of the two switches is on when its variable is unset
    or is the word [true] in any mix of cases, and off for every other
    value. A number that [int] refuses is reported before a missing id;
    with the numbers in order, a spreadsheet id that is unset or empty is
    reported whatever the folder id. *)
Theorem settings_init_result (int : pystr -> res Z) (base_dir : pystr)
    (env : gmap pystr pystr) :
  let switch (key : string) := match env !! py key with
                    | None => true
                    | Some v => SettingsLoader.is_true v
                    end in
  (forall l,
     SettingsLoader.init int base_dir env = Ok l ->
     env !! py "SPREADSHEET_ID" = Some (SettingsLoader.SPREADSHEET_ID l)
     /\ SettingsLoader.SPREADSHEET_ID l <> []
     /\ env !! py "DRIVE_FOLDER_ID" = Some (SettingsLoader.DRIVE_FOLDER_ID l)
     /\ SettingsLoader.DRIVE_FOLDER_ID l <> []
     /\ BASE_DIR (SettingsLoader.settings l) = base_dir
     /\ PLAYLIST_ID (SettingsLoader.settings l) = env !! py "PLAYLIST_ID"
     /\ KEEP_FILES (SettingsLoader.settings l) = switch "KEEP_FILES"%string
     /\ UPLOAD_TO_DRIVE (SettingsLoader.settings l) = switch "UPLOAD_TO_DRIVE"%string
     /\ int (default (py "52428800") (env !! py "CHUNK_SIZE"))
        = Ok (SettingsLoader.CHUNK_SIZE l)
     /\ int (default (py "3") (env !! py "MAX_RETRIES"))
        = Ok (SettingsLoader.MAX_RETRIES l))
  /\ (forall e,
        int (default (py "52428800") (env !! py "CHUNK_SIZE")) = Raise e ->
        SettingsLoader.init int base_dir env = Raise e)
  /\ (forall cs mr,
        int (default (py "52428800") (env !! py "CHUNK_SIZE")) = Ok cs ->
        int (default (py "3") (env !! py "MAX_RETRIES")) = Ok mr ->
        default [] (env !! py "SPREADSHEET_ID") = [] ->
        SettingsLoader.init int base_dir env
        = Raise (Exc ValueError
                   (py "SPREADSHEET_ID environment variable is required")))
  /\ (forall v,
        SettingsLoader.is_true v = true
        <-> Forall2 (fun c l => c = l \/ c = l - 32) v (py "true")).
Proof.
  intros switch. unfold SettingsLoader.init, SettingsLoader.getenv.
  split; [|split; [|split]].
  - intros l.
    destruct (int (default (py "52428800") (env !! py "CHUNK_SIZE")))
      as [cs|e]; [|discriminate]. cbn [rbind].
    destruct (int (default (py "3") (env !! py "MAX_RETRIES")))
      as [mr|e]; [|discriminate]. cbn [rbind].
    destruct (env !! py "SPREADSHEET_ID") as [[|a sid]|] eqn:E1;
      cbv beta iota delta [from_option id truthy negb]; try discriminate.
    destruct (env !! py "DRIVE_FOLDER_ID") as [[|b did]|] eqn:E2;
      cbv beta iota delta [from_option id truthy negb]; try discriminate.
    intros [= <-]. subst switch. cbv beta.
    cbn [SettingsLoader.settings SettingsLoader.SPREADSHEET_ID
         SettingsLoader.DRIVE_FOLDER_ID SettingsLoader.CHUNK_SIZE
         SettingsLoader.MAX_RETRIES BASE_DIR PLAYLIST_ID KEEP_FILES
         UPLOAD_TO_DRIVE].
    repeat split; try discriminate; try reflexivity.
    + destruct (env !! py "KEEP_FILES"); reflexivity.
    + destruct (env !! py "UPLOAD_TO_DRIVE"); reflexivity.
  - intros e ->. reflexivity.
  - intros cs mr -> -> E. cbn [rbind]. rewrite E. reflexivity.
  - intros v. unfold SettingsLoader.is_true, pystr_eqb.
    rewrite bool_decide_eq_true.
    change (py "true") with [116; 114; 117; 101].
    unfold PyUrllib.lower. split.
    + destruct v as [|a [|b [|c [|d [|x v]]]]]; try discriminate.
      cbn [List.map]. intros [= Ha Hb Hc Hd].
      apply lower_char_letter in Ha, Hb, Hc, Hd; try lia.
      do 4 (constructor; [assumption|]). constructor.
    + intros H.
      repeat match goal with
             | H : Forall2 _ _ (_ :: _) |- _ =>
                 apply Forall2_cons_inv_r in H as (? & ? & ? & H & ->)
             | H : Forall2 _ _ [] |- _ => apply Forall2_nil_inv_r in H as ->
             end.
      cbn [List.map].
      repeat match goal with
             | H : ?c = ?l \/ ?c = ?l - 32 |- _ =>
                 rewrite (proj2 (lower_char_letter c l ltac:(lia) ltac:(lia)) H);
                 clear H
             end.
      reflexivity.
Qed.

(** ** The input loop *)

Lemma process_video_report L s o url w e w1 :
  Processor.process_video L s o url w = (Raise e, w1) ->
  exists m, Main.report e = [newline] ++ py "Error: Processing error: " ++ m.
Proof.
  unfold Processor.process_video, try_except. intros E.
  match type of E with
  | (match ?m w with _ => _ end) = _ =>
      destruct (m w) as [[?|e0] ?]; [discriminate|]
  end.
  injection E as <- _. exists (exc_msg e0). reflexivity.
Qed.

Lemma Forall_printed (P : pystr -> Prop) (printed : list pystr)
    (r : list pystr * bool * World) :
  Forall P printed ->
  Forall P (fst (fst r)) ->
  Forall P (fst (fst (let '(out, ended, w') := r in
                      (printed ++ out, ended, w')))).
Proof.
  destruct r as [[out ended] w']. cbn [fst]. intros H1 H2.
  apply Forall_app. split; assumption.
Qed.

Lemma loop_line_fixed turns m l :
  m ∈ [Main.msg_exiting; Main.msg_empty; Main.msg_processing;
       Main.msg_success; Main.msg_cancelled] ->
  Forall (loop_line turns) l -> Forall (loop_line turns) (m :: l).
Proof. intros Hm Hl. constructor; [left; exact Hm | exact Hl]. Qed.

(** X29. The loop reports an unexpected error only for a failure of
    [input]: whatever the turns and whatever the collaborators do, each line
    the loop prints is one of its five fixed messages, the report of a
    [ProcessingError], which starts with the word [Error] and the prefix of
    [process_video], or the report of an exception raised by [input] in one
    of the turns; and whatever [process_video] raises is reported by the
    handler for the errors of the application. *)
Theorem loop_reports_processing_errors L s o turns w :
  Forall (loop_line turns) (fst (fst (Main.process_videos L s o turns w)))
  /\ (forall url w0 e w1,
        Processor.process_video L s o url w0 = (Raise e, w1) ->
        exists m,
          Main.report e = [newline] ++ py "Error: Processing error: " ++ m).
Proof.
  split; [|intros url w0 e w1; apply process_video_report].
  revert w. induction turns as [|t rest IH]; intros w; [constructor|].
  assert (Hrest : forall w1,
            Forall (loop_line (t :: rest))
              (fst (fst (Main.process_videos L s o rest w1)))).
  { intros w1. eapply Forall_impl; [apply IH|].
    intros line [H|[H|(e & He & H)]]; [left; exact H | right; left; exact H|].
    right; right. exists e. split; [right; exact He | exact H]. }
  cbn [Main.process_videos].
  destruct t as [line|line wi| |e].
  - destruct (Main.is_quit (strip isspace line)).
    + cbn [fst]. apply loop_line_fixed; [repeat constructor | constructor].
    + destruct (negb (truthy (strip isspace line))).
      * apply Forall_printed; [|apply Hrest].
        apply loop_line_fixed; [repeat constructor | constructor].
      * destruct (Processor.process_video L s o (strip isspace line) w)
          as [[[]|e] w1] eqn:E.
        -- apply Forall_printed; [|apply Hrest].
           apply loop_line_fixed; [repeat constructor|].
           apply loop_line_fixed; [repeat constructor | constructor].
        -- apply Forall_printed; [|apply Hrest].
           apply loop_line_fixed; [repeat constructor|].
           constructor; [|constructor].
           right; left. eapply process_video_report, E.
  - destruct (Main.is_quit (strip isspace line)).
    + cbn [fst]. apply loop_line_fixed; [repeat constructor | constructor].
    + destruct (negb (truthy (strip isspace line))).
      * apply Forall_printed; [|apply Hrest].
        apply loop_line_fixed; [repeat constructor | constructor].
      * cbn [fst]. apply loop_line_fixed; [repeat constructor|].
        apply loop_line_fixed; [repeat constructor | constructor].
  - cbn [fst]. apply loop_line_fixed; [repeat constructor | constructor].
  - apply Forall_printed; [|apply Hrest].
    constructor; [|constructor]. right; right. exists e.
    split; [left | reflexivity].
Qed.

(** The three parts of the statement on the course of the loop. *)
Lemma loop_app L s o pre post w :
  Main.process_videos L s o (pre ++ post) w
  = (let '(out1, ended1, w1) := Main.process_videos L s o pre w in
     if ended1 then (out1, true, w1)
     else let '(out2, ended2, w2) := Main.process_videos L s o post w1 in
          (out1 ++ out2, ended2, w2)).
Proof.
  revert w. induction pre as [|t pre IH]; intros w.
  - cbn [app Main.process_videos].
    destruct (Main.process_videos L s o post w) as [[out2 e2] w2].
    reflexivity.
  - assert (Hnext : forall printed wv,
              (let '(out, ended, w') :=
                 Main.process_videos L s o (pre ++ post) wv in
               (printed ++ out, ended, w'))
              = (let '(out1, ended1, w1) :=
                   (let '(out, ended, w') := Main.process_videos L s o pre wv in
                    (printed ++ out, ended, w')) in
                 if ended1 then (out1, true, w1)
                 else let '(out2, ended2, w2) :=
                        Main.process_videos L s o post w1 in
                      (out1 ++ out2, ended2, w2))).
    { intros printed wv. rewrite IH.
      destruct (Main.process_videos L s o pre wv) as [[out1 e1] w1].
      destruct e1; [reflexivity|].
      destruct (Main.process_videos L s o post w1) as [[out2 e2] w2].
      rewrite app_assoc. reflexivity. }
    change ((t :: pre) ++ post) with (t :: (pre ++ post)).
    cbn [Main.process_videos].
    destruct t as [line|line wi| |e].
    + destruct (Main.is_quit (strip isspace line)); [reflexivity|].
      destruct (negb (truthy (strip isspace line))); [apply Hnext|].
      destruct (Processor.process_video L s o (strip isspace line) w)
        as [[[]|e] wv]; apply Hnext.
    + destruct (Main.is_quit (strip isspace line)); [reflexivity|].
      destruct (negb (truthy (strip isspace line))); [apply Hnext|].
      reflexivity.
    + reflexivity.
    + apply Hnext.
Qed.

Lemma loop_ended L s o turns w :
  snd (fst (Main.process_videos L s o turns w)) = existsb ends_loop turns.
Proof.
  revert w. induction turns as [|t rest IH]; intros w; [reflexivity|].
  assert (Hnext : forall printed wv,
            snd (fst (let '(out, ended, w') :=
                        Main.process_videos L s o rest wv in
                      (printed ++ out, ended, w')))
            = existsb ends_loop rest).
  { intros printed wv. rewrite <- (IH wv).
    destruct (Main.process_videos L s o rest wv) as [[out e] w']. reflexivity. }
  cbn [Main.process_videos existsb].
  destruct t as [line|line wi| |e]; cbn [ends_loop].
  - destruct (Main.is_quit (strip isspace line)); [reflexivity|].
    cbn [orb]. destruct (negb (truthy (strip isspace line))); [apply Hnext|].
    destruct (Processor.process_video L s o (strip isspace line) w)
      as [[[]|e] wv]; apply Hnext.
  - destruct (Main.is_quit (strip isspace line)); [reflexivity|].
    cbn [orb]. destruct (truthy (strip isspace line)); cbn [negb orb];
      [reflexivity | apply Hnext].
  - reflexivity.
  - apply Hnext.
Qed.

Lemma loop_blank L s o turns w :
  Forall blank_turn turns ->
  snd (Main.process_videos L s o turns w) = w
  /\ fst (fst (Main.process_videos L s o turns w))
     = List.map (fun _ => Main.msg_empty) turns.
Proof.
  induction 1 as [|t rest (line & -> & Hline) Hrest IH];
    [split; reflexivity|].
  cbn [Main.process_videos List.map]. rewrite Hline.
  change (Main.is_quit []) with false. cbn [truthy negb].
  destruct (Main.process_videos L s o rest w) as [[out e] w'].
  cbn [fst snd] in *. destruct IH as [-> ->]. split; reflexivity.
Qed.

(** X30. The loop goes on after a failed video and after a failure of
    [input], and stops at the quit command or at a keyboard interrupt: the
    turns after a first batch are handled from the world that batch left,
    unless the batch had a turn that ends the loop, a line that is [q] or
    [Q] with white space around it, or an interrupt, in which case
    nothing after that turn is read. A line of white space only prints a
    message and changes nothing. *)
Theorem loop_continues_until_quit L s o pre post w :
  let '(out1, ended1, w1) := Main.process_videos L s o pre w in
  Main.process_videos L s o (pre ++ post) w
  = (if ended1 then (out1, true, w1)
     else let '(out2, ended2, w2) := Main.process_videos L s o post w1 in
          (out1 ++ out2, ended2, w2))
  /\ ended1 = existsb ends_loop pre
  /\ (Forall blank_turn pre ->
      w1 = w /\ out1 = List.map (fun _ => Main.msg_empty) pre).
Proof.
  pose proof (loop_app L s o pre post w) as H1.
  pose proof (loop_ended L s o pre w) as H2.
  pose proof (loop_blank L s o pre w) as H3.
  destruct (Main.process_videos L s o pre w) as [[out1 e1] w1].
  cbn [fst snd] in *. split; [exact H1|]. split; [exact H2 | exact H3].
Qed.

Lemma loop_continues_until_quit_witness :
  let e := Exc OSError (py "[Errno 9] Bad file descriptor") in
  let pre := [Main.InputRaises e; Main.Typed (py "  ");
              Main.Typed (py "https://example.com/x"); Main.Interrupted] in
  let post := [Main.Typed (py "q")] in
  Main.process_videos PyUrllib.lib (Sample.settings true true) Sample.all_fine
    (pre ++ post) Sample.world
  = ([[newline] ++ py "Unexpected error: [Errno 9] Bad file descriptor";
      Main.msg_empty;
      Main.msg_processing;
      [newline] ++ py "Error: Processing error: Could not extract valid video ID from URL";
      Main.msg_cancelled],
     true, Sample.world).
Proof.
  intros e pre post.
  pose proof (loop_continues_until_quit PyUrllib.lib (Sample.settings true true)
                Sample.all_fine pre post Sample.world) as H.
  destruct (Main.process_videos PyUrllib.lib (Sample.settings true true)
              Sample.all_fine pre Sample.world) as [[out1 e1] w1] eqn:E.
  destruct H as (H1 & H2 & _).
  rewrite H2 in H1, E. change (existsb ends_loop pre) with true in H1, E.
  rewrite H1, <- E. vm_compute. reflexivity.
Defined.
